(** * The Twitch reference scraper ([scraper.py]): a shallow embedding

    The development follows the source file top to bottom: the Python
    string operations the scraper relies on, the BeautifulSoup tree it
    walks, the two record types, and then each function of the module.

    Text is modelled by Rocq strings.  The model is exact on ASCII text;
    a character beyond ASCII is written as its UTF-8 bytes: the em dash of
    [pull_possible_values_list], the only such literal of the source, and
    the characters that the escapes of a JSON string stand for. *)

From Stdlib Require Import Ascii String ZArith Lia Bool.
From stdpp Require Import base option list strings gmap.

Local Open Scope string_scope.
Local Open Scope nat_scope.
Local Open Scope list_scope.

(** String concatenation is written [+:+]; let [simpl] unfold it on a
    literal head, as it does for lists. *)
#[local] Arguments String.append !_ _ / : simpl nomatch.

(** ** Outcomes of a Python computation *)

(** The exceptions the module can raise.  None of them is caught, except
    [JSONDecodeError] in [scrape_doc_section]; that one is a subclass of
    [ValueError] in Python, but the handler names the subclass, so the two
    are kept apart here. *)
Inductive exn : Type :=
| AttributeError   (* attribute access on [None] *)
| IndexError       (* sequence index out of range *)
| KeyError (key : string)
| TypeError        (* item assignment on [None] *)
| ValueError
| JSONDecodeError  (* [json.loads] on a text that is not JSON *)
| RecursionError.  (* [json.loads] on a text nested too deep *)

(** [OutOfFuel] is not a Python outcome: it marks a run of the model whose
    loop budget was too small to reach the end of the [while True] of
    [fix_json_property].  Four turns are always enough for the two property
    names of the source ([fix_json_property_total] below).  The decoder of
    [json.loads] recurses on a budget as well, and is given one that is
    always enough ([loads_decoded] below). *)
Inductive Result (A : Type) : Type :=
| Ok (a : A)
| Raise (e : exn)
| OutOfFuel.

Arguments Ok {A} a.
Arguments Raise {A} e.
Arguments OutOfFuel {A}.

Definition bind {A B : Type} (m : Result A) (k : A -> Result B) : Result B :=
  match m with
  | Ok a => k a
  | Raise e => Raise e
  | OutOfFuel => OutOfFuel
  end.

Notation "'do' x <- m ; k" := (bind m (fun x => k))
  (at level 10, x name, m at level 100, k at level 200).
Notation "'do' ' p <- m ; k" := (bind m (fun x => match x with p => k end))
  (at level 10, p pattern, m at level 100, k at level 200).

(** [for x in xs: ys.append(f x)], stopping at the first exception. *)
Fixpoint mapM {A B : Type} (f : A -> Result B) (xs : list A) : Result (list B) :=
  match xs with
  | [] => Ok []
  | x :: xs' => do y <- f x; do ys <- mapM f xs'; Ok (y :: ys)
  end.

(** [x.attr] where [x] may be [None]. *)
Definition not_none {A : Type} (o : option A) : Result A :=
  match o with
  | Some a => Ok a
  | None => Raise AttributeError
  end.

(** [xs[i]] on a list. *)
Definition list_item {A : Type} (xs : list A) (i : nat) : Result A :=
  match xs !! i with
  | Some a => Ok a
  | None => Raise IndexError
  end.

(** ** Python [str] operations *)

Module Py.

Definition dquote : ascii := "034"%char.
Definition quote : string := String dquote EmptyString.

(** The property name between double quotes, as the f-string builds it. *)
Definition quoted (s : string) : string := quote +:+ s +:+ quote.

Definition len (s : string) : nat := String.length s.

(** [s[n:]] and [s[:n]] for [n >= 0]; slices clamp, they never raise. *)
Fixpoint drop (n : nat) (s : string) : string :=
  match n, s with
  | 0, _ => s
  | S _, EmptyString => EmptyString
  | S n', String _ s' => drop n' s'
  end.

Fixpoint take (n : nat) (s : string) : string :=
  match n, s with
  | 0, _ => EmptyString
  | S _, EmptyString => EmptyString
  | S n', String c s' => String c (take n' s')
  end.

(** The last character, if any. *)
Fixpoint last (s : string) : option ascii :=
  match s with
  | EmptyString => None
  | String c EmptyString => Some c
  | String _ s' => last s'
  end.

(** [s[1:-1]]. *)
Definition slice_1_m1 (s : string) : string := take (len s - 2) (drop 1 s).

(** [s[i]], where a negative [i] counts from the end. *)
Definition getitem (s : string) (i : Z) : Result ascii :=
  let j := if (i <? 0)%Z then (i + Z.of_nat (len s))%Z else i in
  if (j <? 0)%Z then Raise IndexError
  else match String.get (Z.to_nat j) s with
       | Some c => Ok c
       | None => Raise IndexError
       end.

Fixpoint startswith (s p : string) {struct p} : bool :=
  match p, s with
  | EmptyString, _ => true
  | String _ _, EmptyString => false
  | String c p', String d s' => if Ascii.eqb c d then startswith s' p' else false
  end.

Definition endswith (s p : string) : bool :=
  (len p <=? len s) && String.eqb (drop (len s - len p) s) p.

(** [s.index(sub)]: the lowest index at which [sub] occurs, [None] for
    the [ValueError] of a missing substring. *)
Fixpoint find (s sub : string) : option nat :=
  if startswith s sub then Some 0
  else match s with
       | EmptyString => None
       | String _ s' => option_map S (find s' sub)
       end.

(** [sub in s]. *)
Definition contains (s sub : string) : bool :=
  match find s sub with Some _ => true | None => false end.

(** [s.replace(old, new)]: occurrences are replaced left to right and do
    not overlap; [skip] counts the characters of the occurrence being
    replaced that are still to be passed over. *)
Fixpoint replace_go (s old new : string) (skip : nat) : string :=
  match s with
  | EmptyString =>
      match old with EmptyString => new | _ => EmptyString end
  | String c s' =>
      match skip with
      | S k => replace_go s' old new k
      | 0 =>
          if startswith s old
          then new +:+
               match old with
               | EmptyString => String c (replace_go s' old new 0)
               | _ => replace_go s' old new (len old - 1)
               end
          else String c (replace_go s' old new 0)
      end
  end.

Definition replace (s old new : string) : string := replace_go s old new 0.

(** [s.split(sep)] for a non-empty [sep] (the source only splits on
    non-empty literals).  Every step consumes at least one character, so
    [len s] steps are enough. *)
Fixpoint split_go (n : nat) (s sep : string) : list string :=
  match n with
  | 0 => [s]
  | S n' =>
      match find s sep with
      | None => [s]
      | Some i => take i s :: split_go n' (drop (i + len sep) s) sep
      end
  end.

Definition split (s sep : string) : list string := split_go (len s) s sep.

(** [sep.join(parts)]. *)
Fixpoint join (sep : string) (parts : list string) : string :=
  match parts with
  | [] => EmptyString
  | [p] => p
  | p :: rest => p +:+ sep +:+ join sep rest
  end.

(** ASCII white space as [str.isspace] has it: tab to carriage return,
    the four separators 28..31 and the blank. *)
Definition isspace (c : ascii) : bool :=
  let n := nat_of_ascii c in
  ((9 <=? n) && (n <=? 13)) || ((28 <=? n) && (n <=? 32)).

Fixpoint lstrip_by (p : ascii -> bool) (s : string) : string :=
  match s with
  | EmptyString => EmptyString
  | String c s' => if p c then lstrip_by p s' else s
  end.

Fixpoint rstrip_by (p : ascii -> bool) (s : string) : string :=
  match s with
  | EmptyString => EmptyString
  | String c s' =>
      match rstrip_by p s' with
      | EmptyString => if p c then EmptyString else String c EmptyString
      | r => String c r
      end
  end.

(** [s.strip()]. *)
Definition strip (s : string) : string := rstrip_by isspace (lstrip_by isspace s).

Fixpoint char_in (c : ascii) (chars : string) : bool :=
  match chars with
  | EmptyString => false
  | String d chars' => Ascii.eqb c d || char_in c chars'
  end.

(** [s.rstrip(chars)]. *)
Definition rstrip (s chars : string) : string :=
  rstrip_by (fun c => char_in c chars) s.

Definition casefold_char (c : ascii) : ascii :=
  let n := nat_of_ascii c in
  if (65 <=? n) && (n <=? 90) then ascii_of_nat (n + 32) else c.

(** [s.casefold()] on ASCII text. *)
Fixpoint casefold (s : string) : string :=
  match s with
  | EmptyString => EmptyString
  | String c s' => String (casefold_char c) (casefold s')
  end.

(** [template.format(arg)] with one positional argument.  Literal text is
    copied, [{{] and [}}] stand for one brace, and the fields [{0}] and
    [{}] are replaced by [arg]; a lone brace and a mix of the two
    numbering styles raise [ValueError], a second [{}] raises
    [IndexError].  This covers the templates the source
    builds from a key text without braces, which end with [{0}] and hold
    no other field.  Any other replacement field (a name, another index,
    an attribute, a subscript, a conversion, a format specification) is
    beyond the model, which reports [ValueError] for it whatever Python
    does; the statements about formatted keys are made for key texts
    without braces. *)
Inductive numbering : Type := NoField | Automatic | Manual.

Fixpoint format_go (t arg : string) (mode : numbering) : Result string :=
  match t with
  | EmptyString => Ok EmptyString
  | String "{" (String "{" t') =>
      do r <- format_go t' arg mode; Ok (String "{" r)
  | String "}" (String "}" t') =>
      do r <- format_go t' arg mode; Ok (String "}" r)
  | String "{" (String "0" (String "}" t')) =>
      match mode with
      | Automatic => Raise ValueError
      | _ => do r <- format_go t' arg Manual; Ok (arg +:+ r)
      end
  | String "{" (String "}" t') =>
      match mode with
      | NoField => do r <- format_go t' arg Automatic; Ok (arg +:+ r)
      | Automatic => Raise IndexError
      | Manual => Raise ValueError
      end
  | String "{" _ => Raise ValueError
  | String "}" _ => Raise ValueError
  | String c t' =>
      do r <- format_go t' arg mode; Ok (String c r)
  end.

Definition format (t arg : string) : Result string := format_go t arg NoField.

End Py.

(** ** [fix_json_property] *)

(** The [while True] loop; [index] is the loop variable of the source,
    assigned the position that [str.index] reports inside the slice
    [string_copy[index:]]. *)
Fixpoint fix_json_loop (fuel : nat) (property_name string_copy : string)
    (index : nat) : Result string :=
  match fuel with
  | 0 => OutOfFuel
  | S fuel' =>
      match Py.find (Py.drop index string_copy) (Py.quoted property_name) with
      | None => Ok string_copy
      | Some index' =>
          do c <- Py.getitem string_copy (Z.of_nat index' - 1);
          if negb (Py.char_in c ",{")
          then fix_json_loop fuel' property_name
                 (Py.take index' string_copy +:+ "," +:+ Py.drop index' string_copy)
                 index'
          else Ok string_copy
      end
  end.

Definition fix_json_property (fuel : nat) (json_string property_name : string)
  : Result string :=
  fix_json_loop fuel property_name json_string 0.

(** ** The BeautifulSoup tree *)

(** An attribute value is a string, or a list of tokens for the
    multi-valued attributes such as [class]. *)
Inductive AttrValue : Type :=
| AttrStr (s : string)
| AttrList (tokens : list string).

(** A page element is a text node or a tag; the [name] of a text node is
    [None]. *)
#[warnings="-register-all"]
Inductive PageElement : Type :=
| NavigableString (text : string)
| Tag (tag_name : string) (tag_attrs : gmap string AttrValue)
      (tag_children : list PageElement).

Module Soup.

Definition name (e : PageElement) : option string :=
  match e with
  | NavigableString _ => None
  | Tag n _ _ => Some n
  end.

Definition is_tag (e : PageElement) : bool :=
  match e with
  | NavigableString _ => false
  | Tag _ _ _ => true
  end.

Definition attrs (e : PageElement) : gmap string AttrValue :=
  match e with
  | NavigableString _ => ∅
  | Tag _ a _ => a
  end.

(** [tag.children]; the source only reads it on tags. *)
Definition children (e : PageElement) : list PageElement :=
  match e with
  | NavigableString _ => []
  | Tag _ _ cs => cs
  end.

(** [[child for child in row.children if isinstance(child, Tag)]]. *)
Definition cells (row : PageElement) : list PageElement :=
  List.filter is_tag (children row).

(** [child.name == n]. *)
Definition name_is (e : PageElement) (n : string) : bool :=
  match name e with
  | Some m => String.eqb m n
  | None => false
  end.

(** Truth value of an attribute lookup [attrs.get(k, None)]. *)
Definition truthy (v : option AttrValue) : bool :=
  match v with
  | None => false
  | Some (AttrStr s) => negb (String.eqb s "")
  | Some (AttrList l) => match l with [] => false | _ => true end
  end.

(** The text nodes below an element, in document order. *)
Fixpoint strings (e : PageElement) : list string :=
  match e with
  | NavigableString s => [s]
  | Tag _ _ cs => concat (map strings cs)
  end.

Definition nonempty (s : string) : bool := negb (String.eqb s "").

(** [tag.get_text(strip=True, separator=sep)]: every text node is
    stripped, the empty ones are dropped, the rest joined by [sep]. *)
Definition get_text (e : PageElement) (sep : string) : string :=
  Py.join sep (List.filter nonempty (map Py.strip (strings e))).

(** [tag.descendants]: everything below the element, in document order. *)
Fixpoint descendants (e : PageElement) : list PageElement :=
  match e with
  | NavigableString _ => []
  | Tag _ _ cs => concat (map (fun c => c :: descendants c) cs)
  end.

(** How bs4 compares one attribute with the string asked for: a token
    list matches through any of its tokens or through the tokens joined
    by blanks. *)
Definition attr_matches (v : option AttrValue) (wanted : string) : bool :=
  match v with
  | None => false
  | Some (AttrStr s) => String.eqb s wanted
  | Some (AttrList l) =>
      existsb (fun t => String.eqb t wanted) l || String.eqb (Py.join " " l) wanted
  end.

(** The filter of [find(n, attrs={...})] and [find_next(n, attrs={...})]. *)
Definition matches (n : string) (wanted : list (string * string))
    (e : PageElement) : bool :=
  name_is e n && forallb (fun kv => attr_matches (attrs e !! kv.1) kv.2) wanted.

Fixpoint first_match (p : PageElement -> bool) (l : list PageElement)
  : option PageElement :=
  match l with
  | [] => None
  | e :: l' => if p e then Some e else first_match p l'
  end.

(** [tag.find(n, attrs=wanted)]: the first matching descendant. *)
Definition find (e : PageElement) (n : string) (wanted : list (string * string))
  : option PageElement :=
  first_match (matches n wanted) (descendants e).

(** An element as the scraper holds it: the element itself together with
    [next_elements], everything that comes after its opening in the
    document (its own descendants first). *)
Record Node : Type := mkNode {
  elem : PageElement;
  next_elements : list PageElement
}.

Definition root (soup : PageElement) : Node :=
  mkNode soup (descendants soup).

(** The first element satisfying [p] among the first [d] entries of [l],
    located: what follows it in [l] follows it in the document. *)
Fixpoint find_within (p : PageElement -> bool) (d : nat) (l : list PageElement)
  : option Node :=
  match d, l with
  | S d', e :: l' => if p e then Some (mkNode e l') else find_within p d' l'
  | _, _ => None
  end.

(** [find] on a located element searches its descendants, which are the
    first entries of its [next_elements]. *)
Definition find_node (n : Node) (nm : string) (wanted : list (string * string))
  : option Node :=
  find_within (matches nm wanted) (length (descendants (elem n))) (next_elements n).

(** The children of a located element, located in turn; [following] is
    the document from the first child on. *)
Fixpoint child_nodes (cs : list PageElement) (following : list PageElement)
  : list Node :=
  match cs with
  | [] => []
  | c :: cs' =>
      mkNode c (List.skipn 1 following)
      :: child_nodes cs' (List.skipn (S (length (descendants c))) following)
  end.

Definition children_nodes (n : Node) : list Node :=
  child_nodes (children (elem n)) (next_elements n).

(** [tag.find_next(n, attrs=wanted)]: the first match after the element's
    opening, anywhere in the rest of the document. *)
Definition find_next (n : Node) (nm : string) (wanted : list (string * string))
  : option PageElement :=
  first_match (matches nm wanted) (next_elements n).

End Soup.

(** ** The records *)

(** A parsed JSON document as [json.loads] returns it.  An object keeps
    its members in insertion order, one entry per key; a number with a
    fraction or an exponent is kept as its literal. *)
#[warnings="-register-all"]
Inductive JSON : Type :=
| JNull
| JBool (b : bool)
| JInt (z : Z)
| JFloat (literal : string)
| JString (s : string)
| JArray (items : list JSON)
| JObject (members : list (string * JSON)).

(** [HttpField] and [EndpointDoc] are [TypedDict]s declared with
    [total=False]: every key may be absent. *)
Record HttpField : Type := mkHttpField {
  key : option string;
  type_ : option string;
  required : option bool;
  description : option string;
  default_value : option string;
  possible_values : option (list string)
}.

Record EndpointDoc : Type := mkEndpointDoc {
  summary : option string;
  url : option string;
  method : option string;
  title : option string;
  scopes : option (list string);
  request_body : option (list HttpField);
  response_body : option (list HttpField);
  query_params : option (list HttpField);
  example_response : option JSON
}.

(** The empty dictionary [{}]. *)
Definition empty_doc : EndpointDoc :=
  mkEndpointDoc None None None None None None None None None.

(** [d[k]] on a key that may be absent. *)
Definition item {A : Type} (k : string) (v : option A) : Result A :=
  match v with
  | Some a => Ok a
  | None => Raise (KeyError k)
  end.

Definition set_required (b : bool) (f : HttpField) : HttpField :=
  mkHttpField (key f) (type_ f) (Some b) (description f) (default_value f)
    (possible_values f).
Definition set_description (d : string) (f : HttpField) : HttpField :=
  mkHttpField (key f) (type_ f) (required f) (Some d) (default_value f)
    (possible_values f).
Definition set_default_value (d : string) (f : HttpField) : HttpField :=
  mkHttpField (key f) (type_ f) (required f) (description f) (Some d)
    (possible_values f).
Definition set_possible_values (l : list string) (f : HttpField) : HttpField :=
  mkHttpField (key f) (type_ f) (required f) (description f) (default_value f)
    (Some l).

Definition set_title (v : string) (d : EndpointDoc) : EndpointDoc :=
  mkEndpointDoc (summary d) (url d) (method d) (Some v) (scopes d)
    (request_body d) (response_body d) (query_params d) (example_response d).
Definition set_summary (v : string) (d : EndpointDoc) : EndpointDoc :=
  mkEndpointDoc (Some v) (url d) (method d) (title d) (scopes d)
    (request_body d) (response_body d) (query_params d) (example_response d).
Definition set_scopes (v : list string) (d : EndpointDoc) : EndpointDoc :=
  mkEndpointDoc (summary d) (url d) (method d) (title d) (Some v)
    (request_body d) (response_body d) (query_params d) (example_response d).
Definition set_method_url (m u : string) (d : EndpointDoc) : EndpointDoc :=
  mkEndpointDoc (summary d) (Some u) (Some m) (title d) (scopes d)
    (request_body d) (response_body d) (query_params d) (example_response d).
Definition set_request_body (v : list HttpField) (d : EndpointDoc) : EndpointDoc :=
  mkEndpointDoc (summary d) (url d) (method d) (title d) (scopes d)
    (Some v) (response_body d) (query_params d) (example_response d).
Definition set_response_body (v : list HttpField) (d : EndpointDoc) : EndpointDoc :=
  mkEndpointDoc (summary d) (url d) (method d) (title d) (scopes d)
    (request_body d) (Some v) (query_params d) (example_response d).
Definition set_query_params (v : list HttpField) (d : EndpointDoc) : EndpointDoc :=
  mkEndpointDoc (summary d) (url d) (method d) (title d) (scopes d)
    (request_body d) (response_body d) (Some v) (example_response d).
Definition set_example_response (v : JSON) (d : EndpointDoc) : EndpointDoc :=
  mkEndpointDoc (summary d) (url d) (method d) (title d) (scopes d)
    (request_body d) (response_body d) (query_params d) (Some v).

(** ** [pull_scopes] and [pull_possible_values_list] *)

Definition find_all (e : PageElement) (n : string) : list PageElement :=
  List.filter (Soup.matches n []) (Soup.descendants e).

Definition pull_scopes (tag : PageElement) : list string :=
  map (fun scope_tag => Py.casefold (Soup.get_text scope_tag " "))
      (find_all tag "strong").

(** The em dash U+2014, as the three bytes of its UTF-8 encoding. *)
Definition em_dash : string :=
  String "226"%char (String "128"%char (String "148"%char EmptyString)).

Definition possible_value (child : PageElement) : Result string :=
  let value_text := Soup.get_text child " " in
  if Py.contains value_text em_dash
  then list_item (Py.split value_text (" " +:+ em_dash +:+ " ")) 0
  else if Py.contains value_text "-"
  then list_item (Py.split value_text " - ") 0
  else Ok value_text.

Definition pull_possible_values_list (tag : PageElement) : Result (list string) :=
  match Soup.find tag "ul" [] with
  | None => Ok []
  | Some values_list_tag =>
      mapM possible_value (List.filter Soup.is_tag (Soup.children values_list_tag))
  end.

(** ** [parse_request_body] *)

(** The extraction of [default_value], once the description is known to
    contain the marker. *)
Definition extract_default (description : string) : Result (option string) :=
  if Py.contains description "The default is" then
    match Py.find description "The default is" with
    | None => Ok None
    | Some index =>
        do v <- list_item
                  (Py.split (Py.drop (index + Py.len "the default is" + 1) description) " ")
                  0;
        let v := if Py.startswith v Py.quote then Py.slice_1_m1 v else v in
        Ok (Some (Py.rstrip v ".,"))
    end
  else Ok None.

(** The annotations added once the base field is built: the possible
    values and the default value. *)
Definition annotate (field : HttpField) (raw_description : PageElement)
  : Result HttpField :=
  do d <- item "description" (description field);
  do t <- item "type" (type_ field);
  do field <-
    (if Py.contains d "Possible values" && String.eqb t (Py.casefold "string")
     then do l <- pull_possible_values_list raw_description;
          Ok (set_possible_values l field)
     else Ok field);
  do dv <- extract_default d;
  Ok (match dv with
      | Some v => set_default_value v field
      | None => field
      end).

(** The body of the [for row in body_tag.children] loop, for a row that is
    not a text node. *)
Definition request_row (row : PageElement) : Result HttpField :=
  let table_data := Soup.cells row in
  do c0 <- list_item table_data 0;
  do c1 <- list_item table_data 1;
  let field :=
    mkHttpField (Some (Soup.get_text c0 " "))
                (Some (Py.casefold (Soup.get_text c1 " ")))
                None None None None in
  do '(field, raw_description) <-
    (if length table_data =? 4 then
       do c2 <- list_item table_data 2;
       let bool_text := Py.casefold (Soup.get_text c2 "") in
       do c3 <- list_item table_data 3;
       let field := set_description (Soup.get_text c3 " ") field in
       let field :=
         if String.eqb bool_text "yes" then set_required true field
         else if String.eqb bool_text "no" then set_required false field
         else field in
       Ok (field, c3)
     else
       let field := set_required false field in
       do c2 <- list_item table_data 2;
       Ok (set_description (Soup.get_text c2 " ") field, c2));
  annotate field raw_description.

Definition parse_request_body (tag : PageElement) : Result (list HttpField) :=
  do body_tag <- not_none (Soup.find tag "tbody" []);
  mapM request_row (List.filter Soup.is_tag (Soup.children body_tag)).

(** ** [parse_response_body] *)

(** One turn of the loop: the field appended to [container] and the value
    of [key_format_string] after the turn. *)
Definition response_row (key_format_string : option string) (row : PageElement)
  : Result (HttpField * option string) :=
  let data := Soup.cells row in
  do c0 <- list_item data 0;
  let k := Soup.get_text c0 " " in
  do c1 <- list_item data 1;
  let data_type := Soup.get_text c1 " " in
  do c2 <- list_item data 2;
  let descr := Soup.get_text c2 " " in
  do formatted <-
    match key_format_string with
    | None => Ok k
    | Some template => Py.format template k
    end;
  let field :=
    mkHttpField (Some (Py.casefold formatted)) (Some (Py.casefold data_type))
                None (Some descr) None None in
  do fk <- item "key" (key field);
  if Py.endswith (Py.casefold fk) (Py.casefold "[]")
  then Ok (field, Some (k +:+ "[#]." +:+ "{0}"))
  else if Py.startswith (Py.casefold fk) (Py.casefold "Object")
  then Ok (field, Some (k +:+ "." +:+ "{0}"))
  else Ok (field, key_format_string).

Fixpoint response_rows (key_format_string : option string)
    (rows : list PageElement) : Result (list HttpField) :=
  match rows with
  | [] => Ok []
  | row :: rest =>
      if Soup.is_tag row then
        do '(field, key_format_string') <- response_row key_format_string row;
        do fields <- response_rows key_format_string' rest;
        Ok (field :: fields)
      else response_rows key_format_string rest
  end.

Definition parse_response_body (tag : PageElement) : Result (list HttpField) :=
  do body_tag <- not_none (Soup.find tag "tbody" []);
  response_rows None (Soup.children body_tag).

(** ** [scrape_doc_left_column] *)

(** [current_header == s] for a header that starts as [None]. *)
Definition header_is (current_header : option string) (s : string) : bool :=
  match current_header with
  | Some h => String.eqb h s
  | None => false
  end.

(** One turn of the loop over [tag.children]: the [if]/[elif] chain, on
    the record under construction and the header cursor.  The second test
    reads [endpoint_doc['title']] whenever the child is a paragraph. *)
Definition left_column_step (st : EndpointDoc * option string)
    (child : PageElement) : Result (EndpointDoc * option string) :=
  let '(endpoint_doc, current_header) := st in
  let text := Soup.get_text child " " in
  if Soup.name_is child "h2" && Soup.truthy (Soup.attrs child !! "id") then
    Ok (set_title text endpoint_doc, Some text)
  else
    do is_summary <-
      (if Soup.name_is child "p"
       then do t <- item "title" (title endpoint_doc);
            Ok (header_is current_header t)
       else Ok false);
    if is_summary then
      let previous :=
        match summary endpoint_doc with
        | Some s => if Soup.nonempty s then s else ""
        | None => ""
        end in
      Ok (set_summary (Py.strip (previous +:+ String "010" (String "010" "") +:+ text))
            endpoint_doc,
          current_header)
    else if Soup.name_is child "h3" then
      Ok (endpoint_doc, Some text)
    else if Soup.name_is child "p" && header_is current_header "Authorization" then
      Ok (set_scopes (pull_scopes child) endpoint_doc, current_header)
    else if Soup.name_is child "p" && header_is current_header "URL" then
      let segments := Py.split text " " in
      do '(http_method, u) <-
        (if length segments =? 2
         then do m <- list_item segments 0;
              do u <- list_item segments 1;
              Ok (m, u)
         else do u <- list_item segments 0;
              Ok ("GET", u));
      Ok (set_method_url http_method u endpoint_doc, current_header)
    else if Soup.name_is child "table" && header_is current_header "Request Body" then
      do fields <- parse_request_body child;
      Ok (set_request_body fields endpoint_doc, current_header)
    else if Soup.name_is child "table"
            && header_is current_header "Request Query Parameters" then
      do fields <- parse_request_body child;
      Ok (set_query_params fields endpoint_doc, current_header)
    else if Soup.name_is child "table" && header_is current_header "Response Body" then
      do fields <- parse_response_body child;
      Ok (set_response_body fields endpoint_doc, current_header)
    else Ok st.

Fixpoint left_column_loop (st : EndpointDoc * option string)
    (children : list PageElement) : Result (EndpointDoc * option string) :=
  match children with
  | [] => Ok st
  | child :: rest =>
      do st' <- left_column_step st child;
      left_column_loop st' rest
  end.

Definition scrape_doc_left_column (tag : PageElement) : Result EndpointDoc :=
  do st <- left_column_loop (empty_doc, None) (Soup.children tag);
  Ok st.1.

(** ** [json.loads] *)

(** The decoder of the standard library with its default settings, as
    CPython runs it, on the remaining input.  It ends in one of four ways:
    it returns the value, or it raises [JSONDecodeError] on a text that is
    not JSON, [ValueError] on an integer literal of more than 4300 digits
    (the interpreter's default limit on the conversion of a string to an
    [int]), or [RecursionError] on arrays and objects nested deeper than
    the interpreter allows.  The last bound is not fixed by the language:
    it is the argument [limit], the number of arrays and objects, one
    inside the other, that the scanner may enter. *)
Module Json.

Definition is_ws (c : ascii) : bool :=
  Py.char_in c (String " " (String "009" (String "010" (String "013" "")))).

Definition skip_ws (s : string) : string := Py.lstrip_by is_ws s.

Definition is_digit (c : ascii) : bool :=
  let n := nat_of_ascii c in (48 <=? n) && (n <=? 57).

Definition hex_value (c : ascii) : option N :=
  let n := nat_of_ascii c in
  if (48 <=? n) && (n <=? 57) then Some (N.of_nat (n - 48))
  else if (97 <=? n) && (n <=? 102) then Some (N.of_nat (n - 87))
  else if (65 <=? n) && (n <=? 70) then Some (N.of_nat (n - 55))
  else None.

(** The number that the four hexadecimal digits of a [\u] escape spell. *)
Definition code_unit (a b c d : ascii) : option N :=
  match hex_value a, hex_value b, hex_value c, hex_value d with
  | Some a, Some b, Some c, Some d => Some (((a * 16 + b) * 16 + c) * 16 + d)%N
  | _, _, _, _ => None
  end.

Definition is_high_surrogate (cp : N) : bool :=
  ((55296 <=? cp) && (cp <=? 56319))%N.

Definition is_low_surrogate (cp : N) : bool :=
  ((56320 <=? cp) && (cp <=? 57343))%N.

(** The code point of a surrogate pair. *)
Definition join_surrogates (high low : N) : N :=
  (65536 + ((high - 55296) * 1024 + (low - 56320)))%N.

(** The UTF-8 bytes of a code point; a surrogate left alone is written
    with three bytes like its neighbours. *)
Definition utf8 (cp : N) : string :=
  let byte (n : N) : ascii := ascii_of_N n in
  (if cp <? 128 then String (byte cp) ""
   else if cp <? 2048 then
     String (byte (192 + cp / 64)) (String (byte (128 + cp mod 64)) "")
   else if cp <? 65536 then
     String (byte (224 + cp / 4096))
       (String (byte (128 + (cp / 64) mod 64))
          (String (byte (128 + cp mod 64)) ""))
   else
     String (byte (240 + cp / 262144))
       (String (byte (128 + (cp / 4096) mod 64))
          (String (byte (128 + (cp / 64) mod 64))
             (String (byte (128 + cp mod 64)) ""))))%N.

(** Puts decoded characters in front of the rest of a string literal. *)
Definition push (chars : string) (r : option (string * string))
  : option (string * string) :=
  match r with
  | Some (str, rest) => Some (chars +:+ str, rest)
  | None => None
  end.

(** The characters of a string literal after its opening quote, up to the
    closing one; [None] when the literal is not well formed.  A [\u]
    escape stands for the code point its four digits spell; a high
    surrogate followed at once by the escape of a low one stands, with it,
    for one code point. *)
Fixpoint scanstring (s : string) : option (string * string) :=
  match s with
  | EmptyString => None
  | String "034" rest => Some (EmptyString, rest)
  | String "\" (String "u" (String a (String b (String c (String d rest))))) =>
      match code_unit a b c d with
      | None => None
      | Some cp =>
          if is_high_surrogate cp then
            match rest with
            | String "\" (String "u"
                (String a' (String b' (String c' (String d' rest'))))) =>
                match code_unit a' b' c' d' with
                | None => None
                | Some cp' =>
                    if is_low_surrogate cp'
                    then push (utf8 (join_surrogates cp cp')) (scanstring rest')
                    else push (utf8 cp) (scanstring rest)
                end
            | _ => push (utf8 cp) (scanstring rest)
            end
          else push (utf8 cp) (scanstring rest)
      end
  | String "\" (String e rest) =>
      let decoded :=
        if Py.char_in e (String "034" "\/") then Some e
        else if Ascii.eqb e "b" then Some "008"%char
        else if Ascii.eqb e "f" then Some "012"%char
        else if Ascii.eqb e "n" then Some "010"%char
        else if Ascii.eqb e "r" then Some "013"%char
        else if Ascii.eqb e "t" then Some "009"%char
        else None in
      match decoded with
      | Some c => push (String c "") (scanstring rest)
      | None => None
      end
  | String "\" EmptyString => None
  | String c rest =>
      if nat_of_ascii c <? 32 then None
      else push (String c "") (scanstring rest)
  end.

(** The longest prefix of digits, and what follows it. *)
Fixpoint digits (s : string) : string * string :=
  match s with
  | String c s' =>
      if is_digit c then let '(d, rest) := digits s' in (String c d, rest)
      else (EmptyString, s)
  | EmptyString => (EmptyString, EmptyString)
  end.

Fixpoint int_of_digits (acc : Z) (d : string) : Z :=
  match d with
  | EmptyString => acc
  | String c d' =>
      int_of_digits (acc * 10 + (Z.of_nat (nat_of_ascii c) - 48))%Z d'
  end.

(** [sys.int_info.default_max_str_digits]. *)
Definition int_max_str_digits : nat := 4300.

(** [int(literal)]: the sign does not count as a digit. *)
Definition int (literal : string) : Result JSON :=
  let '(negative, d) :=
    match literal with
    | String "-" d => (true, d)
    | d => (false, d)
    end in
  if int_max_str_digits <? Py.len d then Raise ValueError
  else Ok (JInt (if negative then - int_of_digits 0 d else int_of_digits 0 d)%Z).

(** The integer part of a number: an optional minus sign, then a single
    zero or a run of digits that does not start with zero. *)
Definition int_part (s : string) : option (string * string) :=
  let '(sign, body) :=
    match s with
    | String "-" s' => ("-", s')
    | _ => ("", s)
    end in
  match body with
  | String "0" rest => Some (sign +:+ "0", rest)
  | String c _ =>
      if is_digit c
      then let '(d, rest) := digits body in Some (sign +:+ d, rest)
      else None
  | EmptyString => None
  end.

(** The optional fraction: a dot followed by at least one digit. *)
Definition frac_part (s : string) : string * string :=
  match s with
  | String "." s' =>
      match digits s' with
      | (EmptyString, _) => ("", s)
      | (d, rest) => ("." +:+ d, rest)
      end
  | _ => ("", s)
  end.

(** The optional exponent: [e] or [E], an optional sign, at least one
    digit. *)
Definition exp_part (s : string) : string * string :=
  match s with
  | String e s' =>
      if Py.char_in e "eE" then
        let '(sign, body) :=
          match s' with
          | String c s'' =>
              if Py.char_in c "-+" then (String c "", s'') else ("", s')
          | EmptyString => ("", s')
          end in
        match digits body with
        | (EmptyString, _) => ("", s)
        | (d, rest) => (String e "" +:+ sign +:+ d, rest)
        end
      else ("", s)
  | EmptyString => ("", s)
  end.

(** A number: an integer goes through [int], a literal with a fraction or
    an exponent through [float], which accepts every one of them. *)
Definition number (s : string) : Result (JSON * string) :=
  match int_part s with
  | None => Raise JSONDecodeError
  | Some (i, rest) =>
      let '(f, rest) := frac_part rest in
      let '(e, rest) := exp_part rest in
      match f +:+ e with
      | EmptyString => do v <- int i; Ok (v, rest)
      | _ => Ok (JFloat (i +:+ f +:+ e), rest)
      end
  end.

(** [d[k] = v] on the members of an object. *)
Fixpoint dict_set (k : string) (v : JSON) (members : list (string * JSON))
  : list (string * JSON) :=
  match members with
  | [] => [(k, v)]
  | (k', v') :: rest =>
      if String.eqb k k' then (k, v) :: rest else (k', v') :: dict_set k v rest
  end.

Definition dict_of (pairs : list (string * JSON)) : list (string * JSON) :=
  fold_left (fun d kv => dict_set kv.1 kv.2 d) pairs [].

(** A literal [word] at the head of the input. *)
Definition literal (word : string) (v : JSON) (s : string)
  : Result (JSON * string) :=
  if Py.startswith s word then Ok (v, Py.drop (Py.len word) s)
  else Raise JSONDecodeError.

(** A string literal, after its opening quote. *)
Definition string_literal (s : string) : Result (string * string) :=
  match scanstring s with
  | Some r => Ok r
  | None => Raise JSONDecodeError
  end.

(** The scanner.  An opening brace or bracket is entered only while
    [limit] allows it.  Every recursive call spends one unit of [fuel]
    and is preceded by the consumption of at least one character every
    second call, so twice the length of the text is enough. *)
Fixpoint value (fuel limit : nat) (s : string) : Result (JSON * string) :=
  match fuel with
  | 0 => OutOfFuel
  | S fuel' =>
      match s with
      | String "034" rest =>
          do '(str, rest') <- string_literal rest; Ok (JString str, rest')
      | String "{" rest =>
          match limit with
          | 0 => Raise RecursionError
          | S limit' =>
              match skip_ws rest with
              | String "}" rest' => Ok (JObject [], rest')
              | rest' =>
                  do '(pairs, rest'') <- members fuel' limit' rest';
                  Ok (JObject (dict_of pairs), rest'')
              end
          end
      | String "[" rest =>
          match limit with
          | 0 => Raise RecursionError
          | S limit' =>
              match skip_ws rest with
              | String "]" rest' => Ok (JArray [], rest')
              | rest' =>
                  do '(items, rest'') <- elements fuel' limit' rest';
                  Ok (JArray items, rest'')
              end
          end
      | String "n" _ => literal "null" JNull s
      | String "t" _ => literal "true" (JBool true) s
      | String "f" _ => literal "false" (JBool false) s
      | String "N" _ => literal "NaN" (JFloat "NaN") s
      | String "I" _ => literal "Infinity" (JFloat "Infinity") s
      | String "-" (String "I" _) => literal "-Infinity" (JFloat "-Infinity") s
      | _ => number s
      end
  end

(** The items of a non-empty array, from the first item to the closing
    bracket. *)
with elements (fuel limit : nat) (s : string) : Result (list JSON * string) :=
  match fuel with
  | 0 => OutOfFuel
  | S fuel' =>
      do '(v, rest) <- value fuel' limit s;
      match skip_ws rest with
      | String "]" rest' => Ok ([v], rest')
      | String "," rest' =>
          do '(vs, rest'') <- elements fuel' limit (skip_ws rest');
          Ok (v :: vs, rest'')
      | _ => Raise JSONDecodeError
      end
  end

(** The members of a non-empty object, from the quote of the first key to
    the closing brace. *)
with members (fuel limit : nat) (s : string)
  : Result (list (string * JSON) * string) :=
  match fuel with
  | 0 => OutOfFuel
  | S fuel' =>
      match s with
      | String "034" rest =>
          do '(k, rest) <- string_literal rest;
          match skip_ws rest with
          | String ":" rest =>
              do '(v, rest) <- value fuel' limit (skip_ws rest);
              match skip_ws rest with
              | String "}" rest' => Ok ([(k, v)], rest')
              | String "," rest' =>
                  do '(kvs, rest'') <- members fuel' limit (skip_ws rest');
                  Ok ((k, v) :: kvs, rest'')
              | _ => Raise JSONDecodeError
              end
          | _ => Raise JSONDecodeError
          end
      | _ => Raise JSONDecodeError
      end
  end.

(** [json.loads(text)]: one value, white space around it, nothing else. *)
Definition loads (limit : nat) (text : string) : Result JSON :=
  do '(v, rest) <- value (2 * Py.len text + 2) limit (skip_ws text);
  match skip_ws rest with
  | EmptyString => Ok v
  | _ => Raise JSONDecodeError
  end.

End Json.

(** ** [scrape_doc_section] *)

(** The repair of the example text, from the three [replace] calls to the
    two comma fixes. *)
Definition repair (fuel : nat) (right_column_text : string) : Result string :=
  let right_column_text := Py.replace right_column_text "..." "" in
  let right_column_text := Py.replace right_column_text ",]" "]" in
  let right_column_text := Py.replace right_column_text ",}" "}" in
  do right_column_text <- fix_json_property fuel right_column_text "data";
  fix_json_property fuel right_column_text "click_action".

(** The result is [None] when no left column was found.  The two lines
    printed after a failed decoding are not part of the result; the
    handler catches [JSONDecodeError] and nothing else. *)
Definition scrape_doc_section (fuel limit : nat) (tag : Soup.Node)
  : Result (option EndpointDoc) :=
  do left_doc_scrape_result <-
    match Soup.find_next tag "section" [("class", "left-docs")] with
    | Some left_doc_column =>
        do r <- scrape_doc_left_column left_doc_column; Ok (Some r)
    | None => Ok None
    end;
  do right_doc_column <-
    not_none (Soup.find_next tag "section" [("class", "right-code")]);
  match Soup.find right_doc_column "div" [("class", "language-json")] with
  | Some right_response_column =>
      do right_column_text <-
        repair fuel (Soup.get_text right_response_column "");
      match Json.loads limit right_column_text with
      | Ok example =>
          match left_doc_scrape_result with
          | Some doc => Ok (Some (set_example_response example doc))
          | None => Raise TypeError
          end
      | Raise JSONDecodeError => Ok left_doc_scrape_result
      | Raise e => Raise e
      | OutOfFuel => OutOfFuel
      end
  | None => Ok left_doc_scrape_result
  end.

(** ** [scrape_docs] and [main] *)

(** What the HTTP client hands back: the status flag and the page, here
    already parsed by [BeautifulSoup(text, 'lxml')]. *)
Record Response : Type := mkResponse {
  ok : bool;
  soup : PageElement
}.

(** The loop over [doc_section.children]; the list collects what the
    generator yields. *)
Fixpoint walk (fuel limit : nat) (at_endpoint_definition_table : bool)
    (children : list Soup.Node) : Result (list (option EndpointDoc)) :=
  match children with
  | [] => Ok []
  | child :: rest =>
      if at_endpoint_definition_table
         || match Soup.name (Soup.elem child) with
            | None => true
            | Some n => negb (String.eqb (Py.casefold n) (Py.casefold "section"))
            end
      then walk fuel limit false rest
      else
        do r <- scrape_doc_section fuel limit child;
        do rs <- walk fuel limit at_endpoint_definition_table rest;
        Ok (r :: rs)
  end.

Definition scrape_docs (fuel limit : nat) (response : Response)
  : Result (list (option EndpointDoc)) :=
  if negb (ok response) then Ok []
  else
    do body <- not_none (Soup.find_node (Soup.root (soup response)) "body" []);
    do doc_section <- not_none (Soup.find_node body "div" [("class", "main")]);
    walk fuel limit true (Soup.children_nodes doc_section).

(** [not result]: [None] and the empty dictionary are false. *)
Definition falsy (result : option EndpointDoc) : bool :=
  match result with
  | None => true
  | Some (mkEndpointDoc None None None None None None None None None) => true
  | Some _ => false
  end.

(** The list [main] dumps to [endpoints.json]. *)
Definition main (fuel limit : nat) (response : Response)
  : Result (list EndpointDoc) :=
  do results <- scrape_docs fuel limit response;
  Ok (omap (fun r => if falsy r then None else r) results).

(** * Notions used in the statements *)

(** The first occurrence of the quoted property name, if there is one,
    is not at the very start of the text and comes right after a comma or
    an opening brace. *)
Definition separated (text property_name : string) : bool :=
  match Py.find text (Py.quoted property_name) with
  | None => true
  | Some 0 => false
  | Some (S i) =>
      match String.get i text with
      | Some c => Py.char_in c ",{"
      | None => false
      end
  end.

(** The text with every comma left out. *)
Fixpoint without_commas (s : string) : string :=
  match s with
  | EmptyString => EmptyString
  | String c s' =>
      if Ascii.eqb c "," then without_commas s' else String c (without_commas s')
  end.

(** The state the loop of [fix_json_property] is in after its first
    insertion: the first occurrence of the quoted name lies beyond [index]
    and has a comma in front of it. *)
Definition comma_in_front (property_name s : string) (index : nat) : Prop :=
  exists p,
    Py.find s (Py.quoted property_name) = Some (S p)
    /\ index <= p
    /\ String.get p s = Some ","%char.

(** The repair followed by the decoding, as [scrape_doc_section] chains
    them. *)
Definition repair_then_load (fuel limit : nat) (text : string) : Result JSON :=
  do repaired <- repair fuel text; Json.loads limit repaired.

(** The text of the first cell of a table row. *)
Definition key_text (row : PageElement) : option string :=
  match Soup.cells row with
  | c0 :: _ => Some (Soup.get_text c0 " ")
  | [] => None
  end.

(** The cell a request row takes its description from: the fourth of
    exactly four cells, the third otherwise. *)
Definition description_cell (row : PageElement) : option PageElement :=
  if length (Soup.cells row) =? 4 then Soup.cells row !! 3
  else Soup.cells row !! 2.

(** The items [pull_possible_values_list] goes through: the element
    children of the first [ul] below the tag, none without [ul]. *)
Definition list_items (tag : PageElement) : list PageElement :=
  match Soup.find tag "ul" [] with
  | None => []
  | Some values_list_tag => List.filter Soup.is_tag (Soup.children values_list_tag)
  end.

(** What a response row carries: a case-folded key, a case-folded type
    and a description, nothing else. *)
Definition response_shaped (f : HttpField) : Prop :=
  (exists k, key f = Some k /\ Py.casefold k = k)
  /\ (exists t, type_ f = Some t /\ Py.casefold t = t)
  /\ description f <> None
  /\ required f = None
  /\ default_value f = None
  /\ possible_values f = None.

(** No brace occurs in the string. *)
Fixpoint brace_free (s : string) : bool :=
  match s with
  | EmptyString => true
  | String c s' => negb (Py.char_in c "{}") && brace_free s'
  end.

(** The separator a produced key puts in force for the rows below it:
    [[#].] behind a key that ends with [[]], a dot behind a key that
    starts with [object], none otherwise. *)
Definition opens_prefix (produced_key : string) : option string :=
  if Py.endswith produced_key "[]" then Some "[#]."
  else if Py.startswith produced_key "object" then Some "."
  else None.

(** A row the response loop reads without error, whatever the prefix in
    force: at least three cells, and no brace in the key text. *)
Definition plain_row (row : PageElement) : bool :=
  (3 <=? length (Soup.cells row))
  && match key_text row with
     | Some k => brace_free k
     | None => false
     end.

(** None of the fields at the positions from [first] up to [last], the
    latter left out, has a key that opens a prefix. *)
Definition quiet (fields : list HttpField) (first last : nat) : Prop :=
  forall m f pk,
    first <= m < last -> fields !! m = Some f -> key f = Some pk ->
    opens_prefix pk = None.

(** A direct child of the main container that the walker takes for an
    endpoint: an element whose name case-folds to [section]. *)
Definition is_section (child : Soup.Node) : bool :=
  match Soup.name (Soup.elem child) with
  | None => false
  | Some n => String.eqb (Py.casefold n) "section"
  end.

(** The number of characters of a text that are of a given kind. *)
Fixpoint count (p : ascii -> bool) (s : string) : nat :=
  match s with
  | EmptyString => 0
  | String c s' => (if p c then 1 else 0) + count p s'
  end.

(** An opening bracket or brace. *)
Definition is_opening (c : ascii) : bool := Py.char_in c "[{".

(** [rest] is what is left of [s] after some of its first characters. *)
Inductive tail_of (rest : string) : string -> Prop :=
| tail_of_refl : tail_of rest rest
| tail_of_cons c s : tail_of rest s -> tail_of rest (String c s).

(** [rest] is what is left of [s] after one character at least. *)
Definition consumed (s rest : string) : Prop :=
  exists c s', s = String c s' /\ tail_of rest s'.

(** An outcome of the decoder on the text [s], entered with [limit]
    levels of nesting to go: a value, a [JSONDecodeError], a [ValueError]
    on a text with more digits than [int] converts, or a [RecursionError]
    on a text with more opening brackets and braces than [limit]. *)
Definition decoded {A : Type} (limit : nat) (s : string) (r : Result A) : Prop :=
  match r with
  | Ok _ => True
  | Raise JSONDecodeError => True
  | Raise ValueError => Json.int_max_str_digits < count Json.is_digit s
  | Raise RecursionError => limit < count is_opening s
  | Raise _ => False
  | OutOfFuel => False
  end.

(** A computation that came to an end, by a value or by an exception. *)
Definition finished {A : Type} (r : Result A) : Prop := r <> OutOfFuel.

(** A level-2 heading with a non-empty [id]: the child that sets the
    title. *)
Definition titled (child : PageElement) : bool :=
  Soup.name_is child "h2" && Soup.truthy (Soup.attrs child !! "id").

(** What holds of every record under construction in the left column:
    it has no example yet, it has a method exactly when it has a url, and
    it has a title as soon as it has a summary, scopes or a method. *)
Definition left_column_shaped (d : EndpointDoc) : Prop :=
  example_response d = None
  /\ (method d = None <-> url d = None)
  /\ (summary d <> None \/ scopes d <> None \/ method d <> None ->
      title d <> None).

(** Two records that agree on everything but the example response. *)
Definition same_documentation (d r : EndpointDoc) : Prop :=
  summary r = summary d /\ url r = url d /\ method r = method d
  /\ title r = title d /\ scopes r = scopes d
  /\ request_body r = request_body d /\ response_body r = response_body d
  /\ query_params r = query_params d.

(** The example a right column provides: the decoding of the repaired
    text of its [language-json] block, nothing when the block is missing
    or when the decoding raises [JSONDecodeError]; any other error of the
    decoding is an error of the whole. *)
Definition example_of (fuel limit : nat) (right_doc_column : PageElement)
  : Result (option JSON) :=
  match Soup.find right_doc_column "div" [("class", "language-json")] with
  | Some right_response_column =>
      match repair_then_load fuel limit (Soup.get_text right_response_column "") with
      | Ok example => Ok (Some example)
      | Raise JSONDecodeError => Ok None
      | Raise e => Raise e
      | OutOfFuel => OutOfFuel
      end
  | None => Ok None
  end.

(** The two line feeds put between the paragraphs of a summary. *)
Definition blank_line : string := String "010" (String "010" "").

(** A text without white space at either end. *)
Definition trimmed (s : string) : Prop :=
  Py.lstrip_by Py.isspace s = s /\ Py.rstrip_by Py.isspace s = s.

(** The children the left column reacts to: a heading that sets the
    title, a paragraph, a level-3 heading, a table. *)
Definition relevant (child : PageElement) : bool :=
  titled child || Soup.name_is child "p" || Soup.name_is child "h3"
  || Soup.name_is child "table".

(** The scope a child contributes by itself: its case-folded text when it
    is a [strong] element. *)
Definition own_scope (child : PageElement) : list string :=
  if Soup.name_is child "strong"
  then [Py.casefold (Soup.get_text child " ")]
  else [].

(** The key a row gets under the prefix in force, and the template that
    carries the prefix from one row to the next. *)
Definition produced_key (prefix : option string) (k : string) : string :=
  match prefix with
  | None => Py.casefold k
  | Some p => Py.casefold (p +:+ k)
  end.

Definition template_of (prefix : option string) : option string :=
  match prefix with
  | None => None
  | Some p => Some (p +:+ "{0}")
  end.

(** In the comments of this module and below, the double quotes of the
    sample texts are written as apostrophes. *)
Module Examples.

Definition q : string -> string := Py.quoted.

(** [{'id':'1''data':'x'}] and its repair [{'id':'1','data':'x'}]. *)
Definition missing_comma : string :=
  "{" +:+ q "id" +:+ ":" +:+ q "1" +:+ q "data" +:+ ":" +:+ q "x" +:+ "}".
Definition missing_comma_repaired : string :=
  "{" +:+ q "id" +:+ ":" +:+ q "1" +:+ "," +:+ q "data" +:+ ":" +:+ q "x" +:+ "}".

(** [{'a':1'data':2,'b':{'c':3'data':4}}]: the separator is missing in
    front of both occurrences. *)
Definition two_missing : string :=
  "{" +:+ q "a" +:+ ":1" +:+ q "data" +:+ ":2," +:+ q "b" +:+ ":{"
      +:+ q "c" +:+ ":3" +:+ q "data" +:+ ":4}}".
Definition two_missing_result : string :=
  "{" +:+ q "a" +:+ ":1," +:+ q "data" +:+ ":2," +:+ q "b" +:+ ":{"
      +:+ q "c" +:+ ":3" +:+ q "data" +:+ ":4}}".

(** [[{'id':'1''data':'x'}]], the same object inside an array, and what
    the function makes of it: [[,{'id':'1',,'data':'x'}]]. *)
Definition in_array : string := "[" +:+ missing_comma +:+ "]".
Definition in_array_result : string :=
  "[,{" +:+ q "id" +:+ ":" +:+ q "1" +:+ ",," +:+ q "data" +:+ ":" +:+ q "x" +:+ "}]".

(** [{'type':'data'}], valid as it stands, and [{'type':,'data'}]. *)
Definition data_as_value : string := "{" +:+ q "type" +:+ ":" +:+ q "data" +:+ "}".
Definition data_as_value_repaired : string :=
  "{" +:+ q "type" +:+ ":," +:+ q "data" +:+ "}".

(** Table rows: a [td] cell holds one text node. *)
Definition cell (text : string) : PageElement :=
  Tag "td" ∅ [NavigableString text].
Definition row (cells : list PageElement) : PageElement := Tag "tr" ∅ cells.
Definition table (rows : list PageElement) : PageElement :=
  Tag "table" ∅ [Tag "thead" ∅ []; Tag "tbody" ∅ rows].

(** The description [The default is '100'.]. *)
Definition default_quoted : string := "The default is " +:+ q "100" +:+ ".".

Definition row_yes : PageElement :=
  row [cell "broadcaster_id"; cell "String"; cell "Yes"; cell "The broadcaster."].
Definition row_maybe : PageElement :=
  row [cell "after"; cell "String"; cell "Maybe"; cell "The cursor."].
Definition row_default_quoted : PageElement :=
  row [cell "first"; cell "Integer"; cell "No"; cell default_quoted].

(** Response tables: an array field above [id], an object field above
    [count], and the latter with a third row. *)
Definition rows_data_id : list PageElement :=
  [row [cell "data[]"; cell "Object[]"; cell "The list of streams."];
   NavigableString " ";
   row [cell "id"; cell "String"; cell "An ID."]].
Definition rows_object_count : list PageElement :=
  [row [cell "Object"; cell "Object"; cell "The totals."];
   row [cell "count"; cell "Integer"; cell "A count."]].
Definition rows_object_count_total : list PageElement :=
  rows_object_count ++ [row [cell "total"; cell "Integer"; cell "A total."]].

(** An array field with two rows below it, the second an array field
    itself with a row of its own. *)
Definition rows_nested : list PageElement :=
  [row [cell "data[]"; cell "Object[]"; cell "The list of streams."];
   row [cell "id"; cell "String"; cell "An ID."];
   NavigableString " ";
   row [cell "tags[]"; cell "String[]"; cell "The tags."];
   row [cell "x"; cell "String"; cell "A tag."]].

(** A left column whose first paragraph comes before any title, and one
    in which a table without [tbody] comes first. *)
Definition h3 (text : string) : PageElement := Tag "h3" ∅ [NavigableString text].
Definition p (text : string) : PageElement := Tag "p" ∅ [NavigableString text].
Definition untitled_column : PageElement :=
  Tag "section" ∅ [NavigableString " "; h3 "URL"; p "GET https://api.twitch.tv/helix/streams"].
Definition broken_table_column : PageElement :=
  Tag "section" ∅ [h3 "Request Body"; Tag "table" ∅ []; p "Gets the streams."].

(** A page: the main container holds a line break and two endpoint
    sections, each with its left and right column. *)
Definition with_class (c : string) : gmap string AttrValue :=
  {[ "class" := AttrList [c] ]}.
Definition endpoint (anchor name_ url_ : string) : PageElement :=
  Tag "section" (with_class "doc-content")
    [Tag "section" (with_class "left-docs")
       [Tag "h2" {[ "id" := AttrStr anchor ]} [NavigableString name_];
        h3 "URL";
        p url_];
     Tag "section" (with_class "right-code") []].
(** An endpoint whose right column holds an example,
    [{'data':[{'id':'Clip1','title':'caf\u00e9'}],'pagination':{}}]: the
    escape stands for U+00E9, the bytes 195 and 169. *)
Definition clips_text : string :=
  "{" +:+ q "data" +:+ ":[{" +:+ q "id" +:+ ":" +:+ q "Clip1" +:+ ","
      +:+ q "title" +:+ ":" +:+ q "caf\u00e9" +:+ "}],"
      +:+ q "pagination" +:+ ":{}}".
Definition clips_example : JSON :=
  JObject
    [("data",
      JArray
        [JObject
           [("id", JString "Clip1");
            ("title",
             JString ("caf" +:+ String "195" (String "169" "")))]]);
     ("pagination", JObject [])].
Definition get_clips_left : PageElement :=
  Tag "section" (with_class "left-docs")
    [Tag "h2" {[ "id" := AttrStr "get-clips" ]} [NavigableString "Get Clips"];
     h3 "URL";
     p "GET https://api.twitch.tv/helix/clips"].
Definition get_clips_right : PageElement :=
  Tag "section" (with_class "right-code")
    [Tag "div" (with_class "language-json")
       [Tag "pre" ∅ [NavigableString clips_text]]].
Definition get_clips : PageElement :=
  Tag "section" (with_class "doc-content") [get_clips_left; get_clips_right].
Definition doc_get_clips : EndpointDoc :=
  mkEndpointDoc None (Some "https://api.twitch.tv/helix/clips") (Some "GET")
    (Some "Get Clips") None None None None None.

Definition document (main_children : list PageElement) : PageElement :=
  Tag "[document]" ∅
    [Tag "html" ∅
       [Tag "body" ∅ [Tag "div" (with_class "main") main_children]]].
Definition get_streams : PageElement :=
  endpoint "get-streams" "Get Streams" "GET https://api.twitch.tv/helix/streams".
Definition get_users : PageElement :=
  endpoint "get-users" "Get Users" "GET https://api.twitch.tv/helix/users".
Definition page : PageElement :=
  document [NavigableString (String "010" ""); get_streams; get_users].
Definition doc_get_streams : EndpointDoc :=
  mkEndpointDoc None (Some "https://api.twitch.tv/helix/streams") (Some "GET")
    (Some "Get Streams") None None None None None.
Definition doc_get_users : EndpointDoc :=
  mkEndpointDoc None (Some "https://api.twitch.tv/helix/users") (Some "GET")
    (Some "Get Users") None None None None None.

End Examples.

(** * Properties *)

(** ** Strings *)

Section StringFacts.

Implicit Types s p r sub : string.

Lemma append_nil_r s : s +:+ "" = s.
Proof. induction s as [|c s IH]; simpl; [reflexivity | now rewrite IH]. Qed.

Lemma append_assoc s p r : (s +:+ p) +:+ r = s +:+ (p +:+ r).
Proof. induction s as [|c s IH]; simpl; [reflexivity | now rewrite IH]. Qed.

Lemma len_append s p : Py.len (s +:+ p) = Py.len s + Py.len p.
Proof. induction s as [|c s IH]; simpl; [reflexivity | now rewrite IH]. Qed.

Lemma startswith_append p r : Py.startswith (p +:+ r) p = true.
Proof.
  induction p as [|c p IH]; simpl; [reflexivity |].
  now rewrite Ascii.eqb_refl.
Qed.

Lemma find_prefix p r : Py.find (p +:+ r) p = Some 0.
Proof.
  destruct p as [|c p]; simpl.
  - now destruct r.
  - rewrite Ascii.eqb_refl, startswith_append. reflexivity.
Qed.

Lemma get_last s c : Py.last s = Some c -> String.get (Py.len s - 1) s = Some c.
Proof.
  induction s as [|d s IH]; simpl; [discriminate |].
  destruct s as [|d' s'].
  - intros H. exact H.
  - intros H. specialize (IH H). simpl in IH |- *.
    now rewrite Nat.sub_0_r in IH.
Qed.

(** [s[-1]] is the last character of a non-empty [s]. *)
Lemma getitem_minus_one s c : Py.last s = Some c -> Py.getitem s (-1) = Ok c.
Proof.
  intros H. unfold Py.getitem.
  assert (Hlen : 0 < Py.len s) by (destruct s; simpl in *; [discriminate | lia]).
  replace (-1 <? 0)%Z with true by reflexivity.
  destruct (-1 + Z.of_nat (Py.len s) <? 0)%Z eqn:E; [lia |].
  replace (Z.to_nat (-1 + Z.of_nat (Py.len s))) with (Py.len s - 1) by lia.
  now rewrite (get_last _ _ H).
Qed.

End StringFacts.

(** ** [fix_json_property] *)

Section FixJson.

Implicit Types s text property_name rest : string.

(** One turn of the loop, as an equation. *)
Lemma fix_json_loop_step fuel property_name s index :
  fix_json_loop (S fuel) property_name s index =
  match Py.find (Py.drop index s) (Py.quoted property_name) with
  | None => Ok s
  | Some index' =>
      do c <- Py.getitem s (Z.of_nat index' - 1);
      if negb (Py.char_in c ",{")
      then fix_json_loop fuel property_name
             (Py.take index' s +:+ "," +:+ Py.drop index' s) index'
      else Ok s
  end.
Proof. reflexivity. Qed.

(** A run that ended keeps its outcome when given a larger budget. *)
Lemma fix_json_loop_more_fuel fuel extra property_name s index r :
  fix_json_loop fuel property_name s index = r ->
  r <> OutOfFuel ->
  fix_json_loop (fuel + extra) property_name s index = r.
Proof.
  revert s index.
  induction fuel as [|fuel IH]; intros s index Hr Hne.
  - simpl in Hr. congruence.
  - change (S fuel + extra) with (S (fuel + extra)).
    rewrite fix_json_loop_step in *.
    destruct (Py.find (Py.drop index s) (Py.quoted property_name)) as [i|]; [|exact Hr].
    destruct (Py.getitem s (Z.of_nat i - 1)) as [c| |]; cbn [bind] in *;
      try exact Hr.
    destruct (negb (Py.char_in c ",{")); [|exact Hr].
    now apply IH.
Qed.

Lemma fix_json_property_more_fuel fuel extra s property_name r :
  fix_json_property fuel s property_name = r ->
  r <> OutOfFuel ->
  fix_json_property (fuel + extra) s property_name = r.
Proof. apply fix_json_loop_more_fuel. Qed.

(** The quoted name does not start with a comma, so behind a comma it is
    found one position further. *)
Lemma find_behind_comma property_name rest :
  Py.find ("," +:+ Py.quoted property_name +:+ rest) (Py.quoted property_name) = Some 1.
Proof.
  unfold Py.quoted. simpl. now rewrite startswith_append.
Qed.

End FixJson.

(** C10.  When the text starts with the quoted property name, the
    character tested is [text[-1]], the last one: if it is neither a comma
    nor an opening brace, the function returns the text with a comma put in
    front of it. *)
Theorem fix_json_property_wraps_at_index_zero
    (fuel : nat) (property_name rest : string) (c : ascii) :
  let text := Py.quoted property_name +:+ rest in
  Py.last text = Some c ->
  Py.char_in c ",{" = false ->
  fix_json_property (S (S fuel)) text property_name = Ok ("," +:+ text).
Proof.
  intros text Hlast Hc.
  unfold fix_json_property.
  rewrite fix_json_loop_step.
  change (Py.drop 0 text) with text.
  unfold text at 1. rewrite find_prefix.
  change (Z.of_nat 0 - 1)%Z with (-1)%Z.
  rewrite (getitem_minus_one _ _ Hlast). cbn [bind].
  rewrite Hc. cbn [negb].
  change (Py.take 0 text +:+ "," +:+ Py.drop 0 text) with ("," +:+ text).
  rewrite fix_json_loop_step.
  change (Py.drop 0 ("," +:+ text)) with ("," +:+ text).
  unfold text at 1. rewrite find_behind_comma.
  reflexivity.
Qed.

Lemma fix_json_property_wraps_at_index_zero_witness :
  fix_json_property 2 (Py.quoted "data" +:+ ":1") "data"
  = Ok ("," +:+ Py.quoted "data" +:+ ":1").
Proof.
  apply (fix_json_property_wraps_at_index_zero 0 "data" ":1" "1"%char);
    reflexivity.
Defined.

(** C5.  On [{'id':'1''data':'x'}] the missing comma is inserted and the
    result decodes to an object with the keys [id] and [data].  On a text
    with two occurrences that both lack their separator only the first one
    is repaired, and inside an array the commas land at the wrong place;
    neither result can be decoded: [json.loads], allowed the two levels
    of nesting of these texts, raises [JSONDecodeError]. *)
Theorem fix_json_property_repairs_first_occurrence_only (fuel limit : nat) :
  (fix_json_property (4 + fuel) Examples.missing_comma "data"
     = Ok Examples.missing_comma_repaired
   /\ Json.loads (2 + limit) Examples.missing_comma_repaired
     = Ok (JObject [("id", JString "1"); ("data", JString "x")]))
  /\ (fix_json_property (4 + fuel) Examples.two_missing "data"
        = Ok Examples.two_missing_result
      /\ Json.loads (2 + limit) Examples.two_missing_result
        = Raise JSONDecodeError)
  /\ (fix_json_property (4 + fuel) Examples.in_array "data"
        = Ok Examples.in_array_result
      /\ Json.loads (2 + limit) Examples.in_array_result
        = Raise JSONDecodeError).
Proof.
  repeat split;
    try (apply fix_json_property_more_fuel; [vm_compute; reflexivity | discriminate]);
    vm_compute; reflexivity.
Qed.

(** ** The comma fix comes to an end *)

Section CommaFixEnds.

Implicit Types s t sub : string.

Lemma find_zero s sub : Py.find s sub = Some 0 -> Py.startswith s sub = true.
Proof.
  destruct s as [|c s]; cbn [Py.find];
    destruct (Py.startswith _ sub); try reflexivity; try discriminate.
  destruct (Py.find s sub); discriminate.
Qed.

Lemma find_succ c s sub a :
  Py.find (String c s) sub = Some (S a) ->
  Py.startswith (String c s) sub = false /\ Py.find s sub = Some a.
Proof.
  cbn [Py.find]. destruct (Py.startswith (String c s) sub); [discriminate |].
  destruct (Py.find s sub) as [b|]; [|discriminate].
  intros [= ->]. now split.
Qed.

Lemma find_nil sub a : Py.find "" sub <> Some (S a).
Proof. cbn [Py.find]. destruct (Py.startswith "" sub); discriminate. Qed.

(** The substring found starts at the index reported. *)
Lemma find_startswith s sub a :
  Py.find s sub = Some a -> Py.startswith (Py.drop a s) sub = true.
Proof.
  revert s. induction a as [|a IH]; intros s Hfind.
  - now apply find_zero.
  - destruct s as [|c s]; [now apply find_nil in Hfind |].
    apply find_succ in Hfind as [_ Hfind]. now apply IH.
Qed.

Lemma find_of_startswith s sub :
  Py.startswith s sub = true -> Py.find s sub = Some 0.
Proof. intros H. destruct s; cbn [Py.find]; now rewrite H. Qed.

Lemma find_le s sub a : Py.find s sub = Some a -> a <= Py.len s.
Proof.
  revert s. induction a as [|a IH]; intros s Hfind; [lia |].
  destruct s as [|c s]; [now apply find_nil in Hfind |].
  apply find_succ in Hfind as [_ Hfind]. apply IH in Hfind.
  unfold Py.len in *. cbn. lia.
Qed.

(** Cutting the text at an index and gluing it back. *)
Lemma drop_take_append s r a :
  a <= Py.len s -> Py.drop a (Py.take a s +:+ r) = r.
Proof.
  revert s. induction a as [|a IH]; intros s Hle; [reflexivity |].
  destruct s as [|c s]; [cbn in Hle; lia |].
  cbn. apply IH. unfold Py.len in *. cbn in Hle. lia.
Qed.

Lemma get_prev s i :
  (exists c, String.get (S i) s = Some c) -> exists c, String.get i s = Some c.
Proof.
  revert s. induction i as [|i IH]; intros s (c & Hget);
    (destruct s as [|d s]; [discriminate |]).
  - now exists d.
  - cbn. apply IH. now exists c.
Qed.

Lemma last_cons c s : exists d, Py.last (String c s) = Some d.
Proof.
  revert c. induction s as [|c' s IH]; intros c; [now exists c |].
  destruct (IH c') as (d & Hd). exists d. cbn [Py.last]. exact Hd.
Qed.

(** A substring that holds no comma and does not start the text does not
    start it either once a comma is inserted. *)
Lemma startswith_insert_comma sub t b :
  Py.char_in "," sub = false ->
  Py.startswith t sub = false ->
  Py.startswith (Py.take b t +:+ "," +:+ Py.drop b t) sub = false.
Proof.
  revert t b. induction sub as [|n sub IH]; intros t b Hfree Hstart;
    [discriminate |].
  cbn [Py.char_in] in Hfree. apply orb_false_elim in Hfree as [Hn Hfree].
  rewrite Ascii.eqb_sym in Hn.
  destruct b as [|b].
  - cbn. now rewrite Hn.
  - destruct t as [|d t]; cbn; [now rewrite Hn |].
    cbn in Hstart. destruct (Ascii.eqb n d); [|reflexivity].
    now apply IH.
Qed.

Lemma startswith_behind_comma sub t :
  Py.char_in "," sub = false -> sub <> "" ->
  Py.startswith (String "," t) sub = false.
Proof.
  destruct sub as [|n sub]; [congruence |]. intros Hfree _.
  cbn [Py.char_in] in Hfree. apply orb_false_elim in Hfree as [Hn _].
  rewrite Ascii.eqb_sym in Hn. cbn. now rewrite Hn.
Qed.

(** After the insertion of a comma in front of its first occurrence, the
    substring is first found one position further. *)
Lemma find_insert_comma sub s b :
  Py.char_in "," sub = false -> sub <> "" ->
  Py.find s sub = Some b ->
  Py.find (Py.take b s +:+ "," +:+ Py.drop b s) sub = Some (S b).
Proof.
  intros Hfree Hne. revert s. induction b as [|b IH]; intros s Hfind.
  - change (Py.take 0 s +:+ "," +:+ Py.drop 0 s) with (String "," s).
    cbn [Py.find]. rewrite (startswith_behind_comma _ _ Hfree Hne).
    now rewrite Hfind.
  - destruct s as [|c s]; [now apply find_nil in Hfind |].
    apply find_succ in Hfind as [Hstart Hfind].
    pose proof (startswith_insert_comma sub (String c s) (S b) Hfree Hstart)
      as Hstart'.
    change (Py.take (S b) (String c s) +:+ "," +:+ Py.drop (S b) (String c s))
      with (String c (Py.take b s +:+ "," +:+ Py.drop b s)) in *.
    cbn [Py.find]. rewrite Hstart'. now rewrite (IH s Hfind).
Qed.

(** [s[i - 1]] for a positive [i]. *)
Lemma getitem_pred s i :
  Py.getitem s (Z.of_nat (S i) - 1)
  = match String.get i s with
    | Some c => Ok c
    | None => Raise IndexError
    end.
Proof.
  unfold Py.getitem.
  replace (Z.of_nat (S i) - 1)%Z with (Z.of_nat i) by lia.
  assert (E : (Z.of_nat i <? 0)%Z = false) by (apply Z.ltb_ge; lia).
  rewrite E. cbn iota. rewrite E. now rewrite Nat2Z.id.
Qed.

(** The character in front of an occurrence that is not at the start. *)
Lemma get_before_found s sub a :
  Py.find s sub = Some (S a) -> exists c, String.get a s = Some c.
Proof.
  revert s. induction a as [|a IH]; intros s Hfind;
    (destruct s as [|c s]; [now apply find_nil in Hfind |]).
  - now exists c.
  - apply find_succ in Hfind as [_ Hfind]. cbn. now apply IH.
Qed.

End CommaFixEnds.

Section CommaFixTotal.

Variable property_name : string.
Hypothesis comma_free_name : Py.char_in "," property_name = false.

Lemma char_in_append c s p :
  Py.char_in c (s +:+ p) = Py.char_in c s || Py.char_in c p.
Proof.
  induction s as [|d s IH]; [reflexivity |].
  cbn. now rewrite IH, orb_assoc.
Qed.

Lemma quoted_comma_free : Py.char_in "," (Py.quoted property_name) = false.
Proof.
  unfold Py.quoted. rewrite !char_in_append, comma_free_name. reflexivity.
Qed.

Lemma quoted_nonempty : Py.quoted property_name <> "".
Proof. discriminate. Qed.

Lemma find_behind_one_comma t :
  Py.startswith t (Py.quoted property_name) = true ->
  Py.find (String "," t) (Py.quoted property_name) = Some 1.
Proof.
  intros Hstart. cbn [Py.find].
  rewrite (startswith_behind_comma _ _ quoted_comma_free quoted_nonempty).
  now rewrite (find_of_startswith _ _ Hstart).
Qed.

Lemma find_behind_two_commas t :
  Py.startswith t (Py.quoted property_name) = true ->
  Py.find (String "," (String "," t)) (Py.quoted property_name) = Some 2.
Proof.
  intros Hstart.
  pose proof (find_behind_one_comma t Hstart) as Hone.
  remember (String "," t) as t1 eqn:Ht1.
  cbn [Py.find].
  rewrite (startswith_behind_comma _ _ quoted_comma_free quoted_nonempty).
  now rewrite Hone.
Qed.

(** On a text that opens with a brace or a comma, as a JSON object does,
    the first occurrence gets its comma when it lacks one, and the loop
    ends there: later occurrences are not looked at. *)
Lemma fix_json_property_first_occurrence (fuel : nat) c0 s' b c :
  Py.find (String c0 s') (Py.quoted property_name) = Some (S b) ->
  String.get b (String c0 s') = Some c ->
  Py.char_in c ",{" = false ->
  Py.char_in c0 ",{" = true ->
  fix_json_property (2 + fuel) (String c0 s') property_name
  = Ok (Py.take (S b) (String c0 s') +:+ "," +:+ Py.drop (S b) (String c0 s')).
Proof.
  intros Hfind Hc Hsep Hopen.
  unfold fix_json_property. change (2 + fuel) with (S (S fuel)).
  rewrite fix_json_loop_step. change (Py.drop 0 (String c0 s')) with (String c0 s').
  rewrite Hfind, getitem_pred, Hc. cbn [bind]. rewrite Hsep. cbn [negb].
  apply find_succ in Hfind as [_ Hfind].
  pose proof (find_startswith _ _ _ Hfind) as Hstart.
  pose proof (find_le _ _ _ Hfind) as Hle.
  set (X := Py.take b s' +:+ "," +:+ Py.drop b s').
  change (Py.take (S b) (String c0 s') +:+ "," +:+ Py.drop (S b) (String c0 s'))
    with (String c0 X).
  rewrite fix_json_loop_step.
  change (Py.drop (S b) (String c0 X)) with (Py.drop b X).
  assert (HdropX : Py.drop b X = String "," (Py.drop b s'))
    by (unfold X; now rewrite drop_take_append).
  rewrite HdropX, (find_behind_one_comma _ Hstart).
  change (Py.getitem (String c0 X) (Z.of_nat 1 - 1)) with (@Ok ascii c0).
  cbn [bind]. now rewrite Hopen.
Qed.

(** For a property name without comma, the loop returns a text within
    four turns, whatever the input. *)
Theorem fix_json_property_total (fuel : nat) (s : string) :
  exists t, fix_json_property (4 + fuel) s property_name = Ok t.
Proof.
  unfold fix_json_property. change (4 + fuel) with (S (S (S (S fuel)))).
  rewrite fix_json_loop_step. change (Py.drop 0 s) with s.
  destruct (Py.find s (Py.quoted property_name)) as [[|b]|] eqn:Hfind;
    [| |eauto].
  - (* the name starts the text *)
    pose proof (find_zero _ _ Hfind) as Hstart.
    destruct s as [|c0 s']; [discriminate |].
    destruct (last_cons c0 s') as (c & Hlast).
    change (Z.of_nat 0 - 1)%Z with (-1)%Z.
    rewrite (getitem_minus_one _ _ Hlast). cbn [bind].
    destruct (Py.char_in c ",{"); cbn [negb]; [eauto |].
    change (Py.take 0 (String c0 s') +:+ "," +:+ Py.drop 0 (String c0 s'))
      with (String "," (String c0 s')).
    rewrite fix_json_loop_step.
    change (Py.drop 0 (String "," (String c0 s'))) with (String "," (String c0 s')).
    rewrite (find_behind_one_comma _ Hstart). cbn. eauto.
  - (* the name is first found at index [S b] *)
    destruct (get_before_found _ _ _ Hfind) as (c & Hc).
    rewrite getitem_pred, Hc. cbn [bind].
    destruct (Py.char_in c ",{"); cbn [negb]; [eauto |].
    destruct s as [|c0 s']; [now apply find_nil in Hfind |].
    apply find_succ in Hfind as [_ Hfind].
    pose proof (find_startswith _ _ _ Hfind) as Hstart.
    pose proof (find_le _ _ _ Hfind) as Hle.
    set (X := Py.take b s' +:+ "," +:+ Py.drop b s').
    change (Py.take (S b) (String c0 s') +:+ "," +:+ Py.drop (S b) (String c0 s'))
      with (String c0 X).
    (* second turn *)
    rewrite fix_json_loop_step.
    change (Py.drop (S b) (String c0 X)) with (Py.drop b X).
    assert (HdropX : Py.drop b X = String "," (Py.drop b s'))
      by (unfold X; now rewrite drop_take_append).
    rewrite HdropX, (find_behind_one_comma _ Hstart).
    change (Py.getitem (String c0 X) (Z.of_nat 1 - 1)) with (@Ok ascii c0).
    cbn [bind].
    destruct (Py.char_in c0 ",{"); cbn [negb]; [eauto |].
    change (Py.take 1 (String c0 X) +:+ "," +:+ Py.drop 1 (String c0 X))
      with (String c0 (String "," X)).
    (* third turn *)
    rewrite fix_json_loop_step.
    change (Py.drop 1 (String c0 (String "," X))) with (String "," X).
    assert (HfindX : Py.find X (Py.quoted property_name) = Some (S b))
      by (apply find_insert_comma;
          [apply quoted_comma_free | apply quoted_nonempty | exact Hfind]).
    assert (Hfind3 : Py.find (String "," X) (Py.quoted property_name)
                     = Some (S (S b))).
    { cbn [Py.find].
      rewrite (startswith_behind_comma _ _ quoted_comma_free quoted_nonempty).
      now rewrite HfindX. }
    rewrite Hfind3, getitem_pred.
    destruct (get_prev _ _ (get_before_found _ _ _ Hfind3)) as (c3 & Hc3).
    change (String.get (S b) (String c0 (String "," X)))
      with (String.get b (String "," X)).
    rewrite Hc3. cbn [bind].
    destruct (Py.char_in c3 ",{"); cbn [negb]; [eauto |].
    change (Py.take (S (S b)) (String c0 (String "," X)) +:+ ","
            +:+ Py.drop (S (S b)) (String c0 (String "," X)))
      with (String c0 (String "," (Py.take b X +:+ "," +:+ Py.drop b X))).
    (* fourth turn *)
    rewrite fix_json_loop_step.
    change (Py.drop (S (S b))
              (String c0 (String "," (Py.take b X +:+ "," +:+ Py.drop b X))))
      with (Py.drop b (Py.take b X +:+ "," +:+ Py.drop b X)).
    rewrite drop_take_append
      by (apply find_le in HfindX; lia).
    change ("," +:+ Py.drop b X) with (String "," (Py.drop b X)).
    rewrite HdropX, (find_behind_two_commas _ Hstart).
    cbn. eauto.
Qed.

End CommaFixTotal.

(** ** The repair pipeline *)

Section Repair.

Implicit Types s text old new : string.

Lemma contains_false s sub : Py.contains s sub = false -> Py.find s sub = None.
Proof. unfold Py.contains. now destruct (Py.find s sub). Qed.

(** Replacing a substring that does not occur changes nothing. *)
Lemma replace_absent s old new : Py.find s old = None -> Py.replace s old new = s.
Proof.
  unfold Py.replace.
  induction s as [|c s IH]; intros Hfind.
  - destruct old; [discriminate | reflexivity].
  - cbn [Py.find] in Hfind. cbn [Py.replace_go].
    destruct (Py.startswith (String c s) old); [discriminate |].
    destruct (Py.find s old); [discriminate |].
    now rewrite IH.
Qed.

(** A separated first occurrence ends the loop at its first turn. *)
Lemma fix_json_property_separated fuel text property_name :
  separated text property_name = true ->
  fix_json_property (S fuel) text property_name = Ok text.
Proof.
  unfold separated, fix_json_property. intros H.
  rewrite fix_json_loop_step. change (Py.drop 0 text) with text.
  destruct (Py.find text (Py.quoted property_name)) as [[|i]|];
    [discriminate | | reflexivity].
  destruct (String.get i text) as [c|] eqn:Hget; [|discriminate].
  unfold Py.getitem.
  replace (Z.of_nat (S i) - 1)%Z with (Z.of_nat i) by lia.
  assert (E : (Z.of_nat i <? 0)%Z = false) by (apply Z.ltb_ge; lia).
  rewrite E. cbn iota. rewrite E.
  rewrite Nat2Z.id, Hget. cbn [bind]. now rewrite H.
Qed.

Lemma repair_more_fuel fuel extra text r :
  repair fuel text = r -> r <> OutOfFuel -> repair (fuel + extra) text = r.
Proof.
  unfold repair. intros Hr Hne.
  destruct (fix_json_property fuel _ "data") as [t| |] eqn:E1;
    cbn [bind] in Hr; try congruence.
  - rewrite (fix_json_property_more_fuel _ extra _ _ _ E1) by discriminate.
    cbn [bind]. now apply fix_json_property_more_fuel.
  - rewrite (fix_json_property_more_fuel _ extra _ _ _ E1) by discriminate.
    exact Hr.
Qed.

(** The repair always returns a text: neither of its two property names
    holds a comma. *)
Lemma repair_total fuel text : exists repaired, repair (4 + fuel) text = Ok repaired.
Proof.
  unfold repair.
  destruct (fix_json_property_total "data" eq_refl fuel
              (Py.replace (Py.replace (Py.replace text "..." "") ",]" "]") ",}" "}"))
    as (t1 & ->).
  cbn [bind]. apply (fix_json_property_total "click_action" eq_refl).
Qed.

End Repair.

(** C6 (counterexample).  [{'type':'data'}] decodes as it stands; the
    repair turns it into [{'type':,'data'}], which no longer decodes,
    whatever the budget of the loop and the depth allowed to the
    decoder. *)
Lemma repair_breaks_valid_json :
  (forall limit,
     Json.loads (S limit) Examples.data_as_value
     = Ok (JObject [("type", JString "data")]))
  /\ ~ exists fuel limit,
         repair_then_load fuel limit Examples.data_as_value
         = Ok (JObject [("type", JString "data")]).
Proof.
  split; [intros limit; vm_compute; reflexivity |].
  intros (fuel & limit & Hrun). unfold repair_then_load in Hrun.
  destruct (repair fuel Examples.data_as_value) as [repaired| |] eqn:Hrep;
    cbn [bind] in Hrun; try discriminate.
  assert (H4 : repair (4 + fuel) Examples.data_as_value
               = Ok Examples.data_as_value_repaired)
    by (apply repair_more_fuel; [vm_compute; reflexivity | discriminate]).
  apply (repair_more_fuel _ 4) in Hrep; [|discriminate].
  rewrite Nat.add_comm, H4 in Hrep.
  injection Hrep as <-.
  destruct limit as [|limit]; vm_compute in Hrun; discriminate.
Qed.

(** C6 (amended).  A text that decodes, contains none of [...], [,]] and
    [,}], and in which the first occurrence of ['data'] and of
    ['click_action'], if any, follows a comma or an opening brace, goes
    through the repair unchanged and so decodes to the same value. *)
Theorem repair_keeps_separated_json
    (fuel limit : nat) (text : string) (v : JSON) :
  Json.loads limit text = Ok v ->
  Py.contains text "..." = false ->
  Py.contains text ",]" = false ->
  Py.contains text ",}" = false ->
  separated text "data" = true ->
  separated text "click_action" = true ->
  repair (S fuel) text = Ok text
  /\ repair_then_load (S fuel) limit text = Ok v.
Proof.
  intros Hv H1 H2 H3 Hd Hc.
  assert (Hrep : repair (S fuel) text = Ok text).
  { unfold repair.
    rewrite (replace_absent text "..." "") by now apply contains_false.
    rewrite (replace_absent text ",]" "]") by now apply contains_false.
    rewrite (replace_absent text ",}" "}") by now apply contains_false.
    rewrite (fix_json_property_separated _ _ _ Hd). cbn [bind].
    now apply fix_json_property_separated. }
  split; [exact Hrep |].
  unfold repair_then_load. rewrite Hrep. cbn [bind]. exact Hv.
Qed.

Lemma repair_keeps_separated_json_witness :
  repair 1 Examples.missing_comma_repaired = Ok Examples.missing_comma_repaired
  /\ repair_then_load 1 1 Examples.missing_comma_repaired
     = Ok (JObject [("id", JString "1"); ("data", JString "x")]).
Proof.
  apply (repair_keeps_separated_json 0 1 Examples.missing_comma_repaired);
    vm_compute; reflexivity.
Defined.

(** ** The request table *)

Section RequestRows.

Lemma split_head s sep : exists x l, Py.split s sep = x :: l.
Proof.
  unfold Py.split. destruct (Py.len s) as [|n]; cbn [Py.split_go]; [eauto |].
  destruct (Py.find s sep); eauto.
Qed.

Lemma list_item_split s sep : exists x, list_item (Py.split s sep) 0 = Ok x.
Proof. destruct (split_head s sep) as (x & l & ->). now exists x. Qed.

Lemma extract_default_total d : exists o, extract_default d = Ok o.
Proof.
  unfold extract_default.
  destruct (Py.contains d "The default is"); [|eauto].
  destruct (Py.find d "The default is") as [index|]; [|eauto].
  destruct (list_item_split
              (Py.drop (index + Py.len "the default is" + 1) d) " ") as (x & ->).
  cbn [bind]. eauto.
Qed.

Lemma possible_value_total child : exists v, possible_value child = Ok v.
Proof.
  unfold possible_value.
  destruct (Py.contains _ em_dash); [apply list_item_split |].
  destruct (Py.contains _ "-"); [apply list_item_split | eauto].
Qed.

Lemma mapM_total {A B : Type} (f : A -> Result B) (xs : list A) :
  (forall x, exists y, f x = Ok y) -> exists ys, mapM f xs = Ok ys.
Proof.
  intros Hf. induction xs as [|x xs (ys & IH)]; cbn [mapM]; [eauto |].
  destruct (Hf x) as (y & ->). cbn [bind]. rewrite IH. cbn [bind]. eauto.
Qed.

Lemma pull_possible_values_list_total tag :
  exists l, pull_possible_values_list tag = Ok l.
Proof.
  unfold pull_possible_values_list.
  destruct (Soup.find tag "ul" []); [|eauto].
  apply mapM_total, possible_value_total.
Qed.

(** The annotations never fail on a field that has a description and a
    type; they leave the other entries alone, and the default value is
    the one [extract_default] computes from the description. *)
Lemma annotate_spec field raw d t :
  description field = Some d ->
  type_ field = Some t ->
  default_value field = None ->
  exists field' dv,
    annotate field raw = Ok field'
    /\ extract_default d = Ok dv
    /\ key field' = key field
    /\ required field' = required field
    /\ description field' = Some d
    /\ default_value field' = dv.
Proof.
  intros Hd Ht Hdv. unfold annotate. rewrite Hd, Ht. cbn [item bind].
  destruct (extract_default_total d) as (dv & Hx).
  destruct (Py.contains d "Possible values" && String.eqb t (Py.casefold "string")).
  - destruct (pull_possible_values_list_total raw) as (l & ->). cbn [bind].
    rewrite Hx. cbn [bind]. eexists _, dv.
    split; [reflexivity |]. split; [reflexivity |].
    destruct dv; cbn; auto.
  - cbn [bind]. rewrite Hx. cbn [bind]. eexists _, dv.
    split; [reflexivity |]. split; [reflexivity |].
    destruct dv; cbn; auto.
Qed.

(** The fields of a table are those of its element rows, in order. *)
Lemma parse_request_body_rows tag body :
  Soup.find tag "tbody" [] = Some body ->
  parse_request_body tag
  = mapM request_row (List.filter Soup.is_tag (Soup.children body)).
Proof. intros Hfind. unfold parse_request_body. now rewrite Hfind. Qed.

Lemma mapM_Forall2 {A B : Type} (f : A -> Result B) xs ys :
  mapM f xs = Ok ys -> Forall2 (fun x y => f x = Ok y) xs ys.
Proof.
  revert ys. induction xs as [|x xs IH]; intros ys; cbn [mapM].
  - intros [= <-]. constructor.
  - destruct (f x) as [y| |] eqn:Hy; cbn [bind]; try discriminate.
    destruct (mapM f xs) as [ys'| |]; cbn [bind]; try discriminate.
    intros [= <-]. constructor; [exact Hy | now apply IH].
Qed.

(** A row of four cells. *)
Lemma request_row_four c0 c1 c2 c3 row :
  Soup.cells row = [c0; c1; c2; c3] ->
  exists field dv,
    request_row row = Ok field
    /\ extract_default (Soup.get_text c3 " ") = Ok dv
    /\ required field =
         (let bool_text := Py.casefold (Soup.get_text c2 "") in
          if String.eqb bool_text "yes" then Some true
          else if String.eqb bool_text "no" then Some false
          else None)
    /\ description field = Some (Soup.get_text c3 " ")
    /\ default_value field = dv.
Proof.
  intros Hcells. unfold request_row. rewrite Hcells.
  cbn [list_item lookup list_lookup bind length Nat.eqb].
  set (bool_text := Py.casefold (Soup.get_text c2 "")).
  set (field0 := if String.eqb bool_text "yes" then _ else _).
  destruct (annotate_spec field0 c3 (Soup.get_text c3 " ")
              (Py.casefold (Soup.get_text c1 " ")))
    as (field' & dv & Hrun & Hx & _ & Hreq & Hdescr & Hdv).
  1-3: subst field0; destruct (String.eqb bool_text "yes");
       [reflexivity | destruct (String.eqb bool_text "no"); reflexivity].
  exists field', dv. repeat split; try assumption.
  rewrite Hreq. subst field0. cbn zeta.
  destruct (String.eqb bool_text "yes"); [reflexivity |].
  destruct (String.eqb bool_text "no"); reflexivity.
Qed.

(** A row of three cells, or of five and more: the [else] branch. *)
Lemma request_row_else c0 c1 c2 rest row :
  Soup.cells row = c0 :: c1 :: c2 :: rest ->
  length rest <> 1 ->
  exists field dv,
    request_row row = Ok field
    /\ extract_default (Soup.get_text c2 " ") = Ok dv
    /\ required field = Some false
    /\ description field = Some (Soup.get_text c2 " ")
    /\ default_value field = dv.
Proof.
  intros Hcells Hrest. unfold request_row. rewrite Hcells.
  cbn [list_item lookup list_lookup bind length].
  assert (E : (S (S (S (length rest))) =? 4) = false)
    by (apply Nat.eqb_neq; lia).
  rewrite E. cbn [bind].
  destruct (annotate_spec
              (set_description (Soup.get_text c2 " ")
                 (set_required false
                    (mkHttpField (Some (Soup.get_text c0 " "))
                       (Some (Py.casefold (Soup.get_text c1 " ")))
                       None None None None)))
              c2 (Soup.get_text c2 " ") (Py.casefold (Soup.get_text c1 " ")))
    as (field' & dv & Hrun & Hx & _ & Hreq & Hdescr & Hdv); try reflexivity.
  exists field', dv. repeat split; assumption.
Qed.

(** Fewer than three cells: an index is out of range. *)
Lemma request_row_short row :
  length (Soup.cells row) < 3 -> request_row row = Raise IndexError.
Proof.
  intros Hlen. unfold request_row.
  destruct (Soup.cells row) as [|c0 [|c1 [|c2 rest]]]; cbn in Hlen |- *;
    try reflexivity; lia.
Qed.

End RequestRows.

(** C3 (counterexample).  A row of four cells whose third cell reads
    [Maybe] yields a field without any [required] entry, not one set to
    false. *)
Lemma request_row_required_absent :
  length (Soup.cells Examples.row_maybe) = 4
  /\ exists field,
       request_row Examples.row_maybe = Ok field
       /\ required field = None
       /\ required field <> Some false.
Proof.
  split; [reflexivity |].
  eexists. split; [vm_compute; reflexivity |].
  split; [reflexivity | discriminate].
Qed.

(** C3 (amended).  A row of four cells always yields a field.  When the
    case-folded text of the third cell is [yes] the field has [required]
    set to true, when it is [no] to false; for any other text the field has
    no [required] entry. *)
Theorem request_row_required (row c2 : PageElement) :
  length (Soup.cells row) = 4 ->
  Soup.cells row !! 2 = Some c2 ->
  exists field,
    request_row row = Ok field
    /\ let bool_text := Py.casefold (Soup.get_text c2 "") in
       (bool_text = "yes" -> required field = Some true)
       /\ (bool_text = "no" -> required field = Some false)
       /\ (bool_text <> "yes" -> bool_text <> "no" -> required field = None).
Proof.
  intros Hlen Hc2.
  destruct (Soup.cells row) as [|c0 [|c1 [|c2' [|c3 [|]]]]] eqn:Hcells;
    try discriminate.
  injection Hc2 as ->.
  destruct (request_row_four _ _ _ _ _ Hcells)
    as (field & dv & Hrun & _ & Hreq & _).
  exists field. split; [exact Hrun |].
  cbn zeta in *. rewrite Hreq.
  destruct (String.eqb_spec (Py.casefold (Soup.get_text c2 "")) "yes") as [Hy|Hy].
  - repeat split; intros; congruence.
  - destruct (String.eqb_spec (Py.casefold (Soup.get_text c2 "")) "no") as [Hn|Hn];
      repeat split; intros; congruence.
Qed.

Lemma request_row_required_witness :
  exists field,
    request_row Examples.row_yes = Ok field
    /\ let bool_text := Py.casefold (Soup.get_text (Examples.cell "Yes") "") in
       (bool_text = "yes" -> required field = Some true)
       /\ (bool_text = "no" -> required field = Some false)
       /\ (bool_text <> "yes" -> bool_text <> "no" -> required field = None).
Proof.
  apply (request_row_required Examples.row_yes (Examples.cell "Yes"));
    reflexivity.
Defined.

(** C4.  For a row of three or four cells whose description reads
    [The default is '100'.] the field gets the default value [100']: the
    opening quote and the final dot are cut off, the closing quote stays.
    The description [The default is 20.] gives [20]. *)
Theorem request_row_default_value (row c : PageElement) :
  (length (Soup.cells row) = 3 /\ Soup.cells row !! 2 = Some c)
  \/ (length (Soup.cells row) = 4 /\ Soup.cells row !! 3 = Some c) ->
  exists field,
    request_row row = Ok field
    /\ (Soup.get_text c " " = Examples.default_quoted ->
        default_value field = Some ("100" +:+ Py.quote))
    /\ (Soup.get_text c " " = "The default is 20." ->
        default_value field = Some "20").
Proof.
  intros [[Hlen Hc] | [Hlen Hc]];
    destruct (Soup.cells row) as [|c0 [|c1 [|c2 [|c3 [|]]]]] eqn:Hcells;
    try discriminate; injection Hc as ->.
  - destruct (request_row_else _ _ _ _ _ Hcells)
      as (field & dv & Hrun & Hx & _ & _ & Hdv); [cbn; lia |].
    exists field. split; [exact Hrun |].
    split; intros Htext; rewrite Htext in Hx; vm_compute in Hx;
      injection Hx as <-; rewrite Hdv; reflexivity.
  - destruct (request_row_four _ _ _ _ _ Hcells)
      as (field & dv & Hrun & Hx & _ & _ & Hdv).
    exists field. split; [exact Hrun |].
    split; intros Htext; rewrite Htext in Hx; vm_compute in Hx;
      injection Hx as <-; rewrite Hdv; reflexivity.
Qed.

Lemma request_row_default_value_witness :
  exists field,
    request_row Examples.row_default_quoted = Ok field
    /\ (Soup.get_text (Examples.cell Examples.default_quoted) " "
        = Examples.default_quoted ->
        default_value field = Some ("100" +:+ Py.quote))
    /\ (Soup.get_text (Examples.cell Examples.default_quoted) " "
        = "The default is 20." ->
        default_value field = Some "20").
Proof.
  apply (request_row_default_value Examples.row_default_quoted
           (Examples.cell Examples.default_quoted)).
  right. split; reflexivity.
Defined.

(** ** Rows of unexpected width *)





(** ** The response table *)

Section ResponseRows.

(** Case folding twice is case folding once. *)
Lemma casefold_char_idempotent c :
  Py.casefold_char (Py.casefold_char c) = Py.casefold_char c.
Proof. destruct c as [[] [] [] [] [] [] [] []]; reflexivity. Qed.

Lemma casefold_idempotent s : Py.casefold (Py.casefold s) = Py.casefold s.
Proof.
  induction s as [|c s IH]; [reflexivity |].
  cbn [Py.casefold]. now rewrite casefold_char_idempotent, IH.
Qed.

Lemma casefold_produced_key prefix k :
  Py.casefold (produced_key prefix k) = produced_key prefix k.
Proof. destruct prefix; apply casefold_idempotent. Qed.

(** A character that is not a brace is copied. *)
Lemma format_go_plain c t arg mode :
  Py.char_in c "{}" = false ->
  Py.format_go (String c t) arg mode
  = do r <- Py.format_go t arg mode; Ok (String c r).
Proof.
  destruct c as [b0 b1 b2 b3 b4 b5 b6 b7].
  destruct b0, b1, b2, b3, b4, b5, b6, b7; intros H;
    try discriminate H; reflexivity.
Qed.

(** Behind a prefix without braces, the template [prefix{0}] formats to
    the prefix followed by the argument. *)
Lemma format_brace_free prefix arg :
  brace_free prefix = true ->
  Py.format (prefix +:+ "{0}") arg = Ok (prefix +:+ arg).
Proof.
  unfold Py.format. induction prefix as [|c p IH]; intros Hfree.
  - cbn. now rewrite append_nil_r.
  - cbn [brace_free] in Hfree. apply andb_prop in Hfree as [Hc Hp].
    apply negb_true_iff in Hc.
    change (String c p +:+ "{0}") with (String c (p +:+ "{0}")).
    rewrite (format_go_plain _ _ _ _ Hc), (IH Hp). reflexivity.
Qed.

Lemma brace_free_append s p :
  brace_free s = true -> brace_free p = true -> brace_free (s +:+ p) = true.
Proof.
  induction s as [|c s IH]; intros Hs Hp; [exact Hp |].
  cbn [brace_free] in *. apply andb_prop in Hs as [Hc Hs].
  change (String c s +:+ p) with (String c (s +:+ p)). cbn [brace_free].
  now rewrite Hc, IH.
Qed.

(** One row of at least three cells, under a prefix without braces. *)
Lemma response_row_spec prefix row k :
  3 <= length (Soup.cells row) ->
  key_text row = Some k ->
  match prefix with Some p => brace_free p = true | None => True end ->
  exists field,
    response_row (template_of prefix) row
    = Ok (field,
          match opens_prefix (produced_key prefix k) with
          | Some sep => template_of (Some (k +:+ sep))
          | None => template_of prefix
          end)
    /\ key field = Some (produced_key prefix k).
Proof.
  intros Hlen Hkey Hfree. unfold response_row, key_text in *.
  destruct (Soup.cells row) as [|c0 [|c1 [|c2 rest]]]; cbn in Hlen; try lia.
  injection Hkey as Hkey.
  cbn [list_item lookup list_lookup bind]. rewrite Hkey.
  assert (Hfmt : match template_of prefix with
                 | Some template => Py.format template k
                 | None => Ok k
                 end
                 = Ok (match prefix with Some p => p +:+ k | None => k end)).
  { destruct prefix as [p|]; cbn [template_of]; [|reflexivity].
    now apply format_brace_free. }
  rewrite Hfmt. cbn [bind key item].
  assert (Hpk : Py.casefold (match prefix with Some p => p +:+ k | None => k end)
                = produced_key prefix k) by now destruct prefix.
  rewrite Hpk, casefold_produced_key. unfold opens_prefix.
  change (Py.casefold "[]") with "[]". change (Py.casefold "Object") with "object".
  eexists.
  destruct (Py.endswith (produced_key prefix k) "[]").
  - split; [cbn [template_of]; now rewrite append_assoc | reflexivity].
  - destruct (Py.startswith (produced_key prefix k) "object").
    + split; [cbn [template_of]; now rewrite append_assoc | reflexivity].
    + split; reflexivity.
Qed.

(** Text nodes between the rows are passed over. *)
Lemma response_rows_filter key_format_string rows :
  response_rows key_format_string rows
  = response_rows key_format_string (List.filter Soup.is_tag rows).
Proof.
  revert key_format_string.
  induction rows as [|r rows IH]; intros kfs; [reflexivity |].
  cbn [response_rows List.filter].
  destruct (Soup.is_tag r) eqn:Htag; [|apply IH].
  cbn [response_rows]. rewrite Htag.
  destruct (response_row kfs r) as [[field kfs']| |]; cbn [bind]; try reflexivity.
  now rewrite IH.
Qed.

End ResponseRows.

Section ResponseTable.

Lemma filter_is_tag rows :
  Forall (fun r => Soup.is_tag r = true) (List.filter Soup.is_tag rows).
Proof.
  apply List.Forall_forall. intros r Hin.
  now apply List.filter_In in Hin.
Qed.

Lemma opens_prefix_brace_free fk sep :
  opens_prefix fk = Some sep -> brace_free sep = true.
Proof.
  unfold opens_prefix.
  destruct (Py.endswith _ _); [now intros [= <-] |].
  destruct (Py.startswith _ _); [now intros [= <-] | discriminate].
Qed.

(** What a turn of the loop that comes to its end has done: the row has
    its three cells, the field is keyed by the case-folded formatted key,
    and the template changes exactly when that key opens a prefix. *)
Lemma response_row_inv key_format_string row field key_format_string' :
  response_row key_format_string row = Ok (field, key_format_string') ->
  exists k formatted,
    key_text row = Some k
    /\ 3 <= length (Soup.cells row)
    /\ match key_format_string with
       | None => formatted = k
       | Some template => Py.format template k = Ok formatted
       end
    /\ key field = Some (Py.casefold formatted)
    /\ key_format_string'
       = match opens_prefix (Py.casefold formatted) with
         | Some sep => Some (k +:+ sep +:+ "{0}")
         | None => key_format_string
         end.
Proof.
  unfold response_row, key_text.
  destruct (Soup.cells row) as [|c0 [|c1 [|c2 rest]]];
    cbn [list_item lookup list_lookup bind]; try discriminate.
  set (k := Soup.get_text c0 " ").
  intros Hrun. exists k.
  assert (Hfmt : exists formatted,
             match key_format_string with
             | Some template => Py.format template k
             | None => Ok k
             end = Ok formatted).
  { destruct (match key_format_string with
              | Some template => Py.format template k
              | None => Ok k
              end) as [formatted| |]; cbn [bind] in Hrun;
      [now exists formatted | discriminate | discriminate]. }
  destruct Hfmt as (formatted & Hfmt). rewrite Hfmt in Hrun.
  cbn [bind key item] in Hrun. rewrite casefold_idempotent in Hrun.
  change (Py.casefold "[]") with "[]" in Hrun.
  change (Py.casefold "Object") with "object" in Hrun.
  exists formatted. split; [reflexivity |]. split; [cbn; lia |].
  split.
  { destruct key_format_string; [exact Hfmt | congruence]. }
  unfold opens_prefix.
  destruct (Py.endswith (Py.casefold formatted) "[]").
  { injection Hrun as <- <-. split; reflexivity. }
  destruct (Py.startswith (Py.casefold formatted) "object").
  { injection Hrun as <- <-. split; reflexivity. }
  injection Hrun as <- <-. split; reflexivity.
Qed.

Lemma quiet_tail f fields first last :
  quiet (f :: fields) (S first) (S last) -> quiet fields first last.
Proof.
  intros Hq m fm pk Hm Hfm Hkey.
  apply (Hq (S m) fm pk); [lia | exact Hfm | exact Hkey].
Qed.

Lemma quiet_head f fields last pk :
  quiet (f :: fields) 0 (S last) -> key f = Some pk -> opens_prefix pk = None.
Proof. intros Hq Hkey. apply (Hq 0 f pk); [lia | reflexivity | exact Hkey]. Qed.

Lemma quiet_from_one f fields last :
  quiet (f :: fields) 0 (S last) -> quiet fields 0 last.
Proof.
  intros Hq m fm pk Hm Hfm Hkey.
  apply (Hq (S m) fm pk); [lia | exact Hfm | exact Hkey].
Qed.

(** The keys of a run of the loop that started under any template: a row
    is keyed under the template the run started with as long as no field
    before it opens a prefix, and under the key text of a row that opens
    one from there to the next such row, that one included. *)
Lemma response_rows_keys rows :
  Forall (fun r => Soup.is_tag r = true) rows ->
  forall key_format_string fields,
    response_rows key_format_string rows = Ok fields ->
    length fields = length rows
    /\ (forall j row k f,
          rows !! j = Some row -> key_text row = Some k ->
          fields !! j = Some f ->
          quiet fields 0 j ->
          exists formatted,
            match key_format_string with
            | None => formatted = k
            | Some template => Py.format template k = Ok formatted
            end
            /\ key f = Some (Py.casefold formatted))
    /\ (forall i j row_i row_j k_i k_j f_i f_j pk sep,
          i < j ->
          rows !! i = Some row_i -> key_text row_i = Some k_i ->
          rows !! j = Some row_j -> key_text row_j = Some k_j ->
          fields !! i = Some f_i -> fields !! j = Some f_j ->
          brace_free k_i = true ->
          key f_i = Some pk -> opens_prefix pk = Some sep ->
          quiet fields (S i) j ->
          key f_j = Some (Py.casefold (k_i +:+ sep +:+ k_j))).
Proof.
  induction 1 as [|r rows Htag Htags IH]; intros kfs fields Hrun.
  - injection Hrun as <-. split; [reflexivity |].
    split; intros; discriminate.
  - cbn [response_rows] in Hrun. rewrite Htag in Hrun.
    destruct (response_row kfs r) as [[f kfs']| |] eqn:Hrow;
      cbn [bind] in Hrun; try discriminate.
    destruct (response_rows kfs' rows) as [fields'| |] eqn:Hrest;
      cbn [bind] in Hrun; try discriminate.
    injection Hrun as <-.
    apply response_row_inv in Hrow
      as (k & formatted & Hk & _ & Hfmt & Hkey & Hstate).
    destruct (IH kfs' fields' Hrest) as (Hlen & Hplain & Hnest).
    split; [cbn [length]; now rewrite Hlen |]. split.
    + intros [|j] row kj fj Hrow_j Hkj Hfj Hquiet.
      * injection Hrow_j as <-. injection Hfj as <-.
        rewrite Hk in Hkj. injection Hkj as <-.
        now exists formatted.
      * rewrite (quiet_head _ _ _ _ Hquiet Hkey) in Hstate. subst kfs'.
        apply (Hplain j row kj fj Hrow_j Hkj Hfj).
        now apply quiet_from_one in Hquiet.
    + intros [|i] [|j] row_i row_j k_i k_j f_i f_j pk sep Hij
        Hrow_i Hk_i Hrow_j Hk_j Hf_i Hf_j Hfree Hpk Hsep Hquiet; try lia.
      * injection Hrow_i as <-. injection Hf_i as <-.
        rewrite Hk in Hk_i. injection Hk_i as <-.
        rewrite Hkey in Hpk. injection Hpk as <-.
        rewrite Hsep in Hstate. subst kfs'.
        apply quiet_tail in Hquiet.
        destruct (Hplain j row_j k_j f_j Hrow_j Hk_j Hf_j Hquiet)
          as (formatted_j & Hfmt_j & Hkey_j).
        rewrite <- append_assoc in Hfmt_j.
        rewrite format_brace_free in Hfmt_j.
        -- injection Hfmt_j as <-. now rewrite append_assoc in Hkey_j.
        -- apply brace_free_append; [exact Hfree |].
           now apply opens_prefix_brace_free with (fk := Py.casefold formatted).
      * apply (Hnest i j row_i row_j k_i k_j f_i f_j pk sep); try assumption;
          [lia | now apply quiet_tail in Hquiet].
Qed.

(** Rows of three cells and more whose key texts hold no brace are read
    to the end, under any prefix without braces. *)
Lemma response_rows_total prefix rows :
  match prefix with Some p => brace_free p = true | None => True end ->
  Forall (fun r => Soup.is_tag r = true) rows ->
  Forall (fun r => plain_row r = true) rows ->
  exists fields, response_rows (template_of prefix) rows = Ok fields.
Proof.
  intros Hfree Htags. revert prefix Hfree.
  induction Htags as [|r rows Htag Htags IH]; intros prefix Hfree Hplain.
  - now exists [].
  - inversion Hplain as [|? ? Hr Hplain']; subst.
    unfold plain_row in Hr. apply andb_prop in Hr as [Hlen Hk].
    apply Nat.leb_le in Hlen.
    destruct (key_text r) as [k|] eqn:Hkey; [|discriminate].
    destruct (response_row_spec prefix r k Hlen Hkey Hfree)
      as (field & Hrow & _).
    cbn [response_rows]. rewrite Htag, Hrow. cbn [bind].
    destruct (opens_prefix (produced_key prefix k)) as [sep|] eqn:Hsep.
    + destruct (IH (Some (k +:+ sep))) as (fields & ->); [|exact Hplain' |].
      * apply brace_free_append; [exact Hk |].
        now apply opens_prefix_brace_free with (fk := produced_key prefix k).
      * now exists (field :: fields).
    + destruct (IH prefix Hfree Hplain') as (fields & ->).
      now exists (field :: fields).
Qed.

End ResponseTable.

(** C2 (counterexample).  Below [data[]] the row [id] is keyed
    [data[][#].id], not [data[#].id]; below [Object] the row [count] is
    keyed [object.count], not [Object.count]; and a third row [total] is
    keyed [count.total]: the object prefix has not persisted. *)
Lemma parse_response_body_keys_differ :
  (exists f1 f2,
     parse_response_body (Examples.table Examples.rows_data_id) = Ok [f1; f2]
     /\ key f2 = Some "data[][#].id"
     /\ key f2 <> Some "data[#].id")
  /\ (exists f1 f2,
        parse_response_body (Examples.table Examples.rows_object_count)
        = Ok [f1; f2]
        /\ key f2 = Some "object.count"
        /\ key f2 <> Some "Object.count")
  /\ (exists f1 f2 f3,
        parse_response_body (Examples.table Examples.rows_object_count_total)
        = Ok [f1; f2; f3]
        /\ key f3 = Some "count.total"
        /\ key f3 <> Some "Object.total").
Proof.
  split; [|split].
  - do 2 eexists. split; [vm_compute; reflexivity |].
    split; [reflexivity | discriminate].
  - do 2 eexists. split; [vm_compute; reflexivity |].
    split; [reflexivity | discriminate].
  - do 3 eexists. split; [vm_compute; reflexivity |].
    split; [reflexivity | discriminate].
Qed.

(** C2 (amended).  Take a table with a body.  When each of its element
    rows has three cells or more and no key text holds a brace, the
    function returns.  Whenever it returns, it returns one field per
    element row, and the keys are these.  A row is keyed by its
    case-folded key text as long as no field before it has a key that
    ends with [[]] or starts with [object].  When the field of a row with
    the key text [k_i], free of braces, has such a key (separator [[#].]
    in the first case, a dot in the second), every row after it is keyed
    by the case-folded concatenation of [k_i], the separator and its own
    key text, up to the next row whose field has such a key, that row
    included; from there on that row's key text is the one in front.  So
    [data[]] above [id] gives [data[][#].id], and [Object] above [count]
    gives [object.count]. *)
Theorem parse_response_body_nesting
    (tag body : PageElement) (rows : list PageElement) :
  Soup.find tag "tbody" [] = Some body ->
  List.filter Soup.is_tag (Soup.children body) = rows ->
  (Forall (fun row => plain_row row = true) rows ->
   exists fields, parse_response_body tag = Ok fields)
  /\ forall fields,
       parse_response_body tag = Ok fields ->
       length fields = length rows
       /\ (forall j row k f,
             rows !! j = Some row -> key_text row = Some k ->
             fields !! j = Some f ->
             quiet fields 0 j ->
             key f = Some (Py.casefold k))
       /\ (forall i j row_i row_j k_i k_j f_i f_j pk sep,
             i < j ->
             rows !! i = Some row_i -> key_text row_i = Some k_i ->
             rows !! j = Some row_j -> key_text row_j = Some k_j ->
             fields !! i = Some f_i -> fields !! j = Some f_j ->
             brace_free k_i = true ->
             key f_i = Some pk -> opens_prefix pk = Some sep ->
             quiet fields (S i) j ->
             key f_j = Some (Py.casefold (k_i +:+ sep +:+ k_j))).
Proof.
  intros Hfind Hrows.
  pose proof (filter_is_tag (Soup.children body)) as Htags.
  rewrite Hrows in Htags.
  unfold parse_response_body. rewrite Hfind. cbn [not_none bind].
  rewrite response_rows_filter, Hrows. split.
  - intros Hplain. now apply (response_rows_total None).
  - intros fields Hrun.
    destruct (response_rows_keys rows Htags None fields Hrun)
      as (Hlen & Hplain & Hnest).
    split; [exact Hlen |]. split; [|exact Hnest].
    intros j row k f Hrow Hk Hf Hquiet.
    destruct (Hplain j row k f Hrow Hk Hf Hquiet) as (formatted & -> & Hkey).
    exact Hkey.
Qed.

Lemma parse_response_body_nesting_witness :
  exists f0 f1 f2 f3,
    parse_response_body (Examples.table Examples.rows_nested)
    = Ok [f0; f1; f2; f3]
    /\ key f0 = Some "data[]"
    /\ key f1 = Some "data[][#].id"
    /\ key f2 = Some "data[][#].tags[]"
    /\ key f3 = Some "tags[][#].x".
Proof.
  destruct (parse_response_body_nesting
              (Examples.table Examples.rows_nested)
              (Tag "tbody" ∅ Examples.rows_nested)
              (List.filter Soup.is_tag Examples.rows_nested)
              eq_refl eq_refl) as [Htotal Hkeys].
  destruct Htotal as (fields & Hrun); [repeat constructor |].
  destruct (Hkeys fields Hrun) as (Hlen & Hplain & Hnest).
  destruct fields as [|f0 [|f1 [|f2 [|f3 [|f4 fields]]]]]; try discriminate Hlen.
  assert (H0 : key f0 = Some "data[]").
  { eapply (Hplain 0 _ "data[]" f0); [reflexivity | reflexivity | reflexivity |].
    intros m f pk Hm. lia. }
  assert (H1 : key f1 = Some "data[][#].id").
  { eapply (Hnest 0 1 _ _ "data[]" "id" f0 f1 "data[]" "[#].");
      [lia | reflexivity | reflexivity | reflexivity | reflexivity
      | reflexivity | reflexivity | reflexivity | exact H0 | reflexivity |].
    intros m f pk Hm. lia. }
  assert (H2 : key f2 = Some "data[][#].tags[]").
  { eapply (Hnest 0 2 _ _ "data[]" "tags[]" f0 f2 "data[]" "[#].");
      [lia | reflexivity | reflexivity | reflexivity | reflexivity
      | reflexivity | reflexivity | reflexivity | exact H0 | reflexivity |].
    intros m f pk Hm Hf Hpk.
    assert (m = 1) as -> by lia.
    injection Hf as <-. rewrite H1 in Hpk. now injection Hpk as <-. }
  assert (H3 : key f3 = Some "tags[][#].x").
  { eapply (Hnest 2 3 _ _ "tags[]" "x" f2 f3 "data[][#].tags[]" "[#].");
      [lia | reflexivity | reflexivity | reflexivity | reflexivity
      | reflexivity | reflexivity | reflexivity | exact H2 | reflexivity |].
    intros m f pk Hm. lia. }
  now exists f0, f1, f2, f3.
Defined.

(** ** Computations without a loop budget *)

(** Only [fix_json_property] can run out of fuel; everything the left
    column calls comes to an end. *)

Create HintDb finished.

Lemma finished_ok {A : Type} (a : A) : finished (Ok a).
Proof. discriminate. Qed.

Lemma finished_raise {A : Type} (e : exn) : finished (@Raise A e).
Proof. discriminate. Qed.

Lemma finished_bind {A B : Type} (m : Result A) (k : A -> Result B) :
  finished m -> (forall a, finished (k a)) -> finished (bind m k).
Proof.
  intros Hm Hk. destruct m; cbn [bind]; [apply Hk | discriminate |].
  now contradiction Hm.
Qed.

Lemma finished_list_item {A : Type} (l : list A) i : finished (list_item l i).
Proof. unfold list_item. destruct (l !! i); discriminate. Qed.

Lemma finished_item {A : Type} k (v : option A) : finished (item k v).
Proof. destruct v; discriminate. Qed.

Lemma finished_not_none {A : Type} (o : option A) : finished (not_none o).
Proof. destruct o; discriminate. Qed.

Lemma finished_mapM {A B : Type} (f : A -> Result B) xs :
  (forall x, finished (f x)) -> finished (mapM f xs).
Proof.
  intros Hf. induction xs as [|x xs IH]; cbn [mapM]; [discriminate |].
  apply finished_bind; [apply Hf |]. intros y.
  apply finished_bind; [exact IH |]. discriminate.
Qed.

#[local] Hint Resolve finished_ok finished_raise finished_list_item
  finished_item finished_not_none : finished.

(** Splits a goal [finished _] along the binds and the tests. *)
Ltac finished_step :=
  match goal with
  | |- finished (bind _ _) => apply finished_bind; [|intros ?]
  | |- finished (if ?b then _ else _) => destruct b
  | |- finished (match ?x with _ => _ end) => destruct x
  | |- finished (let _ := _ in _) => cbv zeta
  | |- finished _ => solve [auto with finished]
  end.

Lemma finished_annotate field raw : finished (annotate field raw).
Proof.
  unfold annotate. repeat finished_step.
  - destruct (pull_possible_values_list_total raw) as (l & ->). discriminate.
  - destruct (extract_default_total a) as (o & ->). discriminate.
Qed.

Lemma finished_request_row row : finished (request_row row).
Proof.
  unfold request_row. cbv zeta.
  repeat first [apply finished_annotate | finished_step].
Qed.

Lemma finished_parse_request_body tag : finished (parse_request_body tag).
Proof.
  unfold parse_request_body. apply finished_bind; [auto with finished |].
  intros body. apply finished_mapM, finished_request_row.
Qed.

Ltac split_ascii c :=
  destruct c as [[] [] [] [] [] [] [] []].

(** Closes the cases of [format_go] on a template whose first characters
    are known. *)
Ltac finished_format IH :=
  cbn [Py.format_go];
  repeat first
    [ discriminate
    | apply finished_bind; [apply IH; unfold Py.len in *; cbn [String.length] in *; lia
                            | intros ?]
    | match goal with
      | |- finished (match ?m with _ => _ end) => destruct m
      end ].

Lemma finished_format_go n :
  forall t arg mode, Py.len t <= n -> finished (Py.format_go t arg mode).
Proof.
  induction n as [|n IH]; intros t arg mode Hlen.
  - destruct t; [discriminate | cbn in Hlen; lia].
  - destruct t as [|c t]; [discriminate |].
    destruct (Py.char_in c "{}") eqn:Hc.
    + destruct t as [|d t].
      * split_ascii c; try discriminate Hc; discriminate.
      * split_ascii c; try discriminate Hc; clear Hc.
        -- split_ascii d; finished_format IH.
        -- split_ascii d; finished_format IH.
    + rewrite (format_go_plain _ _ _ _ Hc).
      apply finished_bind; [apply IH; unfold Py.len in *; cbn in Hlen; lia |].
      discriminate.
Qed.

Lemma finished_format t arg : finished (Py.format t arg).
Proof. apply (finished_format_go (Py.len t)). lia. Qed.

Lemma finished_response_row key_format_string row :
  finished (response_row key_format_string row).
Proof.
  unfold response_row. cbv zeta.
  repeat first [apply finished_format | finished_step].
Qed.

Lemma finished_response_rows key_format_string rows :
  finished (response_rows key_format_string rows).
Proof.
  revert key_format_string.
  induction rows as [|r rows IH]; intros kfs; cbn [response_rows];
    [discriminate |].
  destruct (Soup.is_tag r); [|apply IH].
  apply finished_bind; [apply finished_response_row |].
  intros [field kfs']. apply finished_bind; [apply IH | discriminate].
Qed.

Lemma finished_parse_response_body tag : finished (parse_response_body tag).
Proof.
  unfold parse_response_body. apply finished_bind; [auto with finished |].
  intros body. apply finished_response_rows.
Qed.

(** ** The left column before its title *)

Section BeforeTitle.

Lemma name_is_exclusive child a b :
  Soup.name_is child a = true -> a <> b -> Soup.name_is child b = false.
Proof.
  unfold Soup.name_is. destruct (Soup.name child) as [m|]; [|discriminate].
  intros Ha Hab. apply String.eqb_eq in Ha. subst m.
  now apply String.eqb_neq.
Qed.

(** One turn of the loop while the record has no title, on a child that
    does not set it: a paragraph raises the key error; anything else leaves
    the record without title, or passes on the error of a table. *)
Lemma left_column_step_before_title st child :
  title st.1 = None ->
  titled child = false ->
  match left_column_step st child with
  | Ok st' => title st'.1 = None /\ Soup.name_is child "p" = false
  | Raise e =>
      Soup.name_is child "p" = true /\ e = KeyError "title"
      \/ Soup.name_is child "table" = true
  | OutOfFuel => False
  end.
Proof.
  destruct st as [doc header]. cbn [fst]. intros Htitle Huntitled.
  unfold left_column_step. unfold titled in Huntitled. rewrite Huntitled.
  destruct (Soup.name_is child "p") eqn:Hp.
  - rewrite Htitle. cbn [item bind]. now left.
  - cbn [bind andb].
    destruct (Soup.name_is child "h3"); [now split |].
    destruct (Soup.name_is child "table") eqn:Htable; cbn [andb];
      [|now split].
    destruct (header_is header "Request Body").
    { pose proof (finished_parse_request_body child) as Hfin.
      destruct (parse_request_body child); cbn [bind];
        [now split | now right | now apply Hfin]. }
    destruct (header_is header "Request Query Parameters").
    { pose proof (finished_parse_request_body child) as Hfin.
      destruct (parse_request_body child); cbn [bind];
        [now split | now right | now apply Hfin]. }
    destruct (header_is header "Response Body"); [|now split].
    pose proof (finished_parse_response_body child) as Hfin.
    destruct (parse_response_body child); cbn [bind];
      [now split | now right | now apply Hfin].
Qed.

(** The loop over children of which none sets the title, up to and
    including a paragraph. *)
Lemma left_column_loop_before_title pre p post st :
  title st.1 = None ->
  Forall (fun c => titled c = false) pre ->
  Soup.name_is p "p" = true ->
  exists e,
    left_column_loop st (pre ++ p :: post) = Raise e
    /\ (Forall (fun c => Soup.name_is c "table" = false) pre ->
        e = KeyError "title").
Proof.
  intros Htitle Hpre Hp. revert st Htitle.
  induction Hpre as [|c pre Hc Hpre IH]; intros st Htitle.
  - cbn [app left_column_loop].
    assert (Huntitled : titled p = false).
    { unfold titled. now rewrite (name_is_exclusive p "p" "h2" Hp). }
    pose proof (left_column_step_before_title st p Htitle Huntitled) as Hstep.
    destruct (left_column_step st p) as [st'|e|]; [| |contradiction].
    + destruct Hstep as [_ Hnp]. congruence.
    + exists e. split; [reflexivity |]. intros _.
      destruct Hstep as [[_ He] | Htable]; [exact He |].
      now rewrite (name_is_exclusive p "p" "table" Hp) in Htable.
  - cbn [app left_column_loop].
    pose proof (left_column_step_before_title st c Htitle Hc) as Hstep.
    destruct (left_column_step st c) as [st'|e|]; [| |contradiction].
    + destruct Hstep as [Htitle' _]. cbn [bind].
      destruct (IH st' Htitle') as (e & Hrun & He).
      exists e. split; [exact Hrun |].
      intros Hnt. apply He. now inversion Hnt.
    + exists e. split; [reflexivity |]. intros Hnt.
      destruct Hstep as [[_ He] | Htable]; [exact He |].
      inversion Hnt as [|? ? Hc' _]; subst. congruence.
Qed.

End BeforeTitle.

(** C9 (counterexample).  Under the heading [Request Body] a table without
    [tbody] comes before the first paragraph: the function raises the
    [AttributeError] of the table, not a key-lookup error. *)
Lemma scrape_doc_left_column_table_error_first :
  scrape_doc_left_column Examples.broken_table_column = Raise AttributeError
  /\ forall k,
       scrape_doc_left_column Examples.broken_table_column <> Raise (KeyError k).
Proof. split; [vm_compute; reflexivity | intros k; vm_compute; discriminate]. Qed.

(** C9 (amended).  When a paragraph occurs among the children before any
    level-2 heading with a non-empty [id], the function returns no record:
    it raises.  The error is the [KeyError] of the absent [title] entry
    whenever no table element precedes that paragraph; a table that
    precedes it may raise its own error first. *)
Theorem scrape_doc_left_column_paragraph_before_title
    (tag p : PageElement) (pre post : list PageElement) :
  Soup.children tag = pre ++ p :: post ->
  Soup.name_is p "p" = true ->
  Forall (fun c => titled c = false) pre ->
  exists e,
    scrape_doc_left_column tag = Raise e
    /\ (Forall (fun c => Soup.name_is c "table" = false) pre ->
        e = KeyError "title").
Proof.
  intros Hchildren Hp Hpre. unfold scrape_doc_left_column. rewrite Hchildren.
  destruct (left_column_loop_before_title pre p post (empty_doc, None))
    as (e & Hrun & He); [reflexivity | exact Hpre | exact Hp |].
  exists e. rewrite Hrun. now split.
Qed.

Lemma scrape_doc_left_column_paragraph_before_title_witness :
  exists e,
    scrape_doc_left_column Examples.untitled_column = Raise e
    /\ (Forall (fun c => Soup.name_is c "table" = false)
          [NavigableString " "; Examples.h3 "URL"] ->
        e = KeyError "title").
Proof.
  apply (scrape_doc_left_column_paragraph_before_title
           Examples.untitled_column
           (Examples.p "GET https://api.twitch.tv/helix/streams")
           [NavigableString " "; Examples.h3 "URL"] []).
  - reflexivity.
  - reflexivity.
  - repeat constructor.
Defined.

(** ** The document walker *)

Section Walker.

(** The first child of the main container is passed over, whatever it
    is. *)
Lemma walk_first fuel limit child rest :
  walk fuel limit true (child :: rest) = walk fuel limit false rest.
Proof. reflexivity. Qed.

(** Once the flag is down, every section child is scraped, in order. *)
Lemma walk_sections fuel limit children :
  walk fuel limit false children
  = mapM (scrape_doc_section fuel limit) (List.filter is_section children).
Proof.
  induction children as [|child rest IH]; [reflexivity |].
  cbn [walk List.filter orb]. unfold is_section at 1.
  change (Py.casefold "section") with "section".
  destruct (Soup.name (Soup.elem child)) as [n|]; [|exact IH].
  destruct (String.eqb (Py.casefold n) "section"); cbn [negb]; [|exact IH].
  cbn [mapM]. now rewrite IH.
Qed.

End Walker.

(** C1.  The walker passes over the first child of the main container,
    whatever it is, and scrapes every section among the others.  When the
    container starts with a section, that section alone is skipped; when a
    text node comes first, the text node uses up the skip and the first
    section is scraped like the others: on the sample page, whose
    container holds a line break and two sections, both sections yield a
    record. *)
Theorem scrape_docs_skips_first_child_only (fuel limit : nat) :
  (forall first rest,
     walk fuel limit true (first :: rest)
     = mapM (scrape_doc_section fuel limit) (List.filter is_section rest))
  /\ scrape_docs fuel limit
       (mkResponse true
          (Examples.document [Examples.get_streams; Examples.get_users]))
     = Ok [Some Examples.doc_get_users]
  /\ scrape_docs fuel limit (mkResponse true Examples.page)
     = Ok [Some Examples.doc_get_streams; Some Examples.doc_get_users].
Proof.
  split; [|split].
  - intros first rest. rewrite walk_first. apply walk_sections.
  - vm_compute. reflexivity.
  - vm_compute. reflexivity.
Qed.

(** C8.  When the response is not a success, the generator yields nothing
    and raises nothing, so [main] writes the empty list: the same output as
    for a page that was fetched and has no endpoint. *)
Theorem scrape_docs_failed_fetch (fuel limit : nat) (response : Response) :
  ok response = false ->
  scrape_docs fuel limit response = Ok []
  /\ main fuel limit response = Ok []
  /\ main fuel limit (mkResponse true (Examples.document []))
     = main fuel limit response.
Proof.
  intros Hok.
  assert (Hscrape : scrape_docs fuel limit response = Ok [])
    by (unfold scrape_docs; now rewrite Hok).
  assert (Hmain : main fuel limit response = Ok [])
    by (unfold main; now rewrite Hscrape).
  repeat split; try assumption.
  rewrite Hmain. vm_compute. reflexivity.
Qed.

Lemma scrape_docs_failed_fetch_witness :
  scrape_docs 0 0 (mkResponse false Examples.page) = Ok []
  /\ main 0 0 (mkResponse false Examples.page) = Ok []
  /\ main 0 0 (mkResponse true (Examples.document []))
     = main 0 0 (mkResponse false Examples.page).
Proof.
  apply (scrape_docs_failed_fetch 0 0 (mkResponse false Examples.page)).
  reflexivity.
Defined.

(** * Further properties *)

(** ** What the comma fix changes *)

Section CommaFixChanges.

Implicit Types s t r : string.

Lemma without_commas_append s r :
  without_commas (s +:+ r) = without_commas s +:+ without_commas r.
Proof.
  induction s as [|c s IH]; [reflexivity |].
  cbn. destruct (Ascii.eqb c ","); cbn; now rewrite IH.
Qed.

Lemma take_drop i s : Py.take i s +:+ Py.drop i s = s.
Proof.
  revert s. induction i as [|i IH]; intros s; [reflexivity |].
  destruct s as [|c s]; [reflexivity |]. cbn. now rewrite IH.
Qed.

(** An inserted comma is the only difference. *)
Lemma without_commas_insert i s :
  without_commas (Py.take i s +:+ "," +:+ Py.drop i s) = without_commas s.
Proof.
  rewrite without_commas_append.
  change (without_commas ("," +:+ Py.drop i s)) with (without_commas (Py.drop i s)).
  now rewrite <- without_commas_append, take_drop.
Qed.

Lemma len_insert i s :
  Py.len (Py.take i s +:+ "," +:+ Py.drop i s) = S (Py.len s).
Proof.
  rewrite len_append.
  change (Py.len ("," +:+ Py.drop i s)) with (S (Py.len (Py.drop i s))).
  rewrite Nat.add_succ_r, <- len_append. now rewrite take_drop.
Qed.

(** Every turn but the last one inserts one comma, and nothing else ever
    happens to the text. *)
Lemma fix_json_loop_changes fuel property_name s index t :
  fix_json_loop fuel property_name s index = Ok t ->
  without_commas t = without_commas s
  /\ Py.len s <= Py.len t
  /\ Py.len t + 1 <= Py.len s + fuel.
Proof.
  revert s index. induction fuel as [|fuel IH]; intros s index Hrun;
    [discriminate |].
  rewrite fix_json_loop_step in Hrun.
  destruct (Py.find (Py.drop index s) (Py.quoted property_name)) as [i|].
  - destruct (Py.getitem s (Z.of_nat i - 1)) as [c| |]; cbn [bind] in Hrun;
      try discriminate.
    destruct (negb (Py.char_in c ",{")).
    + apply IH in Hrun as (Hwc & Hlo & Hhi).
      rewrite without_commas_insert in Hwc. rewrite len_insert in Hlo, Hhi.
      repeat split; [exact Hwc | lia | lia].
    + injection Hrun as <-. repeat split; lia.
  - injection Hrun as <-. repeat split; lia.
Qed.

End CommaFixChanges.

(** X1.  For a property name without comma, [fix_json_property] always
    returns a text, after four turns of its loop at most.  The text
    returned is the input with commas inserted and nothing else changed:
    at most three of them. *)
Theorem fix_json_property_inserts_at_most_three_commas
    (property_name : string) (fuel : nat) (s : string) :
  Py.char_in "," property_name = false ->
  exists t,
    fix_json_property (4 + fuel) s property_name = Ok t
    /\ without_commas t = without_commas s
    /\ Py.len s <= Py.len t <= Py.len s + 3.
Proof.
  intros Hname.
  destruct (fix_json_property_total property_name Hname 0 s) as (t & Hrun).
  exists t. split.
  - rewrite Nat.add_comm. change (fuel + 4) with (fuel + (4 + 0)).
    rewrite Nat.add_comm.
    now apply (fix_json_property_more_fuel (4 + 0) fuel).
  - apply fix_json_loop_changes in Hrun as (Hwc & Hlo & Hhi).
    split; [exact Hwc | lia].
Qed.

Lemma fix_json_property_inserts_at_most_three_commas_witness :
  exists t,
    fix_json_property 4 Examples.in_array "data" = Ok t
    /\ without_commas t = without_commas Examples.in_array
    /\ Py.len Examples.in_array <= Py.len t <= Py.len Examples.in_array + 3.
Proof.
  apply (fix_json_property_inserts_at_most_three_commas "data" 0
           Examples.in_array).
  reflexivity.
Defined.

(** ** The comma fix on its own output *)

Section CommaFixSettles.

Variable property_name : string.
Hypothesis comma_free_name : Py.char_in "," property_name = false.

Implicit Types s t : string.

Lemma find_drop s sub a index :
  Py.find s sub = Some a -> index <= a ->
  Py.find (Py.drop index s) sub = Some (a - index).
Proof.
  revert s a. induction index as [|index IH]; intros s a Hfind Hle.
  - now rewrite Nat.sub_0_r.
  - destruct a as [|a]; [lia |].
    destruct s as [|c s]; [now apply find_nil in Hfind |].
    apply find_succ in Hfind as [_ Hfind]. cbn. apply IH; [exact Hfind | lia].
Qed.

(** A comma inserted at or before the first occurrence moves it one
    position further. *)
Lemma find_insert_before sub s a i :
  Py.char_in "," sub = false -> sub <> "" ->
  Py.find s sub = Some a -> i <= a ->
  Py.find (Py.take i s +:+ "," +:+ Py.drop i s) sub = Some (S a).
Proof.
  intros Hfree Hne. revert s a. induction i as [|i IH]; intros s a Hfind Hle.
  - change (Py.take 0 s +:+ "," +:+ Py.drop 0 s) with (String "," s).
    cbn [Py.find]. rewrite (startswith_behind_comma _ _ Hfree Hne).
    now rewrite Hfind.
  - destruct a as [|a]; [lia |].
    destruct s as [|c s]; [now apply find_nil in Hfind |].
    apply find_succ in Hfind as [Hstart Hfind].
    pose proof (startswith_insert_comma sub (String c s) (S i) Hfree Hstart)
      as Hstart'.
    change (Py.take (S i) (String c s) +:+ "," +:+ Py.drop (S i) (String c s))
      with (String c (Py.take i s +:+ "," +:+ Py.drop i s)) in *.
    cbn [Py.find]. rewrite Hstart'. rewrite (IH s a Hfind); [reflexivity | lia].
Qed.

Lemma get_insert_at s i :
  i <= Py.len s ->
  String.get i (Py.take i s +:+ "," +:+ Py.drop i s) = Some ","%char.
Proof.
  revert s. induction i as [|i IH]; intros s Hle; [reflexivity |].
  destruct s as [|c s]; [cbn in Hle; lia |].
  cbn. apply IH. unfold Py.len in *. cbn in Hle. lia.
Qed.

Lemma get_insert_after s i j :
  i <= j ->
  String.get (S j) (Py.take i s +:+ "," +:+ Py.drop i s) = String.get j s.
Proof.
  revert s j. induction i as [|i IH]; intros s j Hle; [reflexivity |].
  destruct j as [|j]; [lia |].
  destruct s as [|c s]; [reflexivity |].
  cbn. apply IH. lia.
Qed.

(** A text in that state is returned as it is by a fresh call. *)
Lemma comma_in_front_settled fuel s index :
  comma_in_front property_name s index ->
  fix_json_property (S fuel) s property_name = Ok s.
Proof.
  intros (p & Hfind & _ & Hget). unfold fix_json_property.
  rewrite fix_json_loop_step. change (Py.drop 0 s) with s.
  now rewrite Hfind, getitem_pred, Hget.
Qed.

(** The state is kept by every turn, so it holds of the text returned. *)
Lemma fix_json_loop_keeps_comma_in_front fuel s index t :
  comma_in_front property_name s index ->
  fix_json_loop fuel property_name s index = Ok t ->
  exists index', comma_in_front property_name t index'.
Proof.
  revert s index. induction fuel as [|fuel IH]; intros s index Hinv Hrun;
    [discriminate |].
  pose proof Hinv as (p & Hfind & Hle & Hget).
  rewrite fix_json_loop_step in Hrun.
  rewrite (find_drop _ _ (S p) index Hfind) in Hrun by lia.
  destruct (S p - index) as [|i] eqn:Hi; [lia |].
  rewrite getitem_pred in Hrun.
  destruct (String.get i s) as [c|] eqn:Hc; cbn [bind] in Hrun; [|discriminate].
  destruct (negb (Py.char_in c ",{")) eqn:Htest.
  - assert (Hip : i < p).
    { destruct (Nat.eq_dec i p) as [-> | Hne]; [|lia].
      rewrite Hget in Hc. injection Hc as <-. discriminate Htest. }
    refine (IH _ (S i) _ Hrun).
    exists (S p). repeat split.
    + apply find_insert_before;
        [apply quoted_comma_free, comma_free_name | apply quoted_nonempty
         | exact Hfind | lia].
    + lia.
    + rewrite get_insert_after by lia. exact Hget.
  - injection Hrun as <-. now exists index.
Qed.

(** What a call returns is returned unchanged by the next call. *)
Lemma fix_json_property_settles fuel fuel' s t :
  fix_json_property fuel s property_name = Ok t ->
  fix_json_property (S fuel') t property_name = Ok t.
Proof.
  unfold fix_json_property at 1. destruct fuel as [|fuel]; [discriminate |].
  rewrite fix_json_loop_step. change (Py.drop 0 s) with s.
  destruct (Py.find s (Py.quoted property_name)) as [a|] eqn:Hfind.
  - destruct (Py.getitem s (Z.of_nat a - 1)) as [c| |] eqn:Hc; cbn [bind];
      try discriminate.
    destruct (negb (Py.char_in c ",{")) eqn:Htest.
    + intros Hrun.
      apply fix_json_loop_keeps_comma_in_front in Hrun as (index' & Hinv).
      * now apply comma_in_front_settled with (index := index').
      * exists a. repeat split.
        -- apply find_insert_comma;
             [apply quoted_comma_free, comma_free_name | apply quoted_nonempty
              | exact Hfind].
        -- lia.
        -- apply get_insert_at. now apply find_le in Hfind.
    + intros [= <-]. unfold fix_json_property.
      rewrite fix_json_loop_step. change (Py.drop 0 s) with s.
      rewrite Hfind, Hc. cbn [bind]. now rewrite Htest.
  - intros [= <-]. unfold fix_json_property.
    rewrite fix_json_loop_step. change (Py.drop 0 s) with s.
    now rewrite Hfind.
Qed.

End CommaFixSettles.

(** X2.  For a property name without comma, [fix_json_property] is
    idempotent: the text one call returns is returned unchanged by a
    second call, at the first turn of its loop. *)
Theorem fix_json_property_idempotent
    (property_name : string) (fuel fuel' : nat) (s t : string) :
  Py.char_in "," property_name = false ->
  fix_json_property fuel s property_name = Ok t ->
  fix_json_property (S fuel') t property_name = Ok t.
Proof. intros Hname. now apply fix_json_property_settles. Qed.

Lemma fix_json_property_idempotent_witness :
  fix_json_property 1 Examples.in_array_result "data"
  = Ok Examples.in_array_result.
Proof.
  apply (fix_json_property_idempotent "data" 4 0 Examples.in_array);
    reflexivity.
Defined.

Lemma find_behind_comma_quoted property_name t :
  Py.startswith t (Py.quoted property_name) = true ->
  Py.find (String "," t) (Py.quoted property_name) = Some 1.
Proof.
  intros Hstart. apply find_of_startswith in Hstart.
  cbn [Py.find]. rewrite Hstart. reflexivity.
Qed.

(** X3.  On a text that opens with a brace or a comma, as a JSON object
    does, and whose first occurrence of the quoted name follows a character
    other than a comma or a brace, [fix_json_property] returns the text with
    one comma inserted in front of that first occurrence.  Nothing behind
    it is looked at. *)
Theorem fix_json_property_repairs_first_occurrence
    (property_name : string) (fuel : nat) (c0 : ascii) (s' : string)
    (b : nat) (c : ascii) :
  Py.find (String c0 s') (Py.quoted property_name) = Some (S b) ->
  String.get b (String c0 s') = Some c ->
  Py.char_in c ",{" = false ->
  Py.char_in c0 ",{" = true ->
  fix_json_property (2 + fuel) (String c0 s') property_name
  = Ok (Py.take (S b) (String c0 s') +:+ "," +:+ Py.drop (S b) (String c0 s')).
Proof.
  intros Hfind Hc Hsep Hopen.
  unfold fix_json_property. change (2 + fuel) with (S (S fuel)).
  rewrite fix_json_loop_step. change (Py.drop 0 (String c0 s')) with (String c0 s').
  rewrite Hfind, getitem_pred, Hc. cbn [bind]. rewrite Hsep. cbn [negb].
  apply find_succ in Hfind as [_ Hfind].
  pose proof (find_startswith _ _ _ Hfind) as Hstart.
  pose proof (find_le _ _ _ Hfind) as Hle.
  set (X := Py.take b s' +:+ "," +:+ Py.drop b s').
  change (Py.take (S b) (String c0 s') +:+ "," +:+ Py.drop (S b) (String c0 s'))
    with (String c0 X).
  rewrite fix_json_loop_step.
  change (Py.drop (S b) (String c0 X)) with (Py.drop b X).
  assert (HdropX : Py.drop b X = String "," (Py.drop b s'))
    by (unfold X; now rewrite drop_take_append).
  rewrite HdropX, (find_behind_comma_quoted _ _ Hstart).
  change (Py.getitem (String c0 X) (Z.of_nat 1 - 1)) with (@Ok ascii c0).
  cbn [bind]. now rewrite Hopen.
Qed.

Lemma fix_json_property_repairs_first_occurrence_witness :
  fix_json_property 2 Examples.two_missing "data"
  = Ok Examples.two_missing_result.
Proof.
  apply (fix_json_property_repairs_first_occurrence "data" 0 "{"%char
           (Py.drop 1 Examples.two_missing) 5 "1"%char);
    reflexivity.
Defined.

(** ** Fields of the request table *)

Section RequestFields.

(** What the annotations make of a base field. *)
Lemma annotate_result field raw d t :
  description field = Some d ->
  type_ field = Some t ->
  default_value field = None ->
  possible_values field = None ->
  exists field' dv,
    annotate field raw = Ok field'
    /\ extract_default d = Ok dv
    /\ key field' = key field
    /\ type_ field' = Some t
    /\ required field' = required field
    /\ description field' = Some d
    /\ default_value field' = dv
    /\ (possible_values field' <> None <->
        Py.contains d "Possible values" = true /\ t = "string").
Proof.
  intros Hd Ht Hdv Hpv. unfold annotate. rewrite Hd, Ht. cbn [item bind].
  destruct (extract_default_total d) as (dv & Hx).
  change (Py.casefold "string") with "string".
  destruct (Py.contains d "Possible values"); cbn [andb].
  - destruct (String.eqb_spec t "string") as [-> | Hne].
    + destruct (pull_possible_values_list_total raw) as (l & ->). cbn [bind].
      rewrite Hx. cbn [bind]. eexists _, dv.
      split; [reflexivity |]. split; [reflexivity |].
      destruct dv; cbn;
        repeat (match goal with |- _ /\ _ => split end);
        try reflexivity; try assumption;
        (split; [intros _; now split | discriminate]).
    + cbn [bind]. rewrite Hx. cbn [bind]. eexists _, dv.
      split; [reflexivity |]. split; [reflexivity |].
      destruct dv; cbn;
        repeat (match goal with |- _ /\ _ => split end);
        try reflexivity; try assumption;
        rewrite Hpv; (split; [intros Habs; now contradiction Habs
                             | intros [_ Habs]; now contradiction Hne]).
  - cbn [bind]. rewrite Hx. cbn [bind]. eexists _, dv.
    split; [reflexivity |]. split; [reflexivity |].
    destruct dv; cbn;
      repeat (match goal with |- _ /\ _ => split end);
      try reflexivity; try assumption;
      rewrite Hpv; (split; [intros Habs; now contradiction Habs
                           | intros [Habs _]; discriminate Habs]).
Qed.

Lemma request_row_result row c0 c1 cd :
  Soup.cells row !! 0 = Some c0 ->
  Soup.cells row !! 1 = Some c1 ->
  description_cell row = Some cd ->
  exists field dv,
    request_row row = Ok field
    /\ extract_default (Soup.get_text cd " ") = Ok dv
    /\ key field = Some (Soup.get_text c0 " ")
    /\ type_ field = Some (Py.casefold (Soup.get_text c1 " "))
    /\ description field = Some (Soup.get_text cd " ")
    /\ default_value field = dv
    /\ (possible_values field <> None <->
        Py.contains (Soup.get_text cd " ") "Possible values" = true
        /\ Py.casefold (Soup.get_text c1 " ") = "string").
Proof.
  unfold description_cell, request_row.
  destruct (Soup.cells row) as [|c0' [|c1' cells]]; try discriminate.
  intros [= ->] [= ->]. cbn [list_item lookup list_lookup bind].
  destruct (length (c0 :: c1 :: cells) =? 4) eqn:Hfour.
  - destruct cells as [|c2 [|c3 cells]]; try discriminate.
    intros [= ->]. cbn [list_item lookup list_lookup bind].
    set (field0 := if String.eqb _ "yes" then _ else _).
    destruct (annotate_result field0 cd (Soup.get_text cd " ")
                (Py.casefold (Soup.get_text c1 " ")))
      as (field' & dv & Hrun & Hx & Hk & Ht & _ & Hdescr & Hdv & Hpv).
    1-4: subst field0; destruct (String.eqb _ "yes");
         [reflexivity | destruct (String.eqb _ "no"); reflexivity].
    exists field', dv.
    split; [exact Hrun |]. split; [exact Hx |].
    split; [|now repeat (split; [assumption |])].
    rewrite Hk. subst field0. destruct (String.eqb _ "yes");
      [reflexivity | destruct (String.eqb _ "no"); reflexivity].
  - destruct cells as [|c2 cells]; [discriminate |].
    intros [= ->]. cbn [list_item lookup list_lookup bind].
    destruct (annotate_result
                (set_description (Soup.get_text cd " ")
                   (set_required false
                      (mkHttpField (Some (Soup.get_text c0 " "))
                         (Some (Py.casefold (Soup.get_text c1 " ")))
                         None None None None)))
                cd (Soup.get_text cd " ") (Py.casefold (Soup.get_text c1 " ")))
      as (field' & dv & Hrun & Hx & Hk & Ht & _ & Hdescr & Hdv & Hpv);
      try reflexivity.
    exists field', dv.
    split; [exact Hrun |]. split; [exact Hx |].
    split; [exact Hk |]. now repeat (split; [assumption |]).
Qed.

(** A row of at least three cells always yields a field. *)
Lemma request_row_ok row :
  3 <= length (Soup.cells row) ->
  exists field cd d t,
    request_row row = Ok field
    /\ description_cell row = Some cd
    /\ d = Soup.get_text cd " "
    /\ key field = key_text row
    /\ type_ field = Some t
    /\ description field = Some d
    /\ extract_default d = Ok (default_value field)
    /\ (possible_values field <> None <->
        Py.contains d "Possible values" = true /\ t = "string").
Proof.
  intros Hlen.
  assert (Hcells : exists c0 c1 cd,
             Soup.cells row !! 0 = Some c0 /\ Soup.cells row !! 1 = Some c1
             /\ description_cell row = Some cd).
  { unfold description_cell.
    destruct (Soup.cells row) as [|c0 [|c1 [|c2 [|c3 rest]]]];
      cbn in Hlen; try lia.
    - exists c0, c1, c2. repeat split.
    - exists c0, c1. destruct rest; cbn; eauto. }
  destruct Hcells as (c0 & c1 & cd & H0 & H1 & Hcd).
  destruct (request_row_result row c0 c1 cd H0 H1 Hcd)
    as (field & dv & Hrun & Hx & Hk & Ht & Hd & Hdv & Hpv).
  exists field, cd, (Soup.get_text cd " "), (Py.casefold (Soup.get_text c1 " ")).
  repeat (split; [first [assumption | reflexivity] |]).
  split.
  - rewrite Hk. unfold key_text. destruct (Soup.cells row); [discriminate |].
    now injection H0 as ->.
  - repeat (split; [first [assumption | reflexivity | now rewrite Hdv] |]).
    exact Hpv.
Qed.

End RequestFields.

(** X4.  A row of exactly three element cells yields a field whose key is
    the text of the first cell, whose type is the case-folded text of the
    second, whose description is the text of the third and whose
    [required] entry is false. *)
Theorem request_row_three_cells (row c0 c1 c2 : PageElement) :
  Soup.cells row = [c0; c1; c2] ->
  exists field,
    request_row row = Ok field
    /\ key field = Some (Soup.get_text c0 " ")
    /\ type_ field = Some (Py.casefold (Soup.get_text c1 " "))
    /\ required field = Some false
    /\ description field = Some (Soup.get_text c2 " ").
Proof.
  intros Hcells.
  destruct (request_row_else c0 c1 c2 [] row Hcells)
    as (field & dv & Hrun & _ & Hreq & Hdescr & _); [cbn; lia |].
  destruct (request_row_result row c0 c1 c2)
    as (field' & dv' & Hrun' & _ & Hk & Ht & _);
    try (unfold description_cell; rewrite Hcells; reflexivity).
  rewrite Hrun in Hrun'. injection Hrun' as <-.
  exists field. repeat split; assumption.
Qed.

Lemma request_row_three_cells_witness :
  exists field,
    request_row (Examples.row [Examples.cell "id"; Examples.cell "String";
                               Examples.cell "An ID."])
    = Ok field
    /\ key field = Some (Soup.get_text (Examples.cell "id") " ")
    /\ type_ field = Some (Py.casefold (Soup.get_text (Examples.cell "String") " "))
    /\ required field = Some false
    /\ description field = Some (Soup.get_text (Examples.cell "An ID.") " ").
Proof.
  apply (request_row_three_cells
           (Examples.row [Examples.cell "id"; Examples.cell "String";
                          Examples.cell "An ID."])).
  reflexivity.
Defined.

Section RequestTable.

Lemma mapM_Forall2_total {A B : Type} (f : A -> Result B) (P : A -> B -> Prop) xs :
  Forall (fun x => exists y, f x = Ok y /\ P x y) xs ->
  exists ys, mapM f xs = Ok ys /\ Forall2 P xs ys.
Proof.
  induction 1 as [|x xs (y & Hy & HP) _ (ys & Hys & HF)]; cbn [mapM].
  - exists []. split; [reflexivity | constructor].
  - rewrite Hy. cbn [bind]. rewrite Hys. cbn [bind].
    exists (y :: ys). split; [reflexivity | now constructor].
Qed.

(** When every element either yields a value or raises [e], and one of
    them raises, the whole traversal raises [e]. *)
Lemma mapM_raises {A B : Type} (f : A -> Result B) e xs :
  Forall (fun x => (exists y, f x = Ok y) \/ f x = Raise e) xs ->
  Exists (fun x => f x = Raise e) xs ->
  mapM f xs = Raise e.
Proof.
  intros Hall Hex. induction Hex as [x xs Hx | x xs Hex IH];
    inversion Hall as [|? ? Hx' Hall']; subst; cbn [mapM].
  - now rewrite Hx.
  - destruct Hx' as [(y & ->) | ->]; [|reflexivity].
    cbn [bind]. now rewrite (IH Hall').
Qed.

End RequestTable.

(** X5.  When the table has a [tbody] and each of its element rows has at
    least three element cells, [parse_request_body] returns one field per
    element row, in the order of the rows: the field's key is the text of
    the row's first cell and its description the text of the row's
    description cell.  Text nodes between the rows count for nothing. *)
Theorem parse_request_body_one_field_per_row (tag body : PageElement) :
  Soup.find tag "tbody" [] = Some body ->
  Forall (fun r => 3 <= length (Soup.cells r))
         (List.filter Soup.is_tag (Soup.children body)) ->
  exists fields,
    parse_request_body tag = Ok fields
    /\ Forall2
         (fun r f =>
            key f = key_text r
            /\ exists cd,
                 description_cell r = Some cd
                 /\ description f = Some (Soup.get_text cd " "))
         (List.filter Soup.is_tag (Soup.children body)) fields.
Proof.
  intros Hfind Hrows. rewrite (parse_request_body_rows _ _ Hfind).
  apply mapM_Forall2_total.
  eapply Forall_impl; [exact Hrows |]. cbn beta. intros r Hlen.
  destruct (request_row_ok r Hlen)
    as (field & cd & d & t & Hrun & Hcd & -> & Hk & _ & Hd & _).
  exists field. split; [exact Hrun |]. split; [exact Hk |]. now exists cd.
Qed.

Lemma parse_request_body_one_field_per_row_witness :
  exists fields,
    parse_request_body (Examples.table Examples.rows_data_id) = Ok fields
    /\ Forall2
         (fun r f =>
            key f = key_text r
            /\ exists cd,
                 description_cell r = Some cd
                 /\ description f = Some (Soup.get_text cd " "))
         (List.filter Soup.is_tag
            (Soup.children (Tag "tbody" ∅ Examples.rows_data_id)))
         fields.
Proof.
  apply (parse_request_body_one_field_per_row
           (Examples.table Examples.rows_data_id)
           (Tag "tbody" ∅ Examples.rows_data_id)).
  - reflexivity.
  - repeat constructor.
Defined.

(** X6.  [parse_request_body] raises an [AttributeError] on a table
    without [tbody], and an [IndexError] on a table one of whose element
    rows has fewer than three element cells, wherever that row stands. *)
Theorem parse_request_body_errors (tag : PageElement) :
  (Soup.find tag "tbody" [] = None ->
   parse_request_body tag = Raise AttributeError)
  /\ (forall body,
        Soup.find tag "tbody" [] = Some body ->
        Exists (fun r => length (Soup.cells r) < 3)
               (List.filter Soup.is_tag (Soup.children body)) ->
        parse_request_body tag = Raise IndexError).
Proof.
  split.
  - intros Hfind. unfold parse_request_body. now rewrite Hfind.
  - intros body Hfind Hshort. rewrite (parse_request_body_rows _ _ Hfind).
    apply mapM_raises.
    + apply List.Forall_forall. intros r _.
      destruct (Nat.lt_ge_cases (length (Soup.cells r)) 3) as [Hlt | Hge].
      * right. now apply request_row_short.
      * left. destruct (request_row_ok r Hge) as (field & _ & _ & _ & Hrun & _).
        now exists field.
    + eapply Exists_impl; [exact Hshort |].
      cbn beta. intros r Hlt. now apply request_row_short.
Qed.

Lemma parse_request_body_errors_witness :
  parse_request_body (Tag "table" ∅ []) = Raise AttributeError
  /\ parse_request_body
       (Examples.table [Examples.row_yes;
                        Examples.row [Examples.cell "first"; Examples.cell "Integer"]])
     = Raise IndexError.
Proof.
  split.
  - apply (proj1 (parse_request_body_errors (Tag "table" ∅ []))). reflexivity.
  - apply (proj2 (parse_request_body_errors
                    (Examples.table
                       [Examples.row_yes;
                        Examples.row [Examples.cell "first";
                                      Examples.cell "Integer"]]))
             (Tag "tbody" ∅
                [Examples.row_yes;
                 Examples.row [Examples.cell "first"; Examples.cell "Integer"]])).
    + reflexivity.
    + apply Exists_cons_tl, Exists_cons_hd. cbn. lia.
Defined.

(** ** The optional entries of a request field *)

Section DefaultValue.

Implicit Types s v : string.

Lemma rstrip_by_last p s c :
  Py.last (Py.rstrip_by p s) = Some c -> p c = false.
Proof.
  induction s as [|d s IH]; cbn [Py.rstrip_by]; [discriminate |].
  destruct (Py.rstrip_by p s) as [|e r] eqn:Hr.
  - destruct (p d) eqn:Hp; [discriminate |]. now intros [= <-].
  - intros Hlast. apply IH. exact Hlast.
Qed.

Lemma char_in_rstrip_by p c s :
  Py.char_in c s = false -> Py.char_in c (Py.rstrip_by p s) = false.
Proof.
  induction s as [|d s IH]; [reflexivity |]. cbn [Py.char_in Py.rstrip_by].
  intros H. apply orb_false_elim in H as [Hd Hs]. specialize (IH Hs).
  destruct (Py.rstrip_by p s) as [|e r].
  - destruct (p d); cbn; [reflexivity | now rewrite Hd].
  - cbn [Py.char_in] in *. now rewrite Hd, IH.
Qed.

Lemma char_in_take c n s :
  Py.char_in c s = false -> Py.char_in c (Py.take n s) = false.
Proof.
  revert s. induction n as [|n IH]; intros s H; [reflexivity |].
  destruct s as [|d s]; [reflexivity |]. cbn [Py.char_in Py.take] in *.
  apply orb_false_elim in H as [Hd Hs]. now rewrite Hd, IH.
Qed.

Lemma char_in_drop c n s :
  Py.char_in c s = false -> Py.char_in c (Py.drop n s) = false.
Proof.
  revert s. induction n as [|n IH]; intros s H; [exact H |].
  destruct s as [|d s]; [reflexivity |]. cbn [Py.char_in Py.drop] in *.
  apply orb_false_elim in H as [_ Hs]. now apply IH.
Qed.

(** Searching for a single character. *)
Lemma find_char_none c s :
  Py.find s (String c "") = None -> Py.char_in c s = false.
Proof.
  induction s as [|d s IH]; [reflexivity |].
  cbn [Py.find Py.startswith Py.char_in].
  destruct (Ascii.eqb c d); [discriminate |].
  destruct (Py.find s (String c "")); [discriminate |].
  intros _. now apply IH.
Qed.

Lemma find_char_take c s i :
  Py.find s (String c "") = Some i -> Py.char_in c (Py.take i s) = false.
Proof.
  revert s. induction i as [|i IH]; intros s Hfind; [reflexivity |].
  destruct s as [|d s]; [reflexivity |].
  apply find_succ in Hfind as [Hstart Hfind].
  cbn [Py.startswith] in Hstart. cbn [Py.take Py.char_in].
  destruct (Ascii.eqb c d); [discriminate |]. now apply IH.
Qed.

(** The first piece of a split on blanks holds no blank. *)
Lemma split_head_no_blank s x :
  list_item (Py.split s " ") 0 = Ok x -> Py.char_in " " x = false.
Proof.
  unfold Py.split.
  destruct (Py.len s) as [|n] eqn:Hlen; cbn [Py.split_go].
  - intros [= <-]. now destruct s.
  - destruct (Py.find s " ") as [i|] eqn:Hfind; intros [= <-].
    + now apply find_char_take.
    + now apply find_char_none.
Qed.

Lemma extract_default_shape d v :
  extract_default d = Ok (Some v) ->
  Py.char_in " " v = false
  /\ forall c, Py.last v = Some c -> Py.char_in c ".," = false.
Proof.
  unfold extract_default.
  destruct (Py.contains d "The default is"); [|discriminate].
  destruct (Py.find d "The default is") as [index|]; [|discriminate].
  destruct (list_item _ 0) as [x| |] eqn:Hx; cbn [bind]; try discriminate.
  apply split_head_no_blank in Hx. intros Heq.
  assert (Hv : v = Py.rstrip (if Py.startswith x Py.quote
                              then Py.slice_1_m1 x else x) ".,")
    by congruence.
  subst v. clear Heq. unfold Py.rstrip. split.
  - apply char_in_rstrip_by. destruct (Py.startswith x Py.quote); [|exact Hx].
    unfold Py.slice_1_m1. now apply char_in_take, char_in_drop.
  - intros c. apply rstrip_by_last.
Qed.

Lemma extract_default_none d :
  extract_default d = Ok None <-> Py.contains d "The default is" = false.
Proof.
  unfold extract_default, Py.contains.
  destruct (Py.find d "The default is") as [index|]; [|tauto].
  destruct (list_item_split
              (Py.drop (index + Py.len "the default is" + 1) d) " ") as (x & ->).
  cbn [bind]. split; discriminate.
Qed.

End DefaultValue.

(** X7.  Whenever a request row yields a field with a [default_value],
    that value holds no blank and does not end with a dot or a comma. *)
Theorem request_row_default_value_shape
    (row : PageElement) (field : HttpField) (v : string) :
  request_row row = Ok field ->
  default_value field = Some v ->
  Py.char_in " " v = false
  /\ forall c, Py.last v = Some c -> Py.char_in c ".," = false.
Proof.
  intros Hrun Hv.
  destruct (Nat.lt_ge_cases (length (Soup.cells row)) 3) as [Hlt | Hge].
  - rewrite (request_row_short _ Hlt) in Hrun. discriminate.
  - destruct (request_row_ok row Hge)
      as (field' & cd & d & t & Hrun' & _ & _ & _ & _ & _ & Hx & _).
    rewrite Hrun in Hrun'. injection Hrun' as <-.
    rewrite Hv in Hx. now apply extract_default_shape in Hx.
Qed.

Lemma request_row_default_value_shape_witness :
  Py.char_in " " "20" = false
  /\ forall c, Py.last "20" = Some c -> Py.char_in c ".," = false.
Proof.
  apply (request_row_default_value_shape
           (Examples.row [Examples.cell "first"; Examples.cell "Integer";
                          Examples.cell "The default is 20."])
           (mkHttpField (Some "first") (Some "integer") (Some false)
              (Some "The default is 20.") (Some "20") None));
    reflexivity.
Defined.

(** X8.  A field yielded by a request row has a description and a type;
    it has a [default_value] exactly when the description contains
    [The default is], and [possible_values] exactly when the description
    contains [Possible values] and the type is [string]. *)
Theorem request_row_optional_entries (row : PageElement) (field : HttpField) :
  request_row row = Ok field ->
  exists d t,
    description field = Some d
    /\ type_ field = Some t
    /\ (default_value field <> None <-> Py.contains d "The default is" = true)
    /\ (possible_values field <> None <->
        Py.contains d "Possible values" = true /\ t = "string").
Proof.
  intros Hrun.
  destruct (Nat.lt_ge_cases (length (Soup.cells row)) 3) as [Hlt | Hge].
  - rewrite (request_row_short _ Hlt) in Hrun. discriminate.
  - destruct (request_row_ok row Hge)
      as (field' & cd & d & t & Hrun' & _ & _ & _ & Ht & Hd & Hx & Hpv).
    rewrite Hrun in Hrun'. injection Hrun' as <-.
    exists d, t. split; [exact Hd |]. split; [exact Ht |]. split; [|exact Hpv].
    destruct (default_value field) as [v|].
    + split; [|discriminate]. intros _.
      destruct (Py.contains d "The default is") eqn:Hc; [reflexivity |].
      apply extract_default_none in Hc. congruence.
    + apply extract_default_none in Hx. rewrite Hx.
      split; [intros H; now contradiction H | discriminate].
Qed.

Lemma request_row_optional_entries_witness :
  exists d t,
    Some Examples.default_quoted = Some d
    /\ Some "integer" = Some t
    /\ (Some ("100" +:+ Py.quote) <> None <-> Py.contains d "The default is" = true)
    /\ (@None (list string) <> None <->
        Py.contains d "Possible values" = true /\ t = "string").
Proof.
  apply (request_row_optional_entries Examples.row_default_quoted
           (mkHttpField (Some "first") (Some "integer") (Some false)
              (Some Examples.default_quoted) (Some ("100" +:+ Py.quote)) None)).
  reflexivity.
Defined.

(** ** Possible values *)

Section PossibleValues.

Implicit Types s x sep : string.

Lemma startswith_refl s : Py.startswith s s = true.
Proof. induction s as [|c s IH]; cbn; [reflexivity | now rewrite Ascii.eqb_refl]. Qed.

Lemma startswith_take i s : Py.startswith s (Py.take i s) = true.
Proof.
  revert s. induction i as [|i IH]; intros s; [reflexivity |].
  destruct s as [|c s]; [reflexivity |]. cbn. now rewrite Ascii.eqb_refl.
Qed.

(** The first piece of a split: the text up to the first separator, the
    whole text when there is none. *)
Lemma split_head_eq s sep :
  list_item (Py.split s sep) 0
  = Ok (match Py.find s sep with
        | Some i => Py.take i s
        | None => s
        end).
Proof.
  unfold Py.split. destruct (Py.len s) as [|n] eqn:Hlen; cbn [Py.split_go].
  - destruct s; [|discriminate].
    destruct (Py.find "" sep) as [[|i]|]; reflexivity.
  - now destruct (Py.find s sep).
Qed.

Lemma possible_value_prefix child :
  exists v,
    possible_value child = Ok v
    /\ Py.startswith (Soup.get_text child " ") v = true.
Proof.
  unfold possible_value.
  destruct (Py.contains _ em_dash).
  - rewrite split_head_eq. eexists. split; [reflexivity |].
    destruct (Py.find _ _); [apply startswith_take | apply startswith_refl].
  - destruct (Py.contains _ "-").
    + rewrite split_head_eq. eexists. split; [reflexivity |].
      destruct (Py.find _ _); [apply startswith_take | apply startswith_refl].
    + eexists. split; [reflexivity | apply startswith_refl].
Qed.

End PossibleValues.

(** X9.  [pull_possible_values_list] never raises.  It returns one value
    per element child of the first [ul] below the tag, in order, each value
    being a prefix of the child's text; without [ul] it returns the empty
    list. *)
Theorem pull_possible_values_list_prefixes (tag : PageElement) :
  exists values,
    pull_possible_values_list tag = Ok values
    /\ Forall2 (fun item v => Py.startswith (Soup.get_text item " ") v = true)
               (list_items tag) values.
Proof.
  unfold pull_possible_values_list, list_items.
  destruct (Soup.find tag "ul" []) as [ul|].
  - apply mapM_Forall2_total. apply List.Forall_forall. intros item _.
    apply possible_value_prefix.
  - exists []. split; [reflexivity | constructor].
Qed.

(** X10.  An item is kept whole when its separator does not occur: with an
    em dash in the text, that is [ - ] written with the em dash, even if
    the text holds a hyphen between blanks as well; without em dash, it is
    the hyphen between blanks, so a hyphenated word is not cut. *)
Theorem possible_value_kept_whole (child : PageElement) :
  (if Py.contains (Soup.get_text child " ") em_dash
   then Py.find (Soup.get_text child " ") (" " +:+ em_dash +:+ " ")
   else Py.find (Soup.get_text child " ") " - ") = None ->
  possible_value child = Ok (Soup.get_text child " ").
Proof.
  unfold possible_value.
  destruct (Py.contains _ em_dash).
  - intros Hfind. now rewrite split_head_eq, Hfind.
  - intros Hfind. destruct (Py.contains _ "-"); [|reflexivity].
    now rewrite split_head_eq, Hfind.
Qed.

Lemma possible_value_kept_whole_witness :
  possible_value (Examples.cell ("live" +:+ em_dash +:+ "now - on air"))
  = Ok (Soup.get_text (Examples.cell ("live" +:+ em_dash +:+ "now - on air")) " ").
Proof.
  apply (possible_value_kept_whole
           (Examples.cell ("live" +:+ em_dash +:+ "now - on air"))).
  reflexivity.
Defined.

(** ** Fields of the response table *)

Section ResponseFields.

Lemma response_row_shaped key_format_string row field key_format_string' :
  response_row key_format_string row = Ok (field, key_format_string') ->
  response_shaped field.
Proof.
  unfold response_row.
  destruct (list_item (Soup.cells row) 0) as [c0| |]; cbn [bind]; try discriminate.
  destruct (list_item (Soup.cells row) 1) as [c1| |]; cbn [bind]; try discriminate.
  destruct (list_item (Soup.cells row) 2) as [c2| |]; cbn [bind]; try discriminate.
  destruct (match key_format_string with
            | Some template => Py.format template (Soup.get_text c0 " ")
            | None => Ok (Soup.get_text c0 " ")
            end) as [formatted| |]; cbn [bind key item]; try discriminate.
  intros Hrun.
  assert (Hfield : field
                   = mkHttpField (Some (Py.casefold formatted))
                       (Some (Py.casefold (Soup.get_text c1 " ")))
                       None (Some (Soup.get_text c2 " ")) None None).
  { destruct (Py.endswith _ _); [congruence |].
    destruct (Py.startswith _ _); congruence. }
  subst field. unfold response_shaped. cbn.
  repeat split; try discriminate;
    eexists; (split; [reflexivity | apply casefold_idempotent]).
Qed.

Lemma response_rows_shaped key_format_string rows fields :
  response_rows key_format_string rows = Ok fields ->
  Forall response_shaped fields
  /\ length fields = length (List.filter Soup.is_tag rows).
Proof.
  revert key_format_string fields.
  induction rows as [|r rows IH]; intros kfs fields; cbn [response_rows].
  - intros [= <-]. split; [constructor | reflexivity].
  - cbn [List.filter]. destruct (Soup.is_tag r); [|apply IH].
    destruct (response_row kfs r) as [[field kfs']| |] eqn:Hrow; cbn [bind];
      try discriminate.
    destruct (response_rows kfs' rows) as [fields'| |] eqn:Hrows; cbn [bind];
      try discriminate.
    intros [= <-]. apply IH in Hrows as [Hall Hlen]. split.
    + constructor; [now apply response_row_shaped in Hrow | exact Hall].
    + cbn. now rewrite Hlen.
Qed.

(** Rows whose keys open no prefix are keyed by their own text. *)
Lemma response_rows_plain rs ks :
  Forall (fun r => Soup.is_tag r = true) rs ->
  Forall2 (fun r k => key_text r = Some k) rs ks ->
  Forall (fun r => 3 <= length (Soup.cells r)) rs ->
  Forall (fun k => opens_prefix (Py.casefold k) = None) ks ->
  exists fields,
    response_rows None rs = Ok fields
    /\ map key fields = map (fun k => Some (Py.casefold k)) ks.
Proof.
  intros Htags Hkeys. revert Htags.
  induction Hkeys as [|r k rs ks Hk Hkeys IH]; intros Htags Hlen Hplain.
  - exists []. split; reflexivity.
  - inversion Htags as [|? ? Htag Htags']; subst.
    inversion Hlen as [|? ? Hlen1 Hlen']; subst.
    inversion Hplain as [|? ? Hp Hplain']; subst.
    destruct (response_row_spec None r k Hlen1 Hk I) as (field & Hrow & Hfk).
    cbn [produced_key template_of] in Hrow, Hfk. rewrite Hp in Hrow.
    cbn [response_rows]. rewrite Htag, Hrow. cbn [bind].
    destruct (IH Htags' Hlen' Hplain') as (fields & Hrun & Hmap).
    rewrite Hrun. cbn [bind]. exists (field :: fields).
    split; [reflexivity |]. cbn [map]. now rewrite Hfk, Hmap.
Qed.

End ResponseFields.

(** X11.  The fields [parse_response_body] returns are as many as the
    element rows of the table body; each of them has a key and a type that
    are case-folded, has a description, and has no [required],
    [default_value] or [possible_values] entry. *)
Theorem parse_response_body_shape
    (tag body : PageElement) (fields : list HttpField) :
  Soup.find tag "tbody" [] = Some body ->
  parse_response_body tag = Ok fields ->
  Forall response_shaped fields
  /\ length fields = length (List.filter Soup.is_tag (Soup.children body)).
Proof.
  intros Hfind. unfold parse_response_body. rewrite Hfind. cbn [not_none bind].
  apply response_rows_shaped.
Qed.

Lemma parse_response_body_shape_witness :
  Forall response_shaped
    [mkHttpField (Some "data[]") (Some "object[]") None
       (Some "The list of streams.") None None;
     mkHttpField (Some "data[][#].id") (Some "string") None
       (Some "An ID.") None None]
  /\ 2 = length (List.filter Soup.is_tag
                   (Soup.children (Tag "tbody" ∅ Examples.rows_data_id))).
Proof.
  apply (parse_response_body_shape (Examples.table Examples.rows_data_id)
           (Tag "tbody" ∅ Examples.rows_data_id));
    reflexivity.
Defined.

(** X12.  When no row of the table body has a key whose case-folded form
    ends with [[]] or starts with [object], no prefix is ever in force:
    every field is keyed by the case-folded text of its row's first cell. *)
Theorem parse_response_body_plain_keys
    (tag body : PageElement) (ks : list string) :
  Soup.find tag "tbody" [] = Some body ->
  Forall (fun r => 3 <= length (Soup.cells r))
         (List.filter Soup.is_tag (Soup.children body)) ->
  Forall2 (fun r k => key_text r = Some k)
          (List.filter Soup.is_tag (Soup.children body)) ks ->
  Forall (fun k => opens_prefix (Py.casefold k) = None) ks ->
  exists fields,
    parse_response_body tag = Ok fields
    /\ map key fields = map (fun k => Some (Py.casefold k)) ks.
Proof.
  intros Hfind Hlen Hkeys Hplain.
  unfold parse_response_body. rewrite Hfind. cbn [not_none bind].
  rewrite response_rows_filter.
  apply response_rows_plain; try assumption. apply filter_is_tag.
Qed.

Lemma parse_response_body_plain_keys_witness :
  exists fields,
    parse_response_body
      (Examples.table [Examples.row_yes; NavigableString " "; Examples.row_maybe])
    = Ok fields
    /\ map key fields = [Some "broadcaster_id"; Some "after"].
Proof.
  apply (parse_response_body_plain_keys
           (Examples.table [Examples.row_yes; NavigableString " "; Examples.row_maybe])
           (Tag "tbody" ∅ [Examples.row_yes; NavigableString " "; Examples.row_maybe])
           ["broadcaster_id"; "after"]).
  - reflexivity.
  - repeat constructor.
  - repeat constructor.
  - repeat constructor.
Defined.

(** ** What the left column reacts to *)

Section LeftColumnChildren.

(** A child that is not relevant leaves the state as it is. *)
Lemma left_column_step_irrelevant st child :
  relevant child = false -> left_column_step st child = Ok st.
Proof.
  unfold relevant, titled. intros H.
  apply orb_false_elim in H as [H Htable].
  apply orb_false_elim in H as [H Hh3].
  apply orb_false_elim in H as [Htitled Hp].
  destruct st as [doc header]. unfold left_column_step.
  now rewrite Htitled, Hp, Hh3, Htable.
Qed.

Lemma left_column_loop_relevant st children :
  left_column_loop st children
  = left_column_loop st (List.filter relevant children).
Proof.
  revert st. induction children as [|child children IH]; intros st;
    [reflexivity |].
  cbn [left_column_loop List.filter].
  destruct (relevant child) eqn:Hrel.
  - cbn [left_column_loop].
    destruct (left_column_step st child); cbn [bind]; try reflexivity.
    apply IH.
  - rewrite (left_column_step_irrelevant _ _ Hrel). cbn [bind]. apply IH.
Qed.

End LeftColumnChildren.

(** X13.  The result of [scrape_doc_left_column] depends only on the
    children that are level-2 headings with a non-empty [id], paragraphs,
    level-3 headings or tables, taken in order.  Text nodes, headings of
    level 2 without [id] and every other element change nothing and raise
    nothing, wherever they stand. *)
Theorem scrape_doc_left_column_relevant_children (tag tag' : PageElement) :
  List.filter relevant (Soup.children tag)
  = List.filter relevant (Soup.children tag') ->
  scrape_doc_left_column tag = scrape_doc_left_column tag'.
Proof.
  intros Hsame. unfold scrape_doc_left_column.
  rewrite (left_column_loop_relevant _ (Soup.children tag)).
  rewrite (left_column_loop_relevant _ (Soup.children tag')).
  now rewrite Hsame.
Qed.

Lemma scrape_doc_left_column_relevant_children_witness :
  scrape_doc_left_column
    (Tag "section" ∅
       [NavigableString " "; Tag "h2" ∅ [NavigableString "Overview"];
        Examples.h3 "URL"; Tag "div" ∅ [Examples.p "GET /x"]])
  = scrape_doc_left_column (Tag "section" ∅ [Examples.h3 "URL"]).
Proof.
  apply (scrape_doc_left_column_relevant_children
           (Tag "section" ∅
              [NavigableString " "; Tag "h2" ∅ [NavigableString "Overview"];
               Examples.h3 "URL"; Tag "div" ∅ [Examples.p "GET /x"]])
           (Tag "section" ∅ [Examples.h3 "URL"])).
  reflexivity.
Defined.

(** ** What a left column looks like *)

(** Takes the outcome [H] of one turn of the loop apart, test by test. *)
Ltac left_column_cases H :=
  repeat first
    [ match type of H with
      | (if ?b then _ else _) = _ => destruct b eqn:?
      end
    | match type of H with
      | bind ?m _ = _ =>
          destruct m as [?| |] eqn:?; cbn [bind] in H;
          [| discriminate H | discriminate H]
      end
    | match type of H with
      | (match ?x with _ => _ end) = _ => destruct x eqn:?
      end ].

Section LeftColumnShape.

Lemma left_column_step_title doc header child doc' header' :
  left_column_step (doc, header) child = Ok (doc', header') ->
  (title doc' <> None <-> title doc <> None \/ titled child = true).
Proof.
  unfold left_column_step, titled. intros Hrun.
  destruct (Soup.name_is child "h2" && Soup.truthy (Soup.attrs child !! "id")).
  - injection Hrun as <- <-. cbn. split; [now right | discriminate].
  - destruct (Soup.name_is child "p").
    + destruct (title doc) as [t|] eqn:Htitle; cbn [item bind] in Hrun;
        [|discriminate].
      left_column_cases Hrun; injection Hrun as <- <-; cbn; rewrite ?Htitle;
        (split; [now left | discriminate]).
    + cbn [bind andb] in Hrun.
      left_column_cases Hrun; injection Hrun as <- <-; cbn;
        (split; [now left | now intros [H | H]]).
Qed.

Lemma left_column_step_shaped doc header child doc' header' :
  left_column_shaped doc ->
  left_column_step (doc, header) child = Ok (doc', header') ->
  left_column_shaped doc'.
Proof.
  unfold left_column_step, left_column_shaped.
  intros (Hex & Hmu & Htitled) Hrun.
  destruct (Soup.name_is child "h2" && Soup.truthy (Soup.attrs child !! "id")).
  - injection Hrun as <- <-. cbn. repeat split; try tauto; discriminate.
  - destruct (Soup.name_is child "p").
    + destruct (title doc) as [t|] eqn:Htitle; cbn [item bind] in Hrun;
        [|discriminate].
      left_column_cases Hrun; injection Hrun as <- <-; cbn; rewrite ?Htitle;
        repeat split; try tauto; try discriminate.
    + cbn [bind andb] in Hrun.
      left_column_cases Hrun; injection Hrun as <- <-; cbn;
        repeat split; tauto.
Qed.

Lemma left_column_loop_facts children : forall doc header doc' header',
  left_column_shaped doc ->
  left_column_loop (doc, header) children = Ok (doc', header') ->
  left_column_shaped doc'
  /\ (title doc' <> None <-> title doc <> None \/ Exists (fun c => titled c = true) children).
Proof.
  induction children as [|child children IH]; intros doc header doc' header' Hshape;
    cbn [left_column_loop].
  - intros [= <- <-]. split; [exact Hshape |].
    split; [now left | intros [H | H]; [exact H | inversion H]].
  - destruct (left_column_step (doc, header) child) as [[doc1 header1]| |] eqn:Hstep;
      cbn [bind]; try discriminate.
    intros Hrun.
    pose proof (left_column_step_title _ _ _ _ _ Hstep) as Htitle1.
    apply left_column_step_shaped in Hstep; [|exact Hshape].
    destruct (IH _ _ _ _ Hstep Hrun) as [Hshape' Htitle']. split; [exact Hshape' |].
    rewrite Htitle', Htitle1, Exists_cons. tauto.
Qed.

End LeftColumnShape.

(** X14.  A record returned by [scrape_doc_left_column] has a title
    exactly when one of the children is a level-2 heading with a non-empty
    [id]. *)
Theorem scrape_doc_left_column_title (tag : PageElement) (doc : EndpointDoc) :
  scrape_doc_left_column tag = Ok doc ->
  (title doc <> None <-> Exists (fun c => titled c = true) (Soup.children tag)).
Proof.
  unfold scrape_doc_left_column.
  destruct (left_column_loop (empty_doc, None) (Soup.children tag))
    as [[doc' header']| |] eqn:Hloop; cbn [bind]; try discriminate.
  intros [= <-].
  apply left_column_loop_facts in Hloop as [_ Htitle].
  - rewrite Htitle. cbn. split; [intros [H | H]; [now contradiction H | exact H] |].
    now right.
  - cbn. repeat split; try tauto; intros [H | [H | H]]; now contradiction H.
Qed.

Lemma scrape_doc_left_column_title_witness :
  title Examples.doc_get_streams <> None
  <-> Exists (fun c => titled c = true)
        (Soup.children
           (Tag "section" ∅
              [NavigableString " ";
               Tag "h2" ∅ [NavigableString "Overview"];
               Tag "h2" {[ "id" := AttrStr "get-streams" ]}
                 [NavigableString "Get Streams"];
               Examples.h3 "URL";
               Examples.p "GET https://api.twitch.tv/helix/streams"])).
Proof.
  apply (scrape_doc_left_column_title
           (Tag "section" ∅
              [NavigableString " ";
               Tag "h2" ∅ [NavigableString "Overview"];
               Tag "h2" {[ "id" := AttrStr "get-streams" ]}
                 [NavigableString "Get Streams"];
               Examples.h3 "URL";
               Examples.p "GET https://api.twitch.tv/helix/streams"])).
  reflexivity.
Defined.

(** X15.  A record returned by [scrape_doc_left_column] never has an
    example response; it has a method exactly when it has a url; and when
    it has a summary, scopes or a method, it has a title. *)
Theorem scrape_doc_left_column_shape (tag : PageElement) (doc : EndpointDoc) :
  scrape_doc_left_column tag = Ok doc ->
  example_response doc = None
  /\ (method doc = None <-> url doc = None)
  /\ (summary doc <> None \/ scopes doc <> None \/ method doc <> None ->
      title doc <> None).
Proof.
  unfold scrape_doc_left_column.
  destruct (left_column_loop (empty_doc, None) (Soup.children tag))
    as [[doc' header']| |] eqn:Hloop; cbn [bind]; try discriminate.
  intros [= <-].
  apply left_column_loop_facts in Hloop as [Hshape _]; [exact Hshape |].
  cbn. repeat split; try tauto; intros [H | [H | H]]; now contradiction H.
Qed.

Lemma scrape_doc_left_column_shape_witness :
  example_response Examples.doc_get_streams = None
  /\ (method Examples.doc_get_streams = None <-> url Examples.doc_get_streams = None)
  /\ (summary Examples.doc_get_streams <> None
      \/ scopes Examples.doc_get_streams <> None
      \/ method Examples.doc_get_streams <> None ->
      title Examples.doc_get_streams <> None).
Proof.
  apply (scrape_doc_left_column_shape
           (Tag "section" ∅
              [Tag "h2" {[ "id" := AttrStr "get-streams" ]} [NavigableString "Get Streams"];
               Examples.h3 "URL";
               Examples.p "GET https://api.twitch.tv/helix/streams"])).
  reflexivity.
Defined.

(** ** The URL line *)

Section SplitOnBlanks.

Implicit Types s m u rest sep : string.

Lemma len_drop j s : Py.len (Py.drop j s) = Py.len s - j.
Proof.
  revert s. induction j as [|j IH]; intros s; unfold Py.len in *;
    [cbn; lia |].
  destruct s as [|c s]; [reflexivity |]. cbn. apply IH.
Qed.

Lemma startswith_len s p : Py.startswith s p = true -> Py.len p <= Py.len s.
Proof.
  revert s. induction p as [|c p IH]; intros s H; unfold Py.len in *;
    [cbn; lia |].
  destruct s as [|d s]; [discriminate |]. cbn in H |- *.
  destruct (Ascii.eqb c d); [|discriminate]. apply IH in H. lia.
Qed.

(** An occurrence lies within the text. *)
Lemma find_fits s sep i :
  Py.find s sep = Some i -> i + Py.len sep <= Py.len s.
Proof.
  intros Hfind. pose proof (find_le _ _ _ Hfind) as Hle.
  apply find_startswith, startswith_len in Hfind.
  rewrite len_drop in Hfind. lia.
Qed.

(** Any budget that covers the length of the text gives the same split. *)
Lemma split_go_budget sep :
  sep <> "" ->
  forall n n' s,
    Py.len s <= n -> Py.len s <= n' ->
    Py.split_go n s sep = Py.split_go n' s sep.
Proof.
  intros Hsep.
  assert (Hnil : forall k, Py.split_go k "" sep = [""]).
  { intros [|k]; [reflexivity |]. cbn.
    destruct sep; [congruence | reflexivity]. }
  induction n as [|n IH]; intros n' s Hn Hn'.
  - destruct s; [|cbn in Hn; lia]. now rewrite !Hnil.
  - destruct n' as [|n'].
    + destruct s; [|cbn in Hn'; lia]. now rewrite !Hnil.
    + cbn [Py.split_go]. destruct (Py.find s sep) as [i|] eqn:Hfind; [|reflexivity].
      f_equal. apply find_fits in Hfind.
      assert (0 < Py.len sep) by (destruct sep; [congruence | cbn; lia]).
      apply IH; rewrite len_drop; lia.
Qed.

Lemma split_none s sep : Py.find s sep = None -> Py.split s sep = [s].
Proof.
  intros Hfind. unfold Py.split.
  destruct (Py.len s); cbn [Py.split_go]; [reflexivity | now rewrite Hfind].
Qed.

Lemma split_cons s sep i :
  sep <> "" ->
  Py.find s sep = Some i ->
  Py.split s sep = Py.take i s :: Py.split (Py.drop (i + Py.len sep) s) sep.
Proof.
  intros Hsep Hfind. unfold Py.split.
  pose proof (find_fits _ _ _ Hfind) as Hfits.
  assert (0 < Py.len sep) by (destruct sep; [congruence | cbn; lia]).
  destruct (Py.len s) as [|n] eqn:Hlen; [lia |].
  cbn [Py.split_go]. rewrite Hfind. f_equal.
  apply split_go_budget; [exact Hsep | rewrite len_drop; lia | lia].
Qed.

Lemma char_in_find_none c s :
  Py.char_in c s = false -> Py.find s (String c "") = None.
Proof.
  induction s as [|d s IH]; [reflexivity |].
  cbn [Py.char_in Py.find Py.startswith].
  intros H. apply orb_false_elim in H as [Hd Hs].
  now rewrite Hd, (IH Hs).
Qed.

Lemma find_char_append c m rest :
  Py.char_in c m = false ->
  Py.find (m +:+ String c rest) (String c "") = Some (Py.len m).
Proof.
  induction m as [|d m IH]; intros H.
  - cbn. now rewrite Ascii.eqb_refl.
  - cbn [Py.char_in] in H. apply orb_false_elim in H as [Hd Hm].
    change (String d m +:+ String c rest) with (String d (m +:+ String c rest)).
    cbn [Py.find Py.startswith]. rewrite Hd, (IH Hm). reflexivity.
Qed.

Lemma take_append_len m rest : Py.take (Py.len m) (m +:+ rest) = m.
Proof.
  unfold Py.len. induction m as [|d m IH]; [reflexivity |]. cbn. now rewrite IH.
Qed.

Lemma drop_append_len m rest : Py.drop (Py.len m) (m +:+ rest) = rest.
Proof.
  unfold Py.len. induction m as [|d m IH]; [reflexivity |]. cbn. exact IH.
Qed.

(** A text with a blank behind its first word splits into that word and
    the split of what follows the blank. *)
Lemma split_first_word m rest :
  Py.char_in " " m = false ->
  Py.split (m +:+ " " +:+ rest) " " = m :: Py.split rest " ".
Proof.
  intros Hm.
  rewrite (split_cons _ " " (Py.len m)); [|discriminate |].
  - rewrite take_append_len. f_equal. f_equal.
    change (Py.len " ") with 1.
    replace (Py.len m + 1) with (S (Py.len m)) by lia.
    change (Py.drop (S (Py.len m)) (m +:+ " " +:+ rest))
      with (Py.drop (S (Py.len m)) (m +:+ String " " rest)).
    clear Hm. induction m as [|d m IH]; [reflexivity | exact IH].
  - now apply find_char_append.
Qed.

Lemma split_one_word u : Py.char_in " " u = false -> Py.split u " " = [u].
Proof. intros Hu. now apply split_none, char_in_find_none. Qed.

(** A text that holds a blank splits into two pieces at least. *)
Lemma split_two_pieces rest :
  Py.char_in " " rest = true -> 2 <= length (Py.split rest " ").
Proof.
  intros Hrest.
  destruct (Py.find rest " ") as [i|] eqn:Hfind.
  - assert (Hsep : " " <> "") by discriminate.
    rewrite (split_cons _ _ _ Hsep Hfind).
    destruct (split_head (Py.drop (i + Py.len " ") rest) " ") as (x & l & ->).
    cbn. lia.
  - apply find_char_none in Hfind. congruence.
Qed.

End SplitOnBlanks.

Section UrlLine.

(** A paragraph under the heading [URL], in a record whose title is not
    itself [URL], goes to the method and url entries. *)
Lemma left_column_step_url doc t child :
  title doc = Some t ->
  t <> "URL" ->
  Soup.name_is child "p" = true ->
  left_column_step (doc, Some "URL") child
  = (let segments := Py.split (Soup.get_text child " ") " " in
     do '(http_method, u) <-
       (if length segments =? 2
        then do m <- list_item segments 0;
             do u <- list_item segments 1;
             Ok (m, u)
        else do u <- list_item segments 0;
             Ok ("GET", u));
     Ok (set_method_url http_method u doc, Some "URL")).
Proof.
  intros Htitle Ht Hp. unfold left_column_step.
  rewrite (name_is_exclusive child "p" "h2" Hp) by discriminate.
  rewrite (name_is_exclusive child "p" "h3" Hp) by discriminate.
  rewrite Hp, Htitle. cbn [andb item bind header_is].
  assert (Hne : String.eqb "URL" t = false) by (apply String.eqb_neq; congruence).
  rewrite Hne. reflexivity.
Qed.

End UrlLine.

(** A paragraph of two words under [URL]. *)
Lemma left_column_step_two_words doc t child m u :
  title doc = Some t ->
  t <> "URL" ->
  Soup.name_is child "p" = true ->
  Soup.get_text child " " = m +:+ " " +:+ u ->
  Py.char_in " " m = false -> Py.char_in " " u = false ->
  left_column_step (doc, Some "URL") child
  = Ok (set_method_url m u doc, Some "URL").
Proof.
  intros Htitle Ht Hp Htext Hm Hu.
  rewrite (left_column_step_url _ _ _ Htitle Ht Hp). cbv zeta.
  now rewrite Htext, (split_first_word _ _ Hm), (split_one_word _ Hu).
Qed.

(** X16.  A paragraph met under the heading [URL] (in a record whose title
    is not [URL]) sets the method and the url from its text: a text without
    blank is the url and the method is [GET]; a text of two words gives the
    method and the url; a text of three words or more gives the method
    [GET] and its first word as the url. *)
Theorem left_column_url_line (doc : EndpointDoc) (t : string) (child : PageElement) :
  title doc = Some t ->
  t <> "URL" ->
  Soup.name_is child "p" = true ->
  (Py.char_in " " (Soup.get_text child " ") = false ->
   left_column_step (doc, Some "URL") child
   = Ok (set_method_url "GET" (Soup.get_text child " ") doc, Some "URL"))
  /\ (forall m u,
        Soup.get_text child " " = m +:+ " " +:+ u ->
        Py.char_in " " m = false -> Py.char_in " " u = false ->
        left_column_step (doc, Some "URL") child
        = Ok (set_method_url m u doc, Some "URL"))
  /\ (forall m rest,
        Soup.get_text child " " = m +:+ " " +:+ rest ->
        Py.char_in " " m = false -> Py.char_in " " rest = true ->
        left_column_step (doc, Some "URL") child
        = Ok (set_method_url "GET" m doc, Some "URL")).
Proof.
  intros Htitle Ht Hp.
  rewrite (left_column_step_url _ _ _ Htitle Ht Hp). cbv zeta.
  split; [|split].
  - intros Htext. now rewrite (split_one_word _ Htext).
  - intros m u -> Hm Hu.
    now rewrite (split_first_word _ _ Hm), (split_one_word _ Hu).
  - intros m rest -> Hm Hrest.
    rewrite (split_first_word _ _ Hm).
    pose proof (split_two_pieces _ Hrest) as Hlen.
    cbn [length]. destruct (length (Py.split rest " ")) as [|[|n]]; [lia | lia |].
    reflexivity.
Qed.

Lemma left_column_url_line_witness :
  left_column_step (Examples.doc_get_users, Some "URL")
    (Examples.p "GET https://api.twitch.tv/helix/streams extra")
  = Ok (set_method_url "GET" "GET" Examples.doc_get_users, Some "URL").
Proof.
  apply (proj2 (proj2 (left_column_url_line Examples.doc_get_users "Get Users"
                         (Examples.p "GET https://api.twitch.tv/helix/streams extra")
                         eq_refl ltac:(discriminate) eq_refl))
           "GET" "https://api.twitch.tv/helix/streams extra");
    reflexivity.
Defined.

(** X17.  When the children the left column reacts to are a level-2
    heading with a non-empty [id], a level-3 heading reading [URL] and a
    paragraph of two words, the record returned has the text of the first
    heading as its title (provided that text is not [URL]), the first word
    as its method, the second as its url, and nothing else. *)
Theorem scrape_doc_left_column_title_method_url
    (tag h2 h3 p : PageElement) (m u : string) :
  List.filter relevant (Soup.children tag) = [h2; h3; p] ->
  titled h2 = true ->
  Soup.get_text h2 " " <> "URL" ->
  Soup.name_is h3 "h3" = true ->
  Soup.get_text h3 " " = "URL" ->
  Soup.name_is p "p" = true ->
  Soup.get_text p " " = m +:+ " " +:+ u ->
  Py.char_in " " m = false ->
  Py.char_in " " u = false ->
  scrape_doc_left_column tag
  = Ok (mkEndpointDoc None (Some u) (Some m) (Some (Soup.get_text h2 " "))
          None None None None None).
Proof.
  intros Hchildren Hh2 Htitle Hh3 Hurl Hp Htext Hm Hu.
  unfold scrape_doc_left_column.
  rewrite left_column_loop_relevant, Hchildren. cbn [left_column_loop].
  assert (Hstep1 : left_column_step (empty_doc, None) h2
                   = Ok (set_title (Soup.get_text h2 " ") empty_doc,
                         Some (Soup.get_text h2 " "))).
  { unfold left_column_step. unfold titled in Hh2. now rewrite Hh2. }
  rewrite Hstep1. cbn [bind].
  assert (Hstep2 : left_column_step
                     (set_title (Soup.get_text h2 " ") empty_doc,
                      Some (Soup.get_text h2 " ")) h3
                   = Ok (set_title (Soup.get_text h2 " ") empty_doc, Some "URL")).
  { unfold left_column_step.
    rewrite (name_is_exclusive h3 "h3" "h2" Hh3) by discriminate.
    rewrite (name_is_exclusive h3 "h3" "p" Hh3) by discriminate.
    rewrite Hh3, Hurl. reflexivity. }
  rewrite Hstep2. cbn [bind].
  rewrite (left_column_step_two_words
             (set_title (Soup.get_text h2 " ") empty_doc)
             (Soup.get_text h2 " ") p m u eq_refl Htitle Hp Htext Hm Hu).
  reflexivity.
Qed.

Lemma scrape_doc_left_column_title_method_url_witness :
  scrape_doc_left_column
    (Tag "section" ∅
       [NavigableString " ";
        Tag "h2" {[ "id" := AttrStr "get-streams" ]} [NavigableString "Get Streams"];
        Examples.h3 "URL";
        Examples.p "GET https://api.example.com/streams"])
  = Ok (mkEndpointDoc None (Some "https://api.example.com/streams") (Some "GET")
          (Some "Get Streams") None None None None None).
Proof.
  apply (scrape_doc_left_column_title_method_url
           (Tag "section" ∅
              [NavigableString " ";
               Tag "h2" {[ "id" := AttrStr "get-streams" ]}
                 [NavigableString "Get Streams"];
               Examples.h3 "URL";
               Examples.p "GET https://api.example.com/streams"])
           (Tag "h2" {[ "id" := AttrStr "get-streams" ]}
              [NavigableString "Get Streams"])
           (Examples.h3 "URL")
           (Examples.p "GET https://api.example.com/streams")
           "GET" "https://api.example.com/streams");
    try reflexivity.
  discriminate.
Defined.

(** ** The decoder *)

Section Decoder.

Implicit Types s t rest : string.
Implicit Types p : ascii -> bool.

Lemma bind_ok {A B : Type} (m : Result A) (k : A -> Result B) b :
  bind m k = Ok b -> exists a, m = Ok a /\ k a = Ok b.
Proof. destruct m as [a| |]; cbn [bind]; try discriminate. now exists a. Qed.

Lemma tail_of_trans rest t s : tail_of rest t -> tail_of t s -> tail_of rest s.
Proof.
  intros Hrest Ht. induction Ht as [|c s Ht IH]; [exact Hrest |].
  now apply tail_of_cons.
Qed.

Lemma tail_of_len rest s : tail_of rest s -> Py.len rest <= Py.len s.
Proof.
  unfold Py.len. induction 1 as [|c s _ IH]; cbn [String.length]; lia.
Qed.

Lemma tail_of_count p rest s : tail_of rest s -> count p rest <= count p s.
Proof.
  induction 1 as [|c s _ IH]; cbn [count]; [lia |]. destruct (p c); lia.
Qed.

Lemma consumed_tail s rest : consumed s rest -> tail_of rest s.
Proof. intros (c & s' & -> & Htail). now apply tail_of_cons. Qed.

Lemma consumed_len s rest : consumed s rest -> Py.len rest < Py.len s.
Proof.
  intros (c & s' & -> & Htail). apply tail_of_len in Htail.
  unfold Py.len in *. cbn [String.length]. lia.
Qed.

Lemma consumed_trans rest t s : tail_of rest t -> consumed s t -> consumed s rest.
Proof.
  intros Hrest (c & s' & -> & Ht). exists c, s'. split; [reflexivity |].
  now apply tail_of_trans with t.
Qed.

Lemma lstrip_by_tail f s : tail_of (Py.lstrip_by f s) s.
Proof.
  induction s as [|c s IH]; [constructor |].
  cbn [Py.lstrip_by]. destruct (f c); [now apply tail_of_cons | constructor].
Qed.

Lemma skip_ws_tail s : tail_of (Json.skip_ws s) s.
Proof. apply lstrip_by_tail. Qed.

Lemma drop_tail n s : tail_of (Py.drop n s) s.
Proof.
  revert s. induction n as [|n IH]; intros s; [constructor |].
  destruct s as [|c s]; [constructor |].
  cbn [Py.drop]. apply tail_of_cons, IH.
Qed.

Lemma push_some chars r str rest :
  Json.push chars r = Some (str, rest) -> exists str', r = Some (str', rest).
Proof.
  destruct r as [[str' rest']|]; [|discriminate].
  intros [= _ <-]. now exists str'.
Qed.

(** A string literal ends behind its closing quote. *)
Lemma scanstring_consumes n :
  forall s str rest,
    Py.len s <= n -> Json.scanstring s = Some (str, rest) -> consumed s rest.
Proof.
  induction n as [|n IH]; intros s str rest Hlen.
  - destruct s; [discriminate | cbn in Hlen; lia].
  - assert (Hpush : forall chars t,
               Py.len t < Py.len s ->
               Json.push chars (Json.scanstring t) = Some (str, rest) ->
               tail_of rest t).
    { intros chars t Ht Hp. apply push_some in Hp as (str' & Hp).
      apply IH in Hp; [now apply consumed_tail | lia]. }
    clear IH. destruct s as [|c s]; [discriminate |].
    unfold Py.len in *. cbn [String.length] in *.
    cbn [Json.scanstring]. cbv zeta.
    repeat match goal with
           | |- Some _ = Some _ -> _ =>
               intros [= <- <-]; eexists _, _; split; [reflexivity | constructor]
           | |- None = Some _ -> _ => discriminate
           | |- Json.push _ (Json.scanstring _) = Some _ -> _ =>
               let Hp := fresh "Hp" in
               intros Hp; apply Hpush in Hp; [|cbn [String.length]; lia];
               eexists _, _; split; [reflexivity |];
               repeat first [exact Hp | apply tail_of_cons]
           | |- context [match ?x with _ => _ end] => destruct x
           end.
Qed.

Lemma string_literal_consumes s str rest :
  Json.string_literal s = Ok (str, rest) -> consumed s rest.
Proof.
  unfold Json.string_literal.
  destruct (Json.scanstring s) as [[str' rest']|] eqn:Hscan; [|discriminate].
  intros [= <- <-]. now apply (scanstring_consumes (Py.len s)) in Hscan.
Qed.

(** The digits at the head of a text are digits of the text. *)
Lemma digits_spec s d rest :
  Json.digits s = (d, rest) ->
  tail_of rest s
  /\ Py.len d + Py.len rest = Py.len s
  /\ Py.len d + count Json.is_digit rest = count Json.is_digit s.
Proof.
  unfold Py.len. revert d rest.
  induction s as [|c s IH]; intros d rest; cbn [Json.digits].
  - intros [= <- <-]. repeat split. constructor.
  - destruct (Json.is_digit c) eqn:Hc.
    + destruct (Json.digits s) as [d' rest']. intros [= <- <-].
      destruct (IH d' rest' eq_refl) as (Htail & Hlen & Hcount).
      cbn [String.length count]. rewrite Hc.
      split; [now apply tail_of_cons | lia].
    + intros [= <- <-]. repeat split. constructor.
Qed.

(** The integer part of a number is at least one character long, and
    its digits are digits of the text. *)
Lemma int_part_spec s i rest :
  Json.int_part s = Some (i, rest) ->
  consumed s rest
  /\ match Json.int i with
     | Raise ValueError => Json.int_max_str_digits < count Json.is_digit s
     | Raise _ | OutOfFuel => False
     | Ok _ => True
     end.
Proof.
  assert (Hbody : forall (negative : bool) body,
             match body with
             | String "0" rest =>
                 Some ((if negative then "-" else "") +:+ "0", rest)
             | String c _ =>
                 if Json.is_digit c
                 then let '(d, rest) := Json.digits body in
                      Some ((if negative then "-" else "") +:+ d, rest)
                 else None
             | EmptyString => None
             end = Some (i, rest) ->
             consumed body rest
             /\ match Json.int i with
                | Raise ValueError =>
                    Json.int_max_str_digits < count Json.is_digit body
                | Raise _ | OutOfFuel => False
                | Ok _ => True
                end).
  { intros negative body. destruct body as [|c body]; [discriminate |].
    assert (Hdigits :
              (if Json.is_digit c
               then let '(d, rest) := Json.digits (String c body) in
                    Some ((if negative then "-" else "") +:+ d, rest)
               else None) = Some (i, rest) ->
              consumed (String c body) rest
              /\ match Json.int i with
                 | Raise ValueError =>
                     Json.int_max_str_digits
                     < count Json.is_digit (String c body)
                 | Raise _ | OutOfFuel => False
                 | Ok _ => True
                 end).
    { destruct (Json.is_digit c) eqn:Hc; [|discriminate].
      destruct (Json.digits (String c body)) as [d r] eqn:Hd.
      intros [= <- <-].
      pose proof (digits_spec _ _ _ Hd) as (_ & _ & Hcount).
      cbn [Json.digits] in Hd. rewrite Hc in Hd.
      destruct (Json.digits body) as [d' r'] eqn:Hd'. injection Hd as <- <-.
      apply digits_spec in Hd' as (Htail & _ & _).
      split; [now exists c, body |].
      assert (Hint : Json.int ((if negative then "-" else "") +:+ String c d')
                     = if Json.int_max_str_digits <? Py.len (String c d')
                       then Raise ValueError
                       else Ok (JInt (if negative
                                      then - Json.int_of_digits 0 (String c d')
                                      else Json.int_of_digits 0 (String c d'))%Z)).
      { destruct negative; [reflexivity |].
        cbn [String.append]. unfold Json.int.
        revert Hc. clear. split_ascii c; intros Hc; try discriminate Hc;
          reflexivity. }
      rewrite Hint.
      destruct (Json.int_max_str_digits <? Py.len (String c d')) eqn:Hmax;
        [|exact I].
      apply Nat.ltb_lt in Hmax. lia. }
    split_ascii c; try exact Hdigits.
    intros [= <- <-]. split.
    - eexists _, _. split; [reflexivity | constructor].
    - now destruct negative. }
  unfold Json.int_part. destruct s as [|c s]; [discriminate |].
  split_ascii c;
    try match goal with
        | |- context [consumed (String ?c s)] =>
            exact (Hbody false (String c s))
        end.
  intros H. apply (Hbody true s) in H as [Hcons Hint]. split.
  - apply consumed_tail in Hcons. now exists "-"%char, s.
  - destruct (Json.int i) as [v|e|]; [exact I | | exact Hint].
    destruct e; exact Hint.
Qed.

Lemma frac_part_tail s f rest : Json.frac_part s = (f, rest) -> tail_of rest s.
Proof.
  unfold Json.frac_part.
  destruct s as [|c s]; [intros [= <- <-]; constructor |].
  assert (Hdot :
            match Json.digits s with
            | (EmptyString, _) => ("", String c s)
            | (d, rest) => ("." +:+ d, rest)
            end = (f, rest) -> tail_of rest (String c s)).
  { destruct (Json.digits s) as [d r] eqn:Hd.
    apply digits_spec in Hd as (Htail & _).
    destruct d; intros [= <- <-]; [constructor | now apply tail_of_cons]. }
  split_ascii c; try (intros [= <- <-]; constructor); exact Hdot.
Qed.

Lemma exp_part_tail s e rest : Json.exp_part s = (e, rest) -> tail_of rest s.
Proof.
  unfold Json.exp_part.
  destruct s as [|c s]; [intros [= <- <-]; constructor |].
  destruct (Py.char_in c "eE"); [|intros [= <- <-]; constructor].
  assert (Hbody : forall sign body,
             tail_of body s ->
             match Json.digits body with
             | (EmptyString, _) => ("", String c s)
             | (d, rest) => (String c "" +:+ sign +:+ d, rest)
             end = (e, rest) -> tail_of rest (String c s)).
  { intros sign body Hle. destruct (Json.digits body) as [d r] eqn:Hd.
    apply digits_spec in Hd as (Htail & _).
    destruct d; intros [= <- <-]; [constructor |].
    apply tail_of_cons. now apply tail_of_trans with body. }
  destruct s as [|x s]; [apply Hbody; constructor |].
  destruct (Py.char_in x "-+"); apply Hbody; repeat constructor.
Qed.

(** A number is at least one character long. *)
Lemma number_consumes s v rest :
  Json.number s = Ok (v, rest) -> consumed s rest.
Proof.
  unfold Json.number.
  destruct (Json.int_part s) as [[i r1]|] eqn:Hi; [|discriminate].
  apply int_part_spec in Hi as [Hi _].
  destruct (Json.frac_part r1) as [f r2] eqn:Hf. apply frac_part_tail in Hf.
  destruct (Json.exp_part r2) as [e r3] eqn:He. apply exp_part_tail in He.
  assert (Hcons : consumed s r3).
  { apply consumed_trans with r1; [|exact Hi]. now apply tail_of_trans with r2. }
  destruct (f +:+ e).
  - intros H. apply bind_ok in H as (v' & _ & [= <- <-]). exact Hcons.
  - intros [= <- <-]. exact Hcons.
Qed.

Lemma literal_consumes word v s v' rest :
  0 < Py.len word ->
  Json.literal word v s = Ok (v', rest) -> consumed s rest.
Proof.
  unfold Json.literal. intros Hword.
  destruct (Py.startswith s word) eqn:Hstart; [|discriminate].
  intros [= <- <-]. apply startswith_len in Hstart.
  destruct s as [|c s]; [unfold Py.len in *; cbn in Hstart; lia |].
  exists c, s. split; [reflexivity |].
  destruct (Py.len word) as [|n]; [lia |]. cbn [Py.drop]. apply drop_tail.
Qed.

(** What a value, the items of an array or the members of an object
    leave of the input is a proper tail of the input. *)
Lemma scanner_consumes fuel :
  forall limit,
    (forall s v rest, Json.value fuel limit s = Ok (v, rest) -> consumed s rest)
    /\ (forall s vs rest,
          Json.elements fuel limit s = Ok (vs, rest) -> consumed s rest)
    /\ (forall s kvs rest,
          Json.members fuel limit s = Ok (kvs, rest) -> consumed s rest).
Proof.
  induction fuel as [|fuel IH]; intros limit.
  { repeat split; intros; discriminate. }
  split; [|split].
  - intros s v rest.
    assert (Hstr : forall s0,
               Json.value (S fuel) limit (String "034" s0) = Ok (v, rest) ->
               consumed (String "034" s0) rest).
    { intros s0 H. cbn [Json.value] in H.
      apply bind_ok in H as ([str r] & Hlit & [= _ <-]).
      apply string_literal_consumes, consumed_tail in Hlit.
      now eexists _, _. }
    assert (Hobj : forall s0,
               Json.value (S fuel) limit (String "{" s0) = Ok (v, rest) ->
               consumed (String "{" s0) rest).
    { intros s0 H. cbn [Json.value] in H.
      destruct limit as [|limit']; [discriminate |].
      pose proof (skip_ws_tail s0) as Hws.
      assert (Hm : (do '(pairs, rest'') <-
                      Json.members fuel limit' (Json.skip_ws s0);
                    Ok (JObject (Json.dict_of pairs), rest'')) = Ok (v, rest) ->
                   consumed (String "{" s0) rest).
      { intros Hm. apply bind_ok in Hm as ([pairs r'] & Hm & [= _ <-]).
        apply (proj2 (proj2 (IH limit'))), consumed_tail in Hm.
        eexists _, _. split; [reflexivity |].
        now apply tail_of_trans with (Json.skip_ws s0). }
      destruct (Json.skip_ws s0) as [|x r]; [now apply Hm |].
      split_ascii x; try (now apply Hm).
      injection H as _ <-. eexists _, _. split; [reflexivity |].
      eapply tail_of_trans; [|exact Hws]. repeat constructor. }
    assert (Harr : forall s0,
               Json.value (S fuel) limit (String "[" s0) = Ok (v, rest) ->
               consumed (String "[" s0) rest).
    { intros s0 H. cbn [Json.value] in H.
      destruct limit as [|limit']; [discriminate |].
      pose proof (skip_ws_tail s0) as Hws.
      assert (Hm : (do '(items, rest'') <-
                      Json.elements fuel limit' (Json.skip_ws s0);
                    Ok (JArray items, rest'')) = Ok (v, rest) ->
                   consumed (String "[" s0) rest).
      { intros Hm. apply bind_ok in Hm as ([items r'] & Hm & [= _ <-]).
        apply (proj1 (proj2 (IH limit'))), consumed_tail in Hm.
        eexists _, _. split; [reflexivity |].
        now apply tail_of_trans with (Json.skip_ws s0). }
      destruct (Json.skip_ws s0) as [|x r]; [now apply Hm |].
      split_ascii x; try (now apply Hm).
      injection H as _ <-. eexists _, _. split; [reflexivity |].
      eapply tail_of_trans; [|exact Hws]. repeat constructor. }
    assert (Hminus : forall s0,
               Json.value (S fuel) limit (String "-" s0) = Ok (v, rest) ->
               consumed (String "-" s0) rest).
    { intros s0. destruct s0 as [|d s0]; [apply number_consumes |].
      split_ascii d; cbn [Json.value];
        first [ apply number_consumes
              | intros H; apply literal_consumes in H; [exact H | cbn; lia] ]. }
    destruct s as [|c s]; [discriminate |].
    split_ascii c;
      lazymatch goal with
      | |- Json.value _ _ (String "034"%char _) = _ -> _ => apply Hstr
      | |- Json.value _ _ (String "{"%char _) = _ -> _ => apply Hobj
      | |- Json.value _ _ (String "["%char _) = _ -> _ => apply Harr
      | |- Json.value _ _ (String "-"%char _) = _ -> _ => apply Hminus
      | |- _ =>
          cbn [Json.value];
          lazymatch goal with
          | |- Json.number _ = _ -> _ => apply number_consumes
          | |- _ => intros H; apply literal_consumes in H; [exact H | cbn; lia]
          end
      end.
  - intros s vs rest H. cbn [Json.elements] in H.
    apply bind_ok in H as ([v r] & Hv & H).
    apply (proj1 (IH limit)) in Hv.
    pose proof (skip_ws_tail r) as Hws.
    destruct (Json.skip_ws r) as [|x r']; [discriminate |].
    assert (Htail : tail_of r' r)
      by (apply tail_of_trans with (String x r'); [repeat constructor | exact Hws]).
    split_ascii x; try discriminate H.
    + injection H as _ <-. now apply consumed_trans with r.
    + apply bind_ok in H as ([vs' r''] & Hm & [= _ <-]).
      apply (proj1 (proj2 (IH limit))), consumed_tail in Hm.
      apply consumed_trans with r; [|exact Hv].
      apply tail_of_trans with r'; [|exact Htail].
      apply tail_of_trans with (Json.skip_ws r'); [exact Hm | apply skip_ws_tail].
  - intros s kvs rest H. cbn [Json.members] in H.
    destruct s as [|c s]; [discriminate |].
    assert (Hkey :
              (do '(k, r) <- Json.string_literal s;
               match Json.skip_ws r with
               | String ":" r =>
                   do '(v, r) <- Json.value fuel limit (Json.skip_ws r);
                   match Json.skip_ws r with
                   | String "}" rest' => Ok ([(k, v)], rest')
                   | String "," rest' =>
                       do '(kvs, rest'') <-
                         Json.members fuel limit (Json.skip_ws rest');
                       Ok ((k, v) :: kvs, rest'')
                   | _ => Raise JSONDecodeError
                   end
               | _ => Raise JSONDecodeError
               end) = Ok (kvs, rest) ->
              consumed (String c s) rest).
    { clear H. intros H.
      apply bind_ok in H as ([k r] & Hk & H).
      apply string_literal_consumes, consumed_tail in Hk.
      pose proof (skip_ws_tail r) as Hws.
      destruct (Json.skip_ws r) as [|x r1]; [discriminate |].
      assert (Htail1 : tail_of r1 s).
      { apply tail_of_trans with r; [|exact Hk].
        apply tail_of_trans with (String x r1); [repeat constructor | exact Hws]. }
      split_ascii x; try discriminate H.
      apply bind_ok in H as ([v r2] & Hv & H).
      apply (proj1 (IH limit)), consumed_tail in Hv.
      assert (Htail2 : tail_of r2 s).
      { apply tail_of_trans with r1; [|exact Htail1].
        apply tail_of_trans with (Json.skip_ws r1); [exact Hv | apply skip_ws_tail]. }
      pose proof (skip_ws_tail r2) as Hws2.
      destruct (Json.skip_ws r2) as [|y r3]; [discriminate |].
      assert (Htail3 : tail_of r3 s).
      { apply tail_of_trans with r2; [|exact Htail2].
        apply tail_of_trans with (String y r3); [repeat constructor | exact Hws2]. }
      split_ascii y; try discriminate H.
      - injection H as _ <-. now exists c, s.
      - apply bind_ok in H as ([kvs' r4] & Hm & [= _ <-]).
        apply (proj2 (proj2 (IH limit))), consumed_tail in Hm.
        exists c, s. split; [reflexivity |].
        apply tail_of_trans with r3; [|exact Htail3].
        apply tail_of_trans with (Json.skip_ws r3); [exact Hm | apply skip_ws_tail]. }
    split_ascii c; try discriminate H. exact (Hkey H).
Qed.

Lemma decoded_bind {A B : Type} limit s (m : Result A) (k : A -> Result B) :
  decoded limit s m ->
  (forall a, m = Ok a -> decoded limit s (k a)) ->
  decoded limit s (bind m k).
Proof.
  destruct m as [a|e|]; cbn [bind]; [|tauto | tauto].
  intros _ Hk. now apply Hk.
Qed.

(** An outcome on a tail of the text, entered at no lesser depth, is an
    outcome on the text. *)
Lemma decoded_mono {A : Type} limit' t limit s (r : Result A) :
  decoded limit' t r ->
  tail_of t s ->
  limit + count is_opening t <= limit' + count is_opening s ->
  decoded limit s r.
Proof.
  intros Hr Htail Hdepth.
  pose proof (tail_of_count Json.is_digit _ _ Htail) as Hdigits.
  destruct r as [a|e|]; [exact I | | exact Hr].
  destruct e; cbn [decoded] in *; try exact Hr; lia.
Qed.

Lemma decoded_string_literal limit s t : decoded limit s (Json.string_literal t).
Proof. unfold Json.string_literal. now destruct (Json.scanstring t). Qed.

Lemma decoded_literal limit s word v t : decoded limit s (Json.literal word v t).
Proof. unfold Json.literal. now destruct (Py.startswith t word). Qed.

Lemma decoded_number limit s : decoded limit s (Json.number s).
Proof.
  unfold Json.number.
  destruct (Json.int_part s) as [[i r1]|] eqn:Hi; [|exact I].
  apply int_part_spec in Hi as [_ Hint].
  destruct (Json.frac_part r1) as [f r2]. destruct (Json.exp_part r2) as [e r3].
  destruct (f +:+ e); [|exact I].
  destruct (Json.int i) as [v|e'|]; cbn [bind]; [exact I | | exact Hint].
  destruct e'; cbn [decoded]; first [exact Hint | contradiction].
Qed.

(** The scanner comes to an end on the budget [loads] gives it.  It
    raises no other errors than the three of the decoder: the one on the
    size of an integer only when the text holds more digits than [int]
    converts, the one on the depth only when the text holds more opening
    brackets and braces than [limit]. *)
Lemma scanner_decoded fuel :
  forall limit,
    (forall s,
        2 * Py.len s + 1 <= fuel -> decoded limit s (Json.value fuel limit s))
    /\ (forall s,
          2 * Py.len s + 2 <= fuel ->
          decoded limit s (Json.elements fuel limit s))
    /\ (forall s,
          2 * Py.len s + 2 <= fuel ->
          decoded limit s (Json.members fuel limit s)).
Proof.
  induction fuel as [|fuel IH]; intros limit.
  { repeat split; intros; lia. }
  split; [|split].
  - intros s Hfuel.
    assert (Hstr : forall s0,
               decoded limit (String "034" s0)
                 (Json.value (S fuel) limit (String "034" s0))).
    { intros s0. cbn [Json.value].
      apply decoded_bind; [apply decoded_string_literal |].
      now intros [str r] _. }
    assert (Hobj : forall s0,
               2 * Py.len s0 + 2 <= fuel ->
               decoded limit (String "{" s0)
                 (Json.value (S fuel) limit (String "{" s0))).
    { intros s0 Hs0. cbn [Json.value].
      destruct limit as [|limit']; [cbn; lia |].
      pose proof (skip_ws_tail s0) as Hws.
      assert (Hm : decoded (S limit') (String "{" s0)
                     (do '(pairs, rest'') <-
                        Json.members fuel limit' (Json.skip_ws s0);
                      Ok (JObject (Json.dict_of pairs), rest''))).
      { apply decoded_bind; [|now intros [pairs r] _].
        apply decoded_mono with limit' (Json.skip_ws s0).
        - apply (IH limit'). apply tail_of_len in Hws. lia.
        - now apply tail_of_cons.
        - apply (tail_of_count is_opening) in Hws. cbn. lia. }
      destruct (Json.skip_ws s0) as [|x r]; [exact Hm |].
      split_ascii x; first [exact Hm | exact I]. }
    assert (Harr : forall s0,
               2 * Py.len s0 + 2 <= fuel ->
               decoded limit (String "[" s0)
                 (Json.value (S fuel) limit (String "[" s0))).
    { intros s0 Hs0. cbn [Json.value].
      destruct limit as [|limit']; [cbn; lia |].
      pose proof (skip_ws_tail s0) as Hws.
      assert (Hm : decoded (S limit') (String "[" s0)
                     (do '(items, rest'') <-
                        Json.elements fuel limit' (Json.skip_ws s0);
                      Ok (JArray items, rest''))).
      { apply decoded_bind; [|now intros [items r] _].
        apply decoded_mono with limit' (Json.skip_ws s0).
        - apply (IH limit'). apply tail_of_len in Hws. lia.
        - now apply tail_of_cons.
        - apply (tail_of_count is_opening) in Hws. cbn. lia. }
      destruct (Json.skip_ws s0) as [|x r]; [exact Hm |].
      split_ascii x; first [exact Hm | exact I]. }
    assert (Hminus : forall s0,
               decoded limit (String "-" s0)
                 (Json.value (S fuel) limit (String "-" s0))).
    { intros s0. destruct s0 as [|d s0]; [apply decoded_number |].
      split_ascii d; cbn [Json.value];
        first [apply decoded_number | apply decoded_literal]. }
    destruct s as [|c s]; [apply decoded_number |].
    unfold Py.len in Hfuel. cbn [String.length] in Hfuel.
    split_ascii c;
      lazymatch goal with
      | |- decoded _ _ (Json.value _ _ (String "034"%char _)) => apply Hstr
      | |- decoded _ _ (Json.value _ _ (String "{"%char _)) =>
          apply Hobj; unfold Py.len; lia
      | |- decoded _ _ (Json.value _ _ (String "["%char _)) =>
          apply Harr; unfold Py.len; lia
      | |- decoded _ _ (Json.value _ _ (String "-"%char _)) => apply Hminus
      | |- _ =>
          cbn [Json.value];
          lazymatch goal with
          | |- decoded _ _ (Json.number _) => apply decoded_number
          | |- _ => apply decoded_literal
          end
      end.
  - intros s Hfuel. cbn [Json.elements].
    apply decoded_bind; [apply (IH limit); lia |].
    intros [v r] Hv. apply (proj1 (scanner_consumes fuel limit)) in Hv.
    pose proof (consumed_len _ _ Hv) as Hlen.
    apply consumed_tail in Hv.
    pose proof (skip_ws_tail r) as Hws.
    destruct (Json.skip_ws r) as [|x r']; [exact I |].
    assert (Htail : tail_of (Json.skip_ws r') s).
    { apply tail_of_trans with r; [|exact Hv].
      apply tail_of_trans with (String x r'); [|exact Hws].
      apply tail_of_cons, skip_ws_tail. }
    assert (Hm : decoded limit s
                   (do '(vs, rest'') <-
                      Json.elements fuel limit (Json.skip_ws r');
                    Ok (v :: vs, rest''))).
    { apply decoded_bind; [|now intros [vs r''] _].
      apply decoded_mono with limit (Json.skip_ws r'); [|exact Htail |].
      - apply (IH limit).
        pose proof (tail_of_len _ _ Hws) as Hlen1.
        pose proof (tail_of_len _ _ (skip_ws_tail r')) as Hlen2.
        unfold Py.len in *. cbn [String.length] in *. lia.
      - apply (tail_of_count is_opening) in Htail. lia. }
    split_ascii x; first [exact Hm | exact I].
  - intros s Hfuel. cbn [Json.members].
    destruct s as [|c s]; [exact I |].
    unfold Py.len in Hfuel. cbn [String.length] in Hfuel.
    assert (Hinner : forall {A : Type} t (r : Result A),
               tail_of t s -> decoded limit t r -> decoded limit (String c s) r).
    { intros A t r Htail Hr.
      apply decoded_mono with limit t; [exact Hr | now apply tail_of_cons |].
      apply (tail_of_count is_opening) in Htail. cbn [count].
      destruct (is_opening c); lia. }
    assert (Hkey :
              decoded limit (String c s)
                (do '(k, r) <- Json.string_literal s;
                 match Json.skip_ws r with
                 | String ":" r =>
                     do '(v, r) <- Json.value fuel limit (Json.skip_ws r);
                     match Json.skip_ws r with
                     | String "}" rest' => Ok ([(k, v)], rest')
                     | String "," rest' =>
                         do '(kvs, rest'') <-
                           Json.members fuel limit (Json.skip_ws rest');
                         Ok ((k, v) :: kvs, rest'')
                     | _ => Raise JSONDecodeError
                     end
                 | _ => Raise JSONDecodeError
                 end)).
    { apply decoded_bind; [apply decoded_string_literal |].
      intros [k r] Hk. apply string_literal_consumes in Hk.
      pose proof (consumed_len _ _ Hk) as Hlen. apply consumed_tail in Hk.
      pose proof (skip_ws_tail r) as Hws.
      destruct (Json.skip_ws r) as [|x r1]; [exact I |].
      assert (Htail1 : tail_of (Json.skip_ws r1) s).
      { apply tail_of_trans with r; [|exact Hk].
        apply tail_of_trans with (String x r1); [|exact Hws].
        apply tail_of_cons, skip_ws_tail. }
      assert (Hv : decoded limit (String c s)
                     (do '(v, r) <- Json.value fuel limit (Json.skip_ws r1);
                      match Json.skip_ws r with
                      | String "}" rest' => Ok ([(k, v)], rest')
                      | String "," rest' =>
                          do '(kvs, rest'') <-
                            Json.members fuel limit (Json.skip_ws rest');
                          Ok ((k, v) :: kvs, rest'')
                      | _ => Raise JSONDecodeError
                      end)).
      { apply decoded_bind.
        { apply (Hinner _ _ _ Htail1), (IH limit).
          apply tail_of_len in Htail1. unfold Py.len in *. lia. }
        intros [v r2] Hv. apply (proj1 (scanner_consumes fuel limit)) in Hv.
        pose proof (consumed_len _ _ Hv) as Hlen2. apply consumed_tail in Hv.
        pose proof (skip_ws_tail r2) as Hws2.
        destruct (Json.skip_ws r2) as [|y r3]; [exact I |].
        assert (Htail3 : tail_of (Json.skip_ws r3) s).
        { apply tail_of_trans with (Json.skip_ws r1); [|exact Htail1].
          apply tail_of_trans with r2; [|exact Hv].
          apply tail_of_trans with (String y r3); [|exact Hws2].
          apply tail_of_cons, skip_ws_tail. }
        assert (Hm : decoded limit (String c s)
                       (do '(kvs, rest'') <-
                          Json.members fuel limit (Json.skip_ws r3);
                        Ok ((k, v) :: kvs, rest''))).
        { apply decoded_bind; [|now intros [kvs r4] _].
          apply (Hinner _ _ _ Htail3), (IH limit).
          apply tail_of_len in Htail3. unfold Py.len in *. lia. }
        split_ascii y; first [exact Hm | exact I]. }
      split_ascii x; first [exact Hv | exact I]. }
    split_ascii c; first [exact Hkey | exact I].
Qed.

(** [json.loads] returns a value or raises one of its three errors, the
    two that the scraper does not catch only on a text with more than
    4300 digits or with more opening brackets and braces than [limit]. *)
Lemma loads_decoded limit text : decoded limit text (Json.loads limit text).
Proof.
  unfold Json.loads.
  apply decoded_bind.
  - apply decoded_mono with limit (Json.skip_ws text).
    + apply scanner_decoded. pose proof (tail_of_len _ _ (skip_ws_tail text)). lia.
    + apply skip_ws_tail.
    + pose proof (tail_of_count is_opening _ _ (skip_ws_tail text)). lia.
  - intros [v rest] _. now destruct (Json.skip_ws rest).
Qed.

(** ** The repair keeps digits and brackets *)

Lemma count_append p s t : count p (s +:+ t) = count p s + count p t.
Proof.
  induction s as [|c s IH]; [reflexivity |].
  change (String c s +:+ t) with (String c (s +:+ t)). cbn [count].
  rewrite IH. destruct (p c); lia.
Qed.

(** A replacement that brings in no character of the kind counted does
    not raise the count. *)
Lemma count_replace p s old new :
  count p new = 0 -> count p (Py.replace s old new) <= count p s.
Proof.
  intros Hnew. unfold Py.replace. generalize 0 as skip.
  induction s as [|c s IH]; intros skip.
  - cbn [Py.replace_go]. destruct old; cbn [count]; lia.
  - cbn [Py.replace_go]. destruct skip as [|k].
    + destruct (Py.startswith (String c s) old).
      * rewrite count_append, Hnew.
        destruct old; cbn [count]; [|specialize (IH (Py.len (String a old) - 1))];
          [specialize (IH 0) |]; destruct (p c); lia.
      * cbn [count]. specialize (IH 0). destruct (p c); lia.
    + specialize (IH k). cbn [count]. destruct (p c); lia.
Qed.

Lemma count_without_commas p s :
  p ","%char = false -> count p (without_commas s) = count p s.
Proof.
  intros Hp. induction s as [|c s IH]; [reflexivity |].
  cbn [without_commas count].
  destruct (Ascii.eqb c ",") eqn:Hc.
  - apply Ascii.eqb_eq in Hc. subst c. now rewrite Hp.
  - cbn [count]. now rewrite IH.
Qed.

Lemma count_fix_json_property p fuel s property_name t :
  p ","%char = false ->
  fix_json_property fuel s property_name = Ok t -> count p t = count p s.
Proof.
  intros Hp Hrun. apply fix_json_loop_changes in Hrun as (Hwc & _).
  rewrite <- (count_without_commas p t Hp), Hwc.
  now apply count_without_commas.
Qed.

(** The repaired text holds no more digits and no more opening brackets
    and braces than the text. *)
Lemma count_repair p fuel text repaired :
  p ","%char = false -> p "]"%char = false -> p "}"%char = false ->
  repair fuel text = Ok repaired -> count p repaired <= count p text.
Proof.
  intros Hcomma Hbracket Hbrace. unfold repair. intros Hrun.
  apply bind_ok in Hrun as (t & Hdata & Hclick).
  apply (count_fix_json_property p) in Hdata, Hclick; try assumption.
  rewrite Hclick, Hdata.
  etransitivity; [apply count_replace; cbn [count]; now rewrite Hbrace |].
  etransitivity; [apply count_replace; cbn [count]; now rewrite Hbracket |].
  now apply count_replace.
Qed.

End Decoder.

(** ** One section of the page *)

Section DocSection.

Lemma scrape_doc_left_column_no_example tag doc :
  scrape_doc_left_column tag = Ok doc -> example_response doc = None.
Proof.
  unfold scrape_doc_left_column.
  destruct (left_column_loop (empty_doc, None) (Soup.children tag))
    as [[doc' header']| |] eqn:Hloop; cbn [bind]; try discriminate.
  intros [= <-].
  apply left_column_loop_facts in Hloop as [(Hex & _) _]; [exact Hex |].
  cbn. repeat split; try tauto; intros [H | [H | H]]; now contradiction H.
Qed.

End DocSection.

(** X18.  When a [left-docs] section follows the tag and is scraped without
    error, and a [right-code] section follows it too, [scrape_doc_section]
    comes to one of two ends.  Either it yields a record: the record
    carries the documentation entries of the left column unchanged, and as
    example response the value that the repaired text of the
    [language-json] block decodes to, no example when there is no such
    block or when the decoding raises [JSONDecodeError].  Or the decoding
    raises [ValueError] or [RecursionError], which the handler does not
    catch, and [scrape_doc_section] raises it in turn. *)
Theorem scrape_doc_section_yields_record
    (fuel limit : nat) (tag : Soup.Node)
    (left_column right_column : PageElement) (d : EndpointDoc) :
  Soup.find_next tag "section" [("class", "left-docs")] = Some left_column ->
  scrape_doc_left_column left_column = Ok d ->
  Soup.find_next tag "section" [("class", "right-code")] = Some right_column ->
  match example_of (4 + fuel) limit right_column with
  | Ok example =>
      exists r,
        scrape_doc_section (4 + fuel) limit tag = Ok (Some r)
        /\ same_documentation d r
        /\ example_response r = example
  | Raise e =>
      (e = ValueError \/ e = RecursionError)
      /\ scrape_doc_section (4 + fuel) limit tag = Raise e
  | OutOfFuel => False
  end.
Proof.
  intros Hleft Hd Hright. unfold scrape_doc_section, example_of, repair_then_load.
  rewrite Hleft, Hd. cbn [bind]. rewrite Hright. cbn [not_none bind].
  pose proof (scrape_doc_left_column_no_example _ _ Hd) as Hnone.
  assert (Hsame : same_documentation d d)
    by (unfold same_documentation; now repeat split).
  destruct (Soup.find right_column "div" [("class", "language-json")]) as [div|];
    [|now exists d].
  destruct (repair_total fuel (Soup.get_text div "")) as (repaired & ->).
  cbn [bind]. pose proof (loads_decoded limit repaired) as Hdecoded.
  destruct (Json.loads limit repaired) as [example|e|]; cbn [decoded] in Hdecoded.
  - eexists. split; [reflexivity |]. split; [|reflexivity].
    unfold same_documentation. cbn. now repeat split.
  - destruct e; try contradiction;
      [split; [now left | reflexivity] | now exists d
      | split; [now right | reflexivity]].
  - contradiction.
Qed.

Lemma scrape_doc_section_yields_record_witness :
  exists r,
    scrape_doc_section 4 8 (Soup.root Examples.get_clips) = Ok (Some r)
    /\ same_documentation Examples.doc_get_clips r
    /\ example_response r = Some Examples.clips_example.
Proof.
  apply (scrape_doc_section_yields_record 0 8
           (Soup.root Examples.get_clips)
           Examples.get_clips_left Examples.get_clips_right
           Examples.doc_get_clips);
    reflexivity.
Defined.

(** X19.  [scrape_doc_section] fails in three ways.  An error raised while
    the left column is scraped is passed on.  Without a [right-code]
    section behind the tag it raises an [AttributeError], whatever the left
    column gave.  And when no [left-docs] section follows while the right
    column holds an example that decodes, it raises a [TypeError]. *)
Theorem scrape_doc_section_errors (fuel limit : nat) (tag : Soup.Node) :
  (forall left_column e,
     Soup.find_next tag "section" [("class", "left-docs")] = Some left_column ->
     scrape_doc_left_column left_column = Raise e ->
     scrape_doc_section fuel limit tag = Raise e)
  /\ (match Soup.find_next tag "section" [("class", "left-docs")] with
      | Some left_column => exists d, scrape_doc_left_column left_column = Ok d
      | None => True
      end ->
      Soup.find_next tag "section" [("class", "right-code")] = None ->
      scrape_doc_section fuel limit tag = Raise AttributeError)
  /\ (forall right_column div example,
        Soup.find_next tag "section" [("class", "left-docs")] = None ->
        Soup.find_next tag "section" [("class", "right-code")] = Some right_column ->
        Soup.find right_column "div" [("class", "language-json")] = Some div ->
        repair_then_load fuel limit (Soup.get_text div "") = Ok example ->
        scrape_doc_section fuel limit tag = Raise TypeError).
Proof.
  unfold scrape_doc_section. split; [|split].
  - intros left_column e Hleft He. now rewrite Hleft, He.
  - intros Hleft Hright.
    destruct (Soup.find_next tag "section" [("class", "left-docs")]) as [left_column|].
    + destruct Hleft as (d & ->). cbn [bind]. now rewrite Hright.
    + cbn [bind]. now rewrite Hright.
  - intros right_column div example Hleft Hright Hdiv Hload.
    rewrite Hleft, Hright. cbn [not_none bind]. rewrite Hdiv.
    unfold repair_then_load in Hload.
    destruct (repair fuel (Soup.get_text div "")) as [repaired| |];
      cbn [bind] in Hload |- *; try discriminate.
    now rewrite Hload.
Qed.

Lemma scrape_doc_section_errors_witness :
  scrape_doc_section 4 1
    (Soup.mkNode (Tag "section" ∅ [])
       [Tag "section" (Examples.with_class "right-code")
          [Tag "div" (Examples.with_class "language-json")
             [NavigableString "{}"]]])
  = Raise TypeError.
Proof.
  apply (proj2 (proj2 (scrape_doc_section_errors 4 1
                         (Soup.mkNode (Tag "section" ∅ [])
                            [Tag "section" (Examples.with_class "right-code")
                               [Tag "div" (Examples.with_class "language-json")
                                  [NavigableString "{}"]]])))
           (Tag "section" (Examples.with_class "right-code")
              [Tag "div" (Examples.with_class "language-json")
                 [NavigableString "{}"]])
           (Tag "div" (Examples.with_class "language-json") [NavigableString "{}"])
           (JObject []));
    reflexivity.
Defined.

(** X25.  When a [left-docs] section follows the tag and is scraped
    without error, a [right-code] section follows it too, and the text of
    the [language-json] block, if there is one, holds no more than 4300
    digits and no more opening brackets and braces than the decoder may
    enter, [scrape_doc_section] raises nothing: it yields a record with
    the documentation entries of the left column. *)
Theorem scrape_doc_section_bounded_example
    (fuel limit : nat) (tag : Soup.Node)
    (left_column right_column : PageElement) (d : EndpointDoc) :
  Soup.find_next tag "section" [("class", "left-docs")] = Some left_column ->
  scrape_doc_left_column left_column = Ok d ->
  Soup.find_next tag "section" [("class", "right-code")] = Some right_column ->
  (forall block,
     Soup.find right_column "div" [("class", "language-json")] = Some block ->
     count Json.is_digit (Soup.get_text block "") <= Json.int_max_str_digits
     /\ count is_opening (Soup.get_text block "") <= limit) ->
  exists r,
    scrape_doc_section (4 + fuel) limit tag = Ok (Some r)
    /\ same_documentation d r.
Proof.
  intros Hleft Hd Hright Hbounded. unfold scrape_doc_section.
  rewrite Hleft, Hd. cbn [bind]. rewrite Hright. cbn [not_none bind].
  assert (Hsame : same_documentation d d)
    by (unfold same_documentation; now repeat split).
  destruct (Soup.find right_column "div" [("class", "language-json")]) as [div|];
    [|now exists d].
  destruct (Hbounded div eq_refl) as [Hdigits Hopening].
  destruct (repair_total fuel (Soup.get_text div "")) as (repaired & Hrepair).
  rewrite Hrepair. cbn [bind].
  pose proof (count_repair Json.is_digit _ _ _ eq_refl eq_refl eq_refl Hrepair)
    as Hdigits'.
  pose proof (count_repair is_opening _ _ _ eq_refl eq_refl eq_refl Hrepair)
    as Hopening'.
  pose proof (loads_decoded limit repaired) as Hdecoded.
  destruct (Json.loads limit repaired) as [example|e|]; cbn [decoded] in Hdecoded.
  - eexists. split; [reflexivity |].
    unfold same_documentation. cbn. now repeat split.
  - destruct e; try contradiction; [lia | now exists d | lia].
  - contradiction.
Qed.

Lemma scrape_doc_section_bounded_example_witness :
  exists r,
    scrape_doc_section 4 8 (Soup.root Examples.get_clips) = Ok (Some r)
    /\ same_documentation Examples.doc_get_clips r.
Proof.
  apply (scrape_doc_section_bounded_example 0 8
           (Soup.root Examples.get_clips)
           Examples.get_clips_left Examples.get_clips_right
           Examples.doc_get_clips); try reflexivity.
  intros block [= <-].
  split; apply Nat.leb_le; vm_compute; reflexivity.
Defined.

(** ** The page and the output *)

Section Page.

Lemma mapM_length {A B : Type} (f : A -> Result B) xs ys :
  mapM f xs = Ok ys -> length ys = length xs.
Proof.
  intros H. apply mapM_Forall2 in H. symmetry. now apply Forall2_length in H.
Qed.

Lemma walk_length fuel limit children results :
  walk fuel limit true children = Ok results ->
  length results = length (List.filter is_section (List.tl children)).
Proof.
  destruct children as [|first rest].
  - now intros [= <-].
  - rewrite walk_first, walk_sections. apply mapM_length.
Qed.

End Page.

(** X20.  When the page was fetched and [scrape_docs] ends without error,
    the page has a [body] with a [div] of class [main] below it, and the
    generator has yielded exactly one result for each child of that
    container, the first child apart, whose name case-folds to [section].
    Text nodes and other elements yield nothing. *)
Theorem scrape_docs_one_result_per_section
    (fuel limit : nat) (response : Response)
    (results : list (option EndpointDoc)) :
  ok response = true ->
  scrape_docs fuel limit response = Ok results ->
  exists body doc_section,
    Soup.find_node (Soup.root (soup response)) "body" [] = Some body
    /\ Soup.find_node body "div" [("class", "main")] = Some doc_section
    /\ length results
       = length (List.filter is_section
                   (List.tl (Soup.children_nodes doc_section))).
Proof.
  intros Hok. unfold scrape_docs. rewrite Hok. cbn [negb].
  destruct (Soup.find_node (Soup.root (soup response)) "body" []) as [body|];
    cbn [not_none bind]; [|discriminate].
  destruct (Soup.find_node body "div" [("class", "main")]) as [doc_section|]
    eqn:Hmain; cbn [not_none bind]; [|discriminate].
  intros Hwalk. exists body, doc_section.
  split; [reflexivity |]. split; [exact Hmain |]. exact (walk_length _ _ _ _ Hwalk).
Qed.

Lemma scrape_docs_one_result_per_section_witness :
  exists body doc_section,
    Soup.find_node (Soup.root Examples.page) "body" [] = Some body
    /\ Soup.find_node body "div" [("class", "main")] = Some doc_section
    /\ 2 = length (List.filter is_section
                     (List.tl (Soup.children_nodes doc_section))).
Proof.
  apply (scrape_docs_one_result_per_section 4 0 (mkResponse true Examples.page)
           [Some Examples.doc_get_streams; Some Examples.doc_get_users]);
    reflexivity.
Defined.

(** X21.  On a fetched page without [body], or whose [body] holds no [div]
    of class [main], [scrape_docs] raises an [AttributeError]. *)
Theorem scrape_docs_missing_container (fuel limit : nat) (response : Response) :
  ok response = true ->
  match Soup.find_node (Soup.root (soup response)) "body" [] with
  | Some body => Soup.find_node body "div" [("class", "main")] = None
  | None => True
  end ->
  scrape_docs fuel limit response = Raise AttributeError.
Proof.
  intros Hok. unfold scrape_docs. rewrite Hok. cbn [negb].
  destruct (Soup.find_node (Soup.root (soup response)) "body" []) as [body|];
    cbn [not_none bind]; [|reflexivity].
  now intros ->.
Qed.

Lemma scrape_docs_missing_container_witness :
  scrape_docs 4 0
    (mkResponse true
       (Tag "[document]" ∅ [Tag "html" ∅ [Tag "body" ∅ [Tag "div" ∅ []]]]))
  = Raise AttributeError.
Proof.
  apply (scrape_docs_missing_container 4 0
           (mkResponse true
              (Tag "[document]" ∅ [Tag "html" ∅ [Tag "body" ∅ [Tag "div" ∅ []]]])));
    reflexivity.
Defined.

(** X22.  The list [main] writes holds no empty record; every record in
    it was yielded by [scrape_docs], and it is no longer than the sequence
    of the results yielded. *)
Theorem main_drops_empty_results
    (fuel limit : nat) (response : Response) (docs : list EndpointDoc) :
  main fuel limit response = Ok docs ->
  exists results,
    scrape_docs fuel limit response = Ok results
    /\ Forall (fun d => d <> empty_doc /\ In (Some d) results) docs
    /\ length docs <= length results.
Proof.
  unfold main.
  destruct (scrape_docs fuel limit response) as [results| |]; cbn [bind];
    try discriminate.
  intros [= <-]. exists results. split; [reflexivity |].
  induction results as [|r results [IHall IHlen]];
    [cbn; split; [constructor | lia] |].
  cbn [omap list_omap]. destruct (falsy r) eqn:Hfalsy.
  - split; [|cbn [length]; lia].
    eapply Forall_impl; [exact IHall |]. cbn beta.
    intros d' [Hne Hin]. split; [exact Hne | now right].
  - destruct r as [d|]; [|discriminate Hfalsy].
    split; [|cbn [length]; lia]. constructor.
    + split; [|now left]. intros ->. discriminate Hfalsy.
    + eapply Forall_impl; [exact IHall |]. cbn beta.
      intros d' [Hne Hin]. split; [exact Hne | now right].
Qed.

Lemma main_drops_empty_results_witness :
  exists results,
    scrape_docs 4 0 (mkResponse true Examples.page) = Ok results
    /\ Forall (fun d => d <> empty_doc /\ In (Some d) results)
         [Examples.doc_get_streams; Examples.doc_get_users]
    /\ length [Examples.doc_get_streams; Examples.doc_get_users] <= length results.
Proof.
  apply (main_drops_empty_results 4 0 (mkResponse true Examples.page)).
  reflexivity.
Defined.

(** ** The summary *)

Section Stripping.

Variable p : ascii -> bool.

Implicit Types s r b : string.

Lemma rstrip_by_idempotent s : Py.rstrip_by p (Py.rstrip_by p s) = Py.rstrip_by p s.
Proof.
  induction s as [|c s IH]; [reflexivity |]. cbn [Py.rstrip_by].
  destruct (Py.rstrip_by p s) as [|d r] eqn:Hr.
  - destruct (p c) eqn:Hc; [reflexivity |]. cbn. now rewrite Hc.
  - cbn [Py.rstrip_by] in *. now rewrite IH.
Qed.

(** What is stripped on the right keeps its first character when that
    character is not to be stripped. *)
Lemma rstrip_by_head c s :
  p c = false -> exists r, Py.rstrip_by p (String c s) = String c r.
Proof.
  intros Hc. cbn [Py.rstrip_by].
  destruct (Py.rstrip_by p s); [rewrite Hc |]; eauto.
Qed.

Lemma lstrip_by_fixed s :
  Py.lstrip_by p s = s <-> match s with String c _ => p c = false | "" => True end.
Proof.
  destruct s as [|c s]; [tauto |]. cbn [Py.lstrip_by].
  destruct (p c) eqn:Hc; [|tauto].
  split; [|discriminate]. intros H.
  assert (Hlen : forall t, String.length (Py.lstrip_by p t) <= String.length t).
  { induction t as [|d t IH]; [cbn; lia |]. cbn [Py.lstrip_by].
    destruct (p d); cbn; lia. }
  specialize (Hlen s). rewrite H in Hlen. cbn in Hlen. lia.
Qed.

Lemma lstrip_rstrip_lstrip s :
  Py.lstrip_by p (Py.rstrip_by p (Py.lstrip_by p s))
  = Py.rstrip_by p (Py.lstrip_by p s).
Proof.
  induction s as [|c s IH]; [reflexivity |]. cbn [Py.lstrip_by].
  destruct (p c) eqn:Hc; [exact IH |].
  destruct (rstrip_by_head c s Hc) as (r & ->). cbn [Py.lstrip_by]. now rewrite Hc.
Qed.

(** Appending behind a text that neither is empty nor ends with a
    character to strip. *)
Lemma rstrip_by_append r b :
  b <> "" -> Py.rstrip_by p b = b -> Py.rstrip_by p (r +:+ b) = r +:+ b.
Proof.
  intros Hb Hfix. induction r as [|c r IH]; [exact Hfix |].
  change (String c r +:+ b) with (String c (r +:+ b)). cbn [Py.rstrip_by].
  rewrite IH. destruct (r +:+ b) eqn:Hrb; [|reflexivity].
  destruct r; [cbn in Hrb; congruence | discriminate].
Qed.

(** Appending characters that are all stripped. *)
Lemma rstrip_by_append_stripped s r :
  Py.rstrip_by p r = "" -> Py.rstrip_by p (s +:+ r) = Py.rstrip_by p s.
Proof.
  intros Hr. induction s as [|c s IH]; [exact Hr |].
  change (String c s +:+ r) with (String c (s +:+ r)). cbn [Py.rstrip_by].
  now rewrite IH.
Qed.

Lemma lstrip_by_append s r :
  s <> "" -> Py.lstrip_by p s = s -> Py.lstrip_by p (s +:+ r) = s +:+ r.
Proof.
  intros Hs Hfix. destruct s as [|c s]; [congruence |].
  apply lstrip_by_fixed in Hfix.
  change (String c s +:+ r) with (String c (s +:+ r)). cbn [Py.lstrip_by].
  now rewrite Hfix.
Qed.

End Stripping.

Section Trimmed.

Implicit Types s t : string.

Lemma strip_trimmed s : trimmed (Py.strip s).
Proof.
  unfold trimmed, Py.strip. split.
  - apply lstrip_rstrip_lstrip.
  - apply rstrip_by_idempotent.
Qed.

Lemma strip_of_trimmed s : trimmed s -> Py.strip s = s.
Proof. intros [Hl Hr]. unfold Py.strip. now rewrite Hl, Hr. Qed.

(** Two trimmed texts that are not empty, with anything between them. *)
Lemma trimmed_append s sep t :
  trimmed s -> s <> "" -> trimmed t -> t <> "" ->
  trimmed (s +:+ sep +:+ t) /\ s +:+ sep +:+ t <> "".
Proof.
  intros [Hls _] Hs [_ Hrt] Ht. split; [split |].
  - now apply lstrip_by_append.
  - rewrite <- append_assoc. now apply rstrip_by_append.
  - destruct s; [congruence | discriminate].
Qed.

(** Pieces that are trimmed and not empty join into a trimmed text. *)
Lemma join_trimmed sep pieces :
  Forall (fun x => trimmed x /\ x <> "") pieces ->
  trimmed (Py.join sep pieces) /\ (pieces <> [] -> Py.join sep pieces <> "").
Proof.
  induction 1 as [|x pieces [Hx Hne] Hall [IHt IHne]].
  - split; [now split | congruence].
  - destruct pieces as [|y pieces].
    + cbn [Py.join]. split; [exact Hx | now intros _].
    + change (Py.join sep (x :: y :: pieces))
        with (x +:+ sep +:+ Py.join sep (y :: pieces)).
      destruct (trimmed_append x sep (Py.join sep (y :: pieces))) as [Ht Hn];
        try assumption; [now apply IHne |].
      split; [exact Ht | now intros _].
Qed.

Lemma get_text_trimmed e sep : trimmed (Soup.get_text e sep).
Proof.
  unfold Soup.get_text. apply join_trimmed.
  apply List.Forall_forall. intros x Hin.
  apply List.filter_In in Hin as [Hin Hne].
  apply List.in_map_iff in Hin as (y & <- & _).
  split; [apply strip_trimmed |].
  unfold Soup.nonempty in Hne. apply negb_true_iff, String.eqb_neq in Hne.
  exact Hne.
Qed.

Lemma join_snoc sep pieces t :
  pieces <> [] -> Py.join sep (pieces ++ [t]) = Py.join sep pieces +:+ sep +:+ t.
Proof.
  induction pieces as [|x pieces IH]; [congruence |]. intros _.
  destruct pieces as [|y pieces]; [reflexivity |].
  change (Py.join sep ((x :: y :: pieces) ++ [t]))
    with (x +:+ sep +:+ Py.join sep ((y :: pieces) ++ [t])).
  rewrite IH by discriminate.
  change (Py.join sep (x :: y :: pieces))
    with (x +:+ sep +:+ Py.join sep (y :: pieces)).
  now rewrite !append_assoc.
Qed.

(** One more paragraph: the summary so far, a blank line and the new text,
    stripped. *)
Lemma summary_grows pieces t :
  Forall (fun x => trimmed x /\ x <> "") pieces ->
  trimmed t ->
  Py.strip (Py.join blank_line pieces +:+ blank_line +:+ t)
  = Py.join blank_line (pieces ++ if Soup.nonempty t then [t] else []).
Proof.
  intros Hall Ht.
  destruct (join_trimmed blank_line pieces Hall) as [Hjoin Hne].
  unfold Soup.nonempty.
  destruct (String.eqb_spec t "") as [-> | Htne]; cbn [negb].
  - rewrite List.app_nil_r. unfold Py.strip.
    destruct pieces as [|x pieces]; [reflexivity |].
    specialize (Hne ltac:(discriminate)).
    rewrite lstrip_by_append by (try apply Hjoin; exact Hne).
    rewrite rstrip_by_append_stripped by reflexivity. apply Hjoin.
  - destruct pieces as [|x pieces].
    + cbn [Py.join app]. unfold Py.strip.
      change (Py.lstrip_by Py.isspace ("" +:+ blank_line +:+ t))
        with (Py.lstrip_by Py.isspace t).
      destruct Ht as [-> ->]. reflexivity.
    + specialize (Hne ltac:(discriminate)).
      rewrite join_snoc by discriminate.
      apply strip_of_trimmed. now apply trimmed_append.
Qed.

End Trimmed.

Section Summary.

(** A paragraph met while the header cursor is the title. *)
Lemma left_column_step_summary doc t child :
  title doc = Some t ->
  Soup.name_is child "p" = true ->
  left_column_step (doc, Some t) child
  = Ok (set_summary
          (Py.strip
             (match summary doc with
              | Some s => if Soup.nonempty s then s else ""
              | None => ""
              end +:+ blank_line +:+ Soup.get_text child " "))
          doc,
        Some t).
Proof.
  intros Htitle Hp. unfold left_column_step.
  rewrite (name_is_exclusive child "p" "h2" Hp) by discriminate.
  rewrite Hp, Htitle. cbn [andb item bind header_is].
  now rewrite String.eqb_refl.
Qed.

Lemma left_column_loop_summary t ps : forall doc pieces,
  title doc = Some t ->
  summary doc = Some (Py.join blank_line pieces)
  \/ (summary doc = None /\ pieces = []) ->
  Forall (fun x => trimmed x /\ x <> "") pieces ->
  Forall (fun p => Soup.name_is p "p" = true) ps ->
  left_column_loop (doc, Some t) ps
  = Ok (match ps with
        | [] => doc
        | _ =>
            set_summary
              (Py.join blank_line
                 (pieces ++ List.filter Soup.nonempty
                              (map (fun p => Soup.get_text p " ") ps)))
              doc
        end,
        Some t).
Proof.
  induction ps as [|p ps IH]; intros doc pieces Htitle Hsummary Hpieces Hps;
    [reflexivity |].
  inversion Hps as [|? ? Hp Hps']; subst.
  cbn [left_column_loop]. rewrite (left_column_step_summary _ _ _ Htitle Hp).
  cbn [bind].
  assert (Hprev : match summary doc with
                  | Some s => if Soup.nonempty s then s else ""
                  | None => ""
                  end = Py.join blank_line pieces).
  { destruct Hsummary as [-> | [-> ->]]; [|reflexivity].
    unfold Soup.nonempty.
    now destruct (String.eqb_spec (Py.join blank_line pieces) "") as [-> |]. }
  rewrite Hprev, (summary_grows _ _ Hpieces (get_text_trimmed p " ")).
  set (text := Soup.get_text p " ").
  set (pieces' := pieces ++ if Soup.nonempty text then [text] else []).
  assert (Hpieces' : Forall (fun x => trimmed x /\ x <> "") pieces').
  { apply Forall_app. split; [exact Hpieces |].
    unfold Soup.nonempty. destruct (String.eqb_spec text "") as [|Hne]; cbn [negb];
      constructor; [|constructor].
    split; [apply get_text_trimmed | exact Hne]. }
  rewrite (IH (set_summary (Py.join blank_line pieces') doc) pieces');
    try assumption; [|now left].
  assert (Happ : pieces' ++ List.filter Soup.nonempty
                             (map (fun p => Soup.get_text p " ") ps)
                 = pieces ++ List.filter Soup.nonempty
                               (map (fun p => Soup.get_text p " ") (p :: ps))).
  { subst pieces'. cbn [map List.filter]. fold text.
    rewrite <- List.app_assoc. now destruct (Soup.nonempty text). }
  destruct ps as [|p' ps].
  - reflexivity.
  - rewrite Happ. reflexivity.
Qed.

End Summary.

(** X23.  When the children the left column reacts to are a level-2
    heading with a non-empty [id] followed by paragraphs only, the record
    returned has the text of the heading as its title and, as its summary,
    the non-empty texts of the paragraphs joined by blank lines. *)
Theorem scrape_doc_left_column_summary
    (tag h2 : PageElement) (ps : list PageElement) :
  List.filter relevant (Soup.children tag) = h2 :: ps ->
  titled h2 = true ->
  ps <> [] ->
  Forall (fun p => Soup.name_is p "p" = true) ps ->
  scrape_doc_left_column tag
  = Ok (mkEndpointDoc
          (Some (Py.join blank_line
                   (List.filter Soup.nonempty
                      (map (fun p => Soup.get_text p " ") ps))))
          None None (Some (Soup.get_text h2 " ")) None None None None None).
Proof.
  intros Hchildren Hh2 Hne Hps. unfold scrape_doc_left_column.
  rewrite left_column_loop_relevant, Hchildren. cbn [left_column_loop].
  assert (Hstep : left_column_step (empty_doc, None) h2
                  = Ok (set_title (Soup.get_text h2 " ") empty_doc,
                        Some (Soup.get_text h2 " "))).
  { unfold left_column_step. unfold titled in Hh2. now rewrite Hh2. }
  rewrite Hstep. cbn [bind].
  rewrite (left_column_loop_summary _ ps _ []); try assumption;
    [|reflexivity | now right | constructor].
  destruct ps; [congruence | reflexivity].
Qed.

Lemma scrape_doc_left_column_summary_witness :
  scrape_doc_left_column
    (Tag "section" ∅
       [Tag "h2" {[ "id" := AttrStr "get-streams" ]} [NavigableString "Get Streams"];
        Examples.p " Gets a list of streams. ";
        Examples.p "";
        Examples.p "The list is in descending order."])
  = Ok (mkEndpointDoc
          (Some ("Gets a list of streams." +:+ blank_line
                 +:+ "The list is in descending order."))
          None None (Some "Get Streams") None None None None None).
Proof.
  apply (scrape_doc_left_column_summary
           (Tag "section" ∅
              [Tag "h2" {[ "id" := AttrStr "get-streams" ]}
                 [NavigableString "Get Streams"];
               Examples.p " Gets a list of streams. ";
               Examples.p "";
               Examples.p "The list is in descending order."])
           (Tag "h2" {[ "id" := AttrStr "get-streams" ]}
              [NavigableString "Get Streams"])
           [Examples.p " Gets a list of streams. "; Examples.p "";
            Examples.p "The list is in descending order."]).
  - reflexivity.
  - reflexivity.
  - discriminate.
  - repeat constructor.
Defined.

(** ** Scopes *)

(** The strong elements below a tag, child by child: a child that is a
    strong element comes first, then the strong elements below it. *)
Lemma find_all_children tag n :
  find_all tag n
  = flat_map (fun child =>
                (if Soup.matches n [] child then [child] else [])
                ++ find_all child n)
             (Soup.children tag).
Proof.
  unfold find_all. destruct tag as [text|m attrs children]; [reflexivity |].
  cbn [Soup.descendants Soup.children].
  induction children as [|c cs IH]; [reflexivity |].
  cbn [map concat flat_map]. rewrite List.filter_app, IH.
  cbn [List.filter app]. now destruct (Soup.matches n [] c).
Qed.

Lemma casefold_trimmed s : trimmed s -> trimmed (Py.casefold s).
Proof.
  intros [Hl Hr].
  assert (Hspace : forall c, Py.isspace (Py.casefold_char c) = Py.isspace c)
    by (intros c; split_ascii c; reflexivity).
  assert (Hlstrip : forall t,
             Py.lstrip_by Py.isspace (Py.casefold t)
             = Py.casefold (Py.lstrip_by Py.isspace t)).
  { induction t as [|c t IH]; [reflexivity |].
    cbn [Py.casefold Py.lstrip_by]. rewrite Hspace.
    destruct (Py.isspace c); [exact IH | reflexivity]. }
  assert (Hrstrip : forall t,
             Py.rstrip_by Py.isspace (Py.casefold t)
             = Py.casefold (Py.rstrip_by Py.isspace t)).
  { induction t as [|c t IH]; [reflexivity |].
    cbn [Py.casefold Py.rstrip_by]. rewrite IH, Hspace.
    destruct (Py.rstrip_by Py.isspace t); cbn [Py.casefold];
      [now destruct (Py.isspace c) | reflexivity]. }
  split; [now rewrite Hlstrip, Hl | now rewrite Hrstrip, Hr].
Qed.

(** X24.  [pull_scopes] returns its scopes in document order: the result
    for a tag is made, child after child, of the scope of the child itself
    when it is a [strong] element, followed by the scopes found below that
    child.  The scopes are those of the [strong] elements below the tag,
    one for one: each is the text of its element, case-folded, and carries
    no white space at either end. *)
Theorem pull_scopes_document_order (tag : PageElement) :
  pull_scopes tag
  = flat_map (fun child => own_scope child ++ pull_scopes child)
             (Soup.children tag)
  /\ Forall2 (fun scope_tag scope =>
                scope = Py.casefold (Soup.get_text scope_tag " ")
                /\ Py.casefold scope = scope
                /\ trimmed scope)
             (find_all tag "strong") (pull_scopes tag).
Proof.
  split.
  - unfold pull_scopes at 1. rewrite find_all_children.
    induction (Soup.children tag) as [|c cs IH]; [reflexivity |].
    cbn [flat_map]. rewrite !List.map_app, IH. f_equal. f_equal.
    unfold own_scope, Soup.matches. cbn [forallb]. rewrite andb_true_r.
    now destruct (Soup.name_is c "strong").
  - unfold pull_scopes.
    induction (find_all tag "strong") as [|scope_tag l IH]; constructor;
      [|exact IH].
    split; [reflexivity |]. split; [apply casefold_idempotent |].
    apply casefold_trimmed, get_text_trimmed.
Qed.
